(** * send_and_upload.js: the size-gated transfer pipeline

    A shallow embedding of [src/send_and_upload.js] (a Node script that takes a
    Pixeldrain link, downloads the file or the folder behind it and relays it
    to a Telegram chat, or sends direct links when the content is over the
    upload budget), and the properties of the pipeline stated over it.

    Conventions of the model.
    - A JavaScript string is a [string]; each character stands for one code
      unit, so [String.length] is [.length] for text in the 8-bit range.  The
      literals with symbols outside ASCII are written in UTF-8, where a symbol
      takes up to two characters more than its one code unit; no property
      rests on the length of such a literal but for bounds that this does not
      decide.
    - A JavaScript number is [NaN] or a double of integer value ([JsNum]);
      sums are rounded as those of doubles ([double_round]).  Fractions and
      infinities are outside the model.
    - Everything outside the script (the HTTP services, the child processes,
      the host's [Number] and [decodeURIComponent]) is a parameter.  The
      services and processes are the fields of a [World]: each answers from the
      arguments of the call and the events so far.
    - The script's effects are a trace of [Event]s and a file system
      ([gmap string Node]); exceptions are the [Throw] result of the monad [M]. *)

From Stdlib Require Import ZArith Ascii String DecimalString Lia.
From stdpp Require Import base option strings list gmap fin_maps.

Open Scope Z_scope.

(** ** Strings *)

Module Str.

Definition nl : string := String "010" "".
Definition dquote : ascii := "034".

(** [Array.prototype.join]. *)
Fixpoint join (sep : string) (l : list string) : string :=
  match l with
  | [] => ""
  | [x] => x
  | x :: r => x +:+ sep +:+ join sep r
  end.

Fixpoint map_chars (f : ascii → ascii) (s : string) : string :=
  match s with
  | "" => ""
  | String c r => String (f c) (map_chars f r)
  end.

(** The longest prefix of [s] whose characters satisfy [p], and the rest. *)
Fixpoint span (p : ascii → bool) (s : string) : string * string :=
  match s with
  | "" => ("", "")
  | String c r =>
      if p c then let '(a, b) := span p r in (String c a, b) else ("", s)
  end.

Definition is_empty (s : string) : bool :=
  match s with "" => true | _ => false end.

(** ASCII case folding, as the [i] flag of a regular expression without the
    [u] flag does it on characters below 128. *)
Definition lower (c : ascii) : ascii :=
  let n := N_of_ascii c in
  if ((65 <=? n) && (n <=? 90))%N then ascii_of_N (n + 32) else c.

(** Match the literal [lit] at the start of [s], ignoring case; the rest of
    [s] on success. *)
Fixpoint lit_ci (lit s : string) : option string :=
  match lit with
  | "" => Some s
  | String a lit' =>
      match s with
      | "" => None
      | String b s' => if Ascii.eqb (lower a) (lower b) then lit_ci lit' s' else None
      end
  end.

(** An optional literal ([(?:lit)?]) followed by something that cannot start
    the way [lit] does: taken when present. *)
Definition opt_lit_ci (lit s : string) : string :=
  match lit_ci lit s with Some r => r | None => s end.

(** Unanchored search: the first position of [s] at which [at_pos] matches. *)
Fixpoint re_search {A} (at_pos : string → option A) (s : string) : option A :=
  match at_pos s with
  | Some c => Some c
  | None => match s with "" => None | String _ r => re_search at_pos r end
  end.

(** The character [c] occurs in [s]. *)
Fixpoint has_char (c : ascii) (s : string) : bool :=
  match s with
  | "" => false
  | String d r => Ascii.eqb c d || has_char c r
  end.

(** [sub] occurs in [s]. *)
Definition contains (sub s : string) : Prop :=
  ∃ pre post, s = pre +:+ sub +:+ post.

End Str.

Import Str.

(** ** Numbers *)

Inductive JsNum :=
| NaN
| Num (z : Z).

(** [x > y]: false when either side is [NaN]. *)
Definition js_gt (x y : JsNum) : bool :=
  match x, y with
  | Num a, Num b => b <? a
  | _, _ => false
  end.

(** Truthiness of a number: neither 0 nor [NaN]. *)
Definition num_truthy (x : JsNum) : bool :=
  match x with
  | Num z => negb (z =? 0)
  | NaN => false
  end.

(** Truthiness of a string ([if (len)], [!link]): not empty. *)
Definition str_truthy (s : option string) : bool :=
  match s with
  | Some s => negb (is_empty s)
  | None => false
  end.

(** Template-literal rendering of an integer. *)
Definition num_to_string (z : Z) : string :=
  NilZero.string_of_int (Z.to_int z).

(** The numbers of the script are IEEE-754 doubles.  [double_round z] is the
    double nearest to the integer [z], the even one of two that are equally
    near: [z] itself up to [2^53], and beyond that the nearest multiple of the
    spacing [2^e] of the doubles around [z] (53 significant bits are kept).
    Doubles end near [2^1024]; sizes do not get there. *)
Definition double_round (z : Z) : Z :=
  let a := Z.abs z in
  if a <? 2 ^ 53 then z
  else
    let e := Z.log2 a - 52 in
    let q := a / 2 ^ e in
    let r := a mod 2 ^ e in
    let half := 2 ^ (e - 1) in
    let q' := if r <? half then q
              else if half <? r then q + 1
              else if Z.even q then q else q + 1 in
    Z.sgn z * (q' * 2 ^ e).

(** [a + b] on two doubles of integer value: the exact sum, rounded. *)
Definition js_add (a b : Z) : Z := double_round (a + b).

(** A decimal reading of digit strings, the form a Content-Length header or a
    byte budget takes; it stands for the host's [Number] in the examples. *)
Definition is_digit (c : ascii) : bool :=
  let n := N_of_ascii c in ((48 <=? n) && (n <=? 57))%N.

Fixpoint digits_value (acc : Z) (s : string) : option Z :=
  match s with
  | "" => Some acc
  | String c r =>
      if is_digit c
      then digits_value (10 * acc + Z.of_N (N_of_ascii c - 48)) r
      else None
  end.

Definition Number_decimal (s : string) : JsNum :=
  match s with
  | "" => Num 0
  | _ => match digits_value 0 s with Some z => Num z | None => NaN end
  end.

(** ** Constants and URL builders (lines 9-20) *)

Definition DEFAULT_MAX_BYTES : Z := 1900000000.

Definition fileApiUrl (id : string) : string := "https://pixeldrain.com/api/file/" +:+ id.
Definition folderApiUrl (id : string) : string := "https://pixeldrain.com/api/list/" +:+ id.
Definition tgApiUrl (token method : string) : string :=
  "https://api.telegram.org/bot" +:+ token +:+ "/" +:+ method.

(** The characters of the class in [escapeMarkdownV2]. *)
Definition md_special (c : ascii) : bool :=
  existsb (Ascii.eqb c) (list_ascii_of_string "_*[]()~`>#+-=|{}.!\").

Fixpoint escapeMarkdownV2 (s : string) : string :=
  match s with
  | "" => ""
  | String c r =>
      if md_special c
      then String "\" (String c (escapeMarkdownV2 r))
      else String c (escapeMarkdownV2 r)
  end.

(** How a MarkdownV2 reader takes an escaped text: a backslash makes the next
    character an ordinary one. *)
Fixpoint md_unescape (s : string) : string :=
  match s with
  | "" => ""
  | String c r =>
      if Ascii.eqb c "\"
      then match r with
           | "" => ""
           | String d r' => String d (md_unescape r')
           end
      else String c (md_unescape r)
  end.

(** *** The link patterns *)

Definition idchar (c : ascii) : bool :=
  let n := N_of_ascii c in
  (((65 <=? n) && (n <=? 90)) || ((97 <=? n) && (n <=? 122))
   || ((48 <=? n) && (n <=? 57)) || (n =? 95) || (n =? 45))%N.

(** [https?:\/\/(?:www\.)?pixeldrain\.com\/<kind>\/([A-Za-z0-9_-]+)] with the
    [i] flag, tried at the start of [s]; the result is group 1. *)
Definition pixel_re_at (kind : string) (s : string) : option string :=
  s1 ← lit_ci "http" s;
  s2 ← lit_ci "://" (opt_lit_ci "s" s1);
  s3 ← lit_ci ("pixeldrain.com/" +:+ kind +:+ "/") (opt_lit_ci "www." s2);
  let id := (span idchar s3).1 in
  if is_empty id then None else Some id.

Definition PIXEL_FILE_RE (link : string) : option string :=
  re_search (pixel_re_at "u") link.
Definition PIXEL_FOLDER_RE (link : string) : option string :=
  re_search (pixel_re_at "l") link.

(** The pattern of line 86 tried at the start of [s]; the result is
    [m[1] || m[2]]. *)
Definition filename_re_at (s : string) : option string :=
  match lit_ci "filename*=UTF-8''" s with
  | Some r =>
      let cap := (span (λ c, negb (Ascii.eqb c ";")) r).1 in
      if is_empty cap then None else Some cap
  | None =>
      r ← lit_ci "filename=" s;
      let r' := match r with
                | String c t => if Ascii.eqb c dquote then t else r
                | "" => r
                end in
      let cap := (span (λ c, negb (Ascii.eqb c dquote)) r').1 in
      if is_empty cap then None else Some cap
  end.

Definition match_filename (cd : string) : option string :=
  re_search filename_re_at cd.

(** ** Errors, responses, events *)

Record Error := mkError { err_name : string; err_message : string }.

Definition new_Error (msg : string) : Error := mkError "Error" msg.

(** [String(err.message || err)] *)
Definition err_text (e : Error) : string :=
  if is_empty (err_message e) then err_name e else err_message e.

Inductive Res (A : Type) :=
| Ok (a : A)
| Throw (e : Error).
Arguments Ok {A} a.
Arguments Throw {A} e.

(** The answer to a HEAD request. *)
Record HeadResp := mkHead {
  head_status : Z;
  content_disposition : option string;
  content_length : option string
}.

Definition status_ok (status : Z) : bool := (200 <=? status) && (status <=? 299).

(** A member of a folder listing: [{id, name, size}], [size] possibly absent;
    a size is a number of bytes, a double of integer value. *)
Record FileEntry := mkFile {
  f_id : string;
  f_name : string;
  f_size : option Z
}.

(** The answer to the listing request: the status and what [resp.json()]
    gives; [files] is [None] when the body is null, or has no array [files]. *)
Record ListResp := mkList {
  list_status : Z;
  list_json : Res (option (list FileEntry))
}.

(** The end of a child process: [res.error], or [res.status] (null after a
    signal). *)
Inductive Spawn :=
| SpawnError (e : Error)
| SpawnExit (status : option Z).

Inductive Event :=
| EvSendMessage (token chat_id text : string)
| EvHead (url : string)
| EvFetch (url : string)
| EvMkdtemp (dir : string)
| EvWget (url outPath : string)
| EvZip (zipPath cwd : string)
| EvCurl (args : list string).

(** The calls that reach the network. *)
Definition is_network_call (e : Event) : bool :=
  match e with
  | EvSendMessage _ _ _ | EvHead _ | EvFetch _ | EvWget _ _ | EvCurl _ => true
  | EvMkdtemp _ | EvZip _ _ => false
  end.

Definition is_send (e : Event) : bool :=
  match e with EvSendMessage _ _ _ => true | _ => false end.

Definition is_download (e : Event) : bool :=
  match e with EvWget _ _ => true | _ => false end.

Definition is_upload (e : Event) : bool :=
  match e with EvCurl _ => true | _ => false end.

(** The texts of the messages sent, in order. *)
Definition sent_texts (tr : list Event) : list string :=
  omap (λ e, match e with EvSendMessage _ _ text => Some text | _ => None end) tr.

(** The world: what each outside call answers, given the events so far. *)
Record World := mkWorld {
  (** [os.tmpdir()], a directory in normal form *)
  w_tmpdir : string;
  (** POST sendMessage: the [ok] of the JSON answer, or the exception of
      [fetch] / [resp.json()]. *)
  w_sendMessage : list Event → string → string → string → Res bool;
  (** HEAD: [None] when [fetch] throws. *)
  w_head : list Event → string → option HeadResp;
  w_fetch : list Event → string → Res ListResp;
  (** [mkdtempSync]: the random suffix, or the exception. *)
  w_mkdtemp : list Event → string → Res string;
  (** wget: how the process ends and the size of the file it leaves at the
      output path ([None]: it leaves none). *)
  w_wget : list Event → string → string → Spawn * option Z;
  (** zip: how the process ends and the size of the archive it leaves. *)
  w_zip : list Event → string → string → Spawn * option Z;
  w_curl : list Event → list string → Spawn
}.

(** [process.env] *)
Record Env := mkEnv {
  PIXEL_LINK : option string;
  TELEGRAM_BOT_TOKEN : option string;
  TELEGRAM_CHAT_ID : option string;
  MAX_UPLOAD_BYTES : option string
}.

(** A node of the file system. *)
Record Node := mkNode { is_dir : bool; node_size : Z }.

Record State := mkState {
  st_fs : gmap string Node;
  st_trace : list Event
}.

Definition log (e : Event) (s : State) : State :=
  mkState (st_fs s) (st_trace s ++ [e]).

Definition set_fs (fs : gmap string Node) (s : State) : State :=
  mkState fs (st_trace s).

(** ** The monad of the script: state and exceptions *)

Definition M (A : Type) : Type := State → Res A * State.

Definition ret {A} (a : A) : M A := λ s, (Ok a, s).
Definition throw {A} (e : Error) : M A := λ s, (Throw e, s).
Definition bind {A B} (m : M A) (k : A → M B) : M B :=
  λ s, match m s with
       | (Ok a, s') => k a s'
       | (Throw e, s') => (Throw e, s')
       end.

(** [try { m } catch { }] *)
Definition try_ignore {A} (m : M A) : M unit :=
  λ s, match m s with (_, s') => (Ok tt, s') end.

(** [try { m } finally { fin }]: [fin] runs on every way out of [m]; its own
    exception would replace the outcome of [m]. *)
Definition try_finally {A} (m : M A) (fin : M unit) : M A :=
  λ s, match m s with
       | (r, s') =>
           match fin s' with
           | (Ok _, s'') => (r, s'')
           | (Throw e, s'') => (Throw e, s'')
           end
       end.

Declare Scope js_scope.
Delimit Scope js_scope with js.
Notation "x <- m ;; k" := (bind m (λ x, k))
  (at level 100, m at next level, right associativity) : js_scope.
Notation "m ;; k" := (bind m (λ _, k))
  (at level 100, right associativity) : js_scope.
Open Scope js_scope.

(** ** The file system ([fs], [path]) *)

(** A path segment in the proper sense: a name that is not empty, is neither
    [.] nor [..], and holds no separator. *)
Definition segment (name : string) : bool :=
  negb (is_empty name) && negb (String.eqb name ".") && negb (String.eqb name "..")
  && negb (has_char "/" name).

(** [path.join(dir, name)] for a directory in normal form and a [segment]:
    there the normalisation of [path.join] has nothing to resolve and the
    result is the two put together ([posix_join_segment] below).  The script
    joins [os.tmpdir()] or the directory it made with a fixed name (lines 99,
    153), with the archive name of an identifier (line 164), and with a
    remote name whose separators it has replaced (lines 100, 159).  A remote
    name that is empty, [.] or [..] is not a segment: [path.join] gives the
    directory itself or its parent then, and the model does not follow it;
    the properties that rest on the place of a download are stated for
    segments. *)
Definition path_join (dir name : string) : string := dir +:+ "/" +:+ name.

(** Node's [path.join] on POSIX, for two arguments, as a reference for
    [path_join]: the arguments that are not empty are put together with a
    separator and the result is normalised as [path.normalize] does it.  The
    path is cut at the separators; empty segments and [.] are dropped; [..]
    takes back the segment before it, is dropped at the root and is kept at
    the head of a relative path; a trailing separator is kept, and the empty
    result is [.]. *)
Fixpoint split_slash (s : string) : list string :=
  match s with
  | "" => [""]
  | String c r =>
      if Ascii.eqb c "/" then "" :: split_slash r
      else match split_slash r with
           | x :: xs => String c x :: xs
           | [] => [String c ""]
           end
  end.

(** One more segment, on the segments kept so far (the last one first). *)
Definition norm_step (above : bool) (stack : list string) (seg : string) : list string :=
  if is_empty seg || String.eqb seg "." then stack
  else if String.eqb seg ".." then
    match stack with
    | top :: below => if String.eqb top ".." then seg :: stack else below
    | [] => if above then [seg] else []
    end
  else seg :: stack.

Fixpoint last_char (s : string) : option ascii :=
  match s with
  | "" => None
  | String c "" => Some c
  | String _ r => last_char r
  end.

Definition trailing_slash (s : string) : bool :=
  match last_char s with Some c => Ascii.eqb c "/" | None => false end.

Definition posix_normalize (path : string) : string :=
  if is_empty path then "."
  else
    let absolute := String.prefix "/" path in
    let kept := rev (fold_left (norm_step (negb absolute)) (split_slash path) []) in
    let p := join "/" kept in
    if is_empty p then
      if absolute then "/" else if trailing_slash path then "./" else "."
    else
      (if absolute then "/" else "") +:+ p +:+ (if trailing_slash path then "/" else "").

Definition posix_join (a b : string) : string :=
  match is_empty a, is_empty b with
  | true, true => "."
  | true, false => posix_normalize b
  | false, true => posix_normalize a
  | false, false => posix_normalize (a +:+ "/" +:+ b)
  end.

(** A directory in normal form, as [os.tmpdir()] and [mkdtempSync] give it:
    [path.normalize] leaves it as it is, and it is not empty, not [.], and
    has no trailing separator (so it is not the root). *)
Definition normal_dir (dir : string) : bool :=
  negb (is_empty dir) && String.eqb (posix_normalize dir) dir
  && negb (trailing_slash dir) && negb (String.eqb dir ".").

(** [p] is [dir] or lies below it. *)
Definition under (dir p : string) : bool :=
  String.eqb p dir || String.prefix (dir +:+ "/") p.

Definition ENOENT (call path : string) : Error :=
  new_Error ("ENOENT: no such file or directory, " +:+ call +:+ " '" +:+ path +:+ "'").

Definition statSync (path : string) : M Z :=
  λ s, match st_fs s !! path with
       | Some n => (Ok (node_size n), s)
       | None => (Throw (ENOENT "stat" path), s)
       end.

Definition unlinkSync (path : string) : M unit :=
  λ s, match st_fs s !! path with
       | Some n =>
           if is_dir n
           then (Throw (new_Error ("EISDIR: illegal operation on a directory, unlink '" +:+ path +:+ "'")), s)
           else (Ok tt, set_fs (delete path (st_fs s)) s)
       | None => (Throw (ENOENT "unlink" path), s)
       end.

(** [fs.rmdirSync(dir, { recursive: true })] *)
Definition rmdirSync_recursive (dir : string) : M unit :=
  λ s, match st_fs s !! dir with
       | Some n =>
           if is_dir n
           then (Ok tt, set_fs (filter (λ kv, under dir kv.1 = false) (st_fs s)) s)
           else (Throw (new_Error ("ENOTDIR: not a directory, rmdir '" +:+ dir +:+ "'")), s)
       | None => (Throw (ENOENT "rmdir" dir), s)
       end.

(** ** Concrete worlds and inputs, for the examples *)

Module Examples.

(** [decodeURIComponent] on a text without percent escapes. *)
Definition decode_plain (s : string) : Res string := Ok s.

(** [decodeURIComponent] that rejects every text: a malformed escape. *)
Definition decode_malformed (_ : string) : Res string :=
  Throw (mkError "URIError" "URI malformed").

(** A world where every service answers and every process exits 0: no HEAD
    answer, a download of 500 bytes, an archive of 400 bytes. *)
Definition calm : World :=
  mkWorld "/tmp"
    (λ _ _ _ _, Ok true)
    (λ _ _, None)
    (λ _ _, Throw (mkError "TypeError" "fetch failed"))
    (λ _ _, Ok "a1b2c3")
    (λ _ _ _, (SpawnExit (Some 0), Some 500))
    (λ _ _ _, (SpawnExit (Some 0), Some 400))
    (λ _ _, SpawnExit (Some 0)).

Definition with_head (h : HeadResp) (w : World) : World :=
  mkWorld (w_tmpdir w) (w_sendMessage w) (λ _ _, Some h) (w_fetch w)
    (w_mkdtemp w) (w_wget w) (w_zip w) (w_curl w).

Definition with_list (r : ListResp) (w : World) : World :=
  mkWorld (w_tmpdir w) (w_sendMessage w) (w_head w) (λ _ _, Ok r)
    (w_mkdtemp w) (w_wget w) (w_zip w) (w_curl w).

Definition with_wget (r : Spawn * option Z) (w : World) : World :=
  mkWorld (w_tmpdir w) (w_sendMessage w) (w_head w) (w_fetch w)
    (w_mkdtemp w) (λ _ _ _, r) (w_zip w) (w_curl w).

Definition with_zip (r : Spawn * option Z) (w : World) : World :=
  mkWorld (w_tmpdir w) (w_sendMessage w) (w_head w) (w_fetch w)
    (w_mkdtemp w) (w_wget w) (λ _ _ _, r) (w_curl w).

Definition with_curl (r : Spawn) (w : World) : World :=
  mkWorld (w_tmpdir w) (w_sendMessage w) (w_head w) (w_fetch w)
    (w_mkdtemp w) (w_wget w) (w_zip w) (λ _ _, r).

(** The Telegram transport is down: every [sendMessage] throws. *)
Definition with_telegram_down (w : World) : World :=
  mkWorld (w_tmpdir w) (λ _ _ _ _, Throw (mkError "TypeError" "fetch failed"))
    (w_head w) (w_fetch w) (w_mkdtemp w) (w_wget w) (w_zip w) (w_curl w).

Definition start : State := mkState ∅ [].

Definition env (link : string) (maxBytes : option string) : Env :=
  mkEnv (Some link) (Some "TOKEN") (Some "42") maxBytes.

Definition file_link : string := "https://pixeldrain.com/u/abc123".
Definition folder_link : string := "https://pixeldrain.com/l/xyz789".

Definition two_files : list FileEntry :=
  [mkFile "i1" "a.txt" (Some 300); mkFile "i2" "b.txt" None].

(** A listing that answers 404. *)
Definition not_found : World := with_list (mkList 404 (Ok None)) calm.

(** A listing with no member. *)
Definition empty_listing : World := with_list (mkList 200 (Ok (Some []))) calm.

(** A listing of two members, 300 bytes reported in all. *)
Definition listing : World := with_list (mkList 200 (Ok (Some two_files))) calm.

(** The same listing, with an archive of 2000 bytes. *)
Definition big_archive : World := with_zip (SpawnExit (Some 0), Some 2000) listing.

(** The same listing, with an upload that fails after the archive was made. *)
Definition upload_fails : World := with_curl (SpawnExit (Some 22)) listing.

(** A member whose name is [n] times the letter a. *)
Fixpoint letters (n : nat) : string :=
  match n with O => "" | S n => String "a" (letters n) end.


(** A probe answered with a Content-Length of 5000, of 0, and one that is no
    number. *)
Definition big_file : World := with_head (mkHead 200 None (Some "5000")) calm.
Definition zero_length : World := with_head (mkHead 200 None (Some "0")) calm.
Definition odd_length : World := with_head (mkHead 200 None (Some "many")) calm.

(** A link to another site. *)
Definition stray_link : string := "https://example.com/u/abc123".

(** A listing of two members of [2^53] bytes and of 1 byte. *)
Definition huge_pair : list FileEntry :=
  [mkFile "i1" "a.bin" (Some 9007199254740992); mkFile "i2" "b.bin" (Some 1)].

Definition huge_listing : World := with_list (mkList 200 (Ok (Some huge_pair))) calm.


(** A curl that exits with status 2, as it does when it is given no URL. *)
Definition curl_without_url (w : World) : World := with_curl (SpawnExit (Some 2)) w.

End Examples.

(** The world that differs from [w] in one thing: Telegram accepts (answers
    [ok] true to) every message that [w] answers at all.  Two worlds with the
    same image differ in the [ok] of their answers only. *)
Definition accepting (w : World) : World :=
  mkWorld (w_tmpdir w)
    (λ h token chat_id text,
       match w_sendMessage w h token chat_id text with
       | Ok _ => Ok true
       | Throw e => Throw e
       end)
    (w_head w) (w_fetch w) (w_mkdtemp w) (w_wget w) (w_zip w) (w_curl w).

(** ** The script *)

Section Pipeline.

(** The host's [Number] and [decodeURIComponent] (which throws a URIError on a
    malformed escape). *)
Variable Number : string → JsNum.
Variable decodeURIComponent : string → Res string.
Variable w : World.

Definition lift {A} (r : Res A) : M A := λ s, (r, s).

(** Lines 22-34.  A JSON answer with [ok] false is only logged. *)
Definition sendTelegramMessage (token chat_id text : string) : M unit :=
  λ s, let s' := log (EvSendMessage token chat_id text) s in
       match w_sendMessage w (st_trace s) token chat_id text with
       | Ok _ => (Ok tt, s')
       | Throw e => (Throw e, s')
       end.

Definition status_text (st : option Z) : string :=
  match st with Some z => num_to_string z | None => "null" end.

Definition exited_ok (st : option Z) : bool :=
  match st with Some z => z =? 0 | None => false end.

(** Lines 36-41, after [spawnSync] has returned [r]. *)
Definition runCmd_result (cmd : string) (args : list string) (r : Spawn) : M unit :=
  match r with
  | SpawnError e => throw e
  | SpawnExit st =>
      if exited_ok st then ret tt
      else throw (new_Error (cmd +:+ " " +:+ join " " args +:+ " exited " +:+ status_text st))
  end.

(** Lines 43-50. *)
Definition headUrl (url : string) : M (option HeadResp) :=
  λ s, (Ok (w_head w (st_trace s) url), log (EvHead url) s).

(** Lines 52-56. *)
Definition downloadWithWget (url outPath : string) : M unit :=
  λ s, let '(r, written) := w_wget w (st_trace s) url outPath in
       let fs' := match written with
                  | Some n => <[outPath := mkNode false n]> (st_fs s)
                  | None => st_fs s
                  end in
       runCmd_result "wget" ["-c"; "-O"; outPath; url] r
         (log (EvWget url outPath) (set_fs fs' s)).

(** [runCmd('zip', ['-r', zipPath, '.'], { cwd: tmpDir })] *)
Definition runZip (zipPath tmpDir : string) : M unit :=
  λ s, let '(r, written) := w_zip w (st_trace s) zipPath tmpDir in
       let fs' := match written with
                  | Some n => <[zipPath := mkNode false n]> (st_fs s)
                  | None => st_fs s
                  end in
       runCmd_result "zip" ["-r"; zipPath; "."] r
         (log (EvZip zipPath tmpDir) (set_fs fs' s)).

(** Lines 58-77.  The arguments are those of the source: the URL of
    [sendDocument] is computed there but is not among them. *)
Definition curl_args (chat_id filePath caption : string) : list string :=
  ["--silent"; "--show-error"; "--fail";
   "--form"; "chat_id=" +:+ chat_id;
   "--form"; "document=@" +:+ filePath]
  ++ (if is_empty caption then [] else ["--form"; "caption=" +:+ caption]).

Definition uploadDocumentCurl (token chat_id filePath caption : string) : M unit :=
  λ s, let args := curl_args chat_id filePath caption in
       let s' := log (EvCurl args) s in
       match w_curl w (st_trace s) args with
       | SpawnError e => (Throw e, s')
       | SpawnExit st =>
           if exited_ok st then (Ok tt, s')
           else (Throw (new_Error ("curl exited with " +:+ status_text st)), s')
       end.

Definition mkdtempSync (prefix : string) : M string :=
  λ s, match w_mkdtemp w (st_trace s) prefix with
       | Ok sfx =>
           let d := prefix +:+ sfx in
           (Ok d, log (EvMkdtemp d) (set_fs (<[d := mkNode true 0]> (st_fs s)) s))
       | Throw e => (Throw e, s)
       end.

(** *** handleFile (lines 79-118) *)

(** Lines 80-91: the probe, giving [filename] and [size] ([None] is null). *)
Definition probeFile (fileId : string) : M (string * option JsNum) :=
  let url := fileApiUrl fileId in
  let filename := "pixeldrain-" +:+ fileId in
  head <- headUrl url;;
  match head with
  | Some h =>
      if status_ok (head_status h) then
        let cd := default "" (content_disposition h) in
        filename <- match match_filename cd with
                    | Some raw => lift (decodeURIComponent raw)
                    | None => ret filename
                    end;;
        let len := content_length h in
        let size := if str_truthy len then Some (Number (default "" len)) else None in
        ret (filename, size)
      else ret (filename, None)
  | None => ret (filename, None)
  end.

(** [size && size > maxBytes] *)
Definition over_budget (size : option JsNum) (maxBytes : JsNum) : bool :=
  match size with
  | Some n => num_truthy n && js_gt n maxBytes
  | None => false
  end.

Definition js_num_string (n : JsNum) : string :=
  match n with NaN => "NaN" | Num z => num_to_string z end.

Definition msg_too_large (filename : string) (size : option JsNum) (url : string) : string :=
  "❗ File *" +:+ escapeMarkdownV2 filename +:+ "* is too large to auto-upload ("
  +:+ from_option js_num_string "null" size
  +:+ " bytes). Here is the direct download URL:" +:+ nl
  +:+ "``" +:+ escapeMarkdownV2 url +:+ "``" +:+ nl +:+ nl
  +:+ "Use wget on your machine to download it.".

Definition msg_downloading (filename : string) : string :=
  "⬇️ Downloading *" +:+ escapeMarkdownV2 filename +:+ "*...".

Definition msg_after_download (url : string) : string :=
  "❗ After download file exceeds max allowed size. Not uploading. Direct URL:" +:+ nl
  +:+ "``" +:+ escapeMarkdownV2 url +:+ "``".

Definition msg_uploading (filename : string) : string :=
  "⬆️ Uploading *" +:+ escapeMarkdownV2 filename +:+ "* to Telegram (this may take a while)...".

Definition msg_uploaded (filename : string) : string :=
  "✅ Uploaded *" +:+ escapeMarkdownV2 filename +:+ "* successfully.".

(** [filename.replace(/\//g,'_')] *)
Definition safe_file_name (filename : string) : string :=
  map_chars (λ c, if Ascii.eqb c "/" then "_"%char else c) filename.

(** The [try] block of lines 101-112. *)
Definition handleFile_try (token chat_id url filename outPath : string) (maxBytes : JsNum) : M unit :=
  sendTelegramMessage token chat_id (msg_downloading filename);;
  downloadWithWget url outPath;;
  size <- statSync outPath;;
  if js_gt (Num size) maxBytes then
    sendTelegramMessage token chat_id (msg_after_download url)
  else
    sendTelegramMessage token chat_id (msg_uploading filename);;
    uploadDocumentCurl token chat_id outPath ("Uploaded from Pixeldrain: " +:+ filename);;
    sendTelegramMessage token chat_id (msg_uploaded filename).

(** The [finally] block of lines 113-117. *)
Definition handleFile_finally (outPath tmpDir : string) : M unit :=
  try_ignore (unlinkSync outPath);;
  try_ignore (rmdirSync_recursive tmpDir).

(** Lines 99-117: the staging directory, the [try] and the [finally]. *)
Definition handleFile_transfer (token chat_id url filename : string) (maxBytes : JsNum) : M unit :=
  tmpDir <- mkdtempSync (path_join (w_tmpdir w) "pixeldrain-");;
  let outPath := path_join tmpDir (safe_file_name filename) in
  try_finally
    (handleFile_try token chat_id url filename outPath maxBytes)
    (handleFile_finally outPath tmpDir).

Definition handleFile (token chat_id fileId : string) (maxBytes : JsNum) : M unit :=
  let url := fileApiUrl fileId in
  probed <- probeFile fileId;;
  let '(filename, size) := probed in
  if over_budget size maxBytes then
    sendTelegramMessage token chat_id (msg_too_large filename size url)
  else
    handleFile_transfer token chat_id url filename maxBytes.

(** *** handleFolder (lines 120-185) *)

Definition fetchList (api : string) : M ListResp :=
  λ s, (w_fetch w (st_trace s) api, log (EvFetch api) s).

(** The value of [f.size] when it is truthy: present and not 0. *)
Definition size_truthy (f : FileEntry) : option Z :=
  match f_size f with
  | Some z => if z =? 0 then None else Some z
  | None => None
  end.

(** Line 133: [json.files.reduce((s,f)=>s + (f.size || 0), 0)], each [+] the
    addition of doubles. *)
Definition totalBytes (files : list FileEntry) : Z :=
  fold_left (λ s f, js_add s (default 0 (size_truthy f))) files 0.

(** Line 136: the line of one member. *)
Definition member_line (f : FileEntry) : string :=
  "- " +:+ escapeMarkdownV2 (f_name f) +:+ " ("
  +:+ from_option num_to_string "unknown" (size_truthy f) +:+ " bytes)" +:+ nl
  +:+ "``" +:+ escapeMarkdownV2 (fileApiUrl (f_id f)) +:+ "``".

Definition sep2 : string := nl +:+ nl.

(** Line 138: the first message of the link fallback. *)
Definition msg_folder_too_large (files : list FileEntry) (lines : list string) : string :=
  "❗ Folder contains " +:+ num_to_string (Z.of_nat (length files))
  +:+ " files, total size " +:+ num_to_string (totalBytes files)
  +:+ " bytes which is larger than allowed upload limit. Sending direct links instead:"
  +:+ sep2 +:+ join sep2 (take 20 lines) +:+ sep2 +:+ "(Only first 20 shown)".

Definition str_len (s : string) : Z := Z.of_nat (String.length s).

(** Lines 140-147: the loop over [lines], from the current [chunk] and
    [curLen]; the result is the chunk left at the end. *)
Fixpoint chunk_loop (token chat_id : string) (lines chunk : list string) (curLen : Z)
  : M (list string) :=
  match lines with
  | [] => ret chunk
  | line :: rest =>
      if 3000 <? curLen + str_len line then
        sendTelegramMessage token chat_id (join sep2 chunk);;
        chunk_loop token chat_id rest [line] (str_len line)
      else
        chunk_loop token chat_id rest (chunk ++ [line]) (curLen + str_len line)
  end.

(** Lines 140-148: the loop and the last chunk. *)
Definition send_in_chunks (token chat_id : string) (lines chunk : list string) (curLen : Z)
  : M unit :=
  chunk <- chunk_loop token chat_id lines chunk curLen;;
  match chunk with
  | [] => ret tt
  | _ => sendTelegramMessage token chat_id (join sep2 chunk)
  end.

(** Lines 136-149: the link fallback over all members. *)
Definition folder_link_fallback (token chat_id : string) (files : list FileEntry) : M unit :=
  let lines := map member_line files in
  sendTelegramMessage token chat_id (msg_folder_too_large files lines);;
  send_in_chunks token chat_id lines [] 0.

(** [f.name.replace(/[\/\\]/g, '_')] *)
Definition safeName (name : string) : string :=
  map_chars (λ c, if Ascii.eqb c "/" || Ascii.eqb c "\" then "_"%char else c) name.

(** Lines 156-162. *)
Fixpoint download_all (tmpDir : string) (files : list FileEntry) : M unit :=
  match files with
  | [] => ret tt
  | f :: rest =>
      downloadWithWget (fileApiUrl (f_id f)) (path_join tmpDir (safeName (f_name f)));;
      download_all tmpDir rest
  end.

(** Line 171: the message of one member after an archive over the budget. *)
Definition member_link (f : FileEntry) : string :=
  escapeMarkdownV2 (f_name f) +:+ " — ``" +:+ escapeMarkdownV2 (fileApiUrl (f_id f)) +:+ "``".

(** Lines 170-172. *)
Fixpoint send_links (token chat_id : string) (files : list FileEntry) : M unit :=
  match files with
  | [] => ret tt
  | f :: rest =>
      sendTelegramMessage token chat_id (member_link f);;
      send_links token chat_id rest
  end.

Definition zip_path (folderId : string) : string :=
  path_join (w_tmpdir w) ("pixeldrain-folder-" +:+ folderId +:+ ".zip").

Definition msg_zip_too_large (size : Z) : string :=
  "❗ Zip archive size " +:+ num_to_string size
  +:+ " bytes exceeds the allowed upload size. Sending direct links instead.".

(** The [try] block of lines 155-180. *)
Definition handleFolder_try (token chat_id folderId tmpDir : string)
    (files : list FileEntry) (maxBytes : JsNum) : M unit :=
  sendTelegramMessage token chat_id
    ("⬇️ Downloading " +:+ num_to_string (Z.of_nat (length files))
     +:+ " file(s) and preparing zip...");;
  download_all tmpDir files;;
  let zipPath := zip_path folderId in
  runZip zipPath tmpDir;;
  size <- statSync zipPath;;
  if js_gt (Num size) maxBytes then
    sendTelegramMessage token chat_id (msg_zip_too_large size);;
    send_links token chat_id files
  else
    sendTelegramMessage token chat_id
      ("⬆️ Uploading zip (" +:+ num_to_string size +:+ " bytes) to Telegram...");;
    uploadDocumentCurl token chat_id zipPath ("Pixeldrain folder " +:+ folderId);;
    sendTelegramMessage token chat_id "✅ Folder uploaded as zip.";;
    try_ignore (unlinkSync zipPath).

Definition handleFolder (token chat_id folderId : string) (maxBytes : JsNum) : M unit :=
  resp <- fetchList (folderApiUrl folderId);;
  if negb (status_ok (list_status resp)) then
    sendTelegramMessage token chat_id
      ("Failed to read folder " +:+ folderId +:+ ": HTTP " +:+ num_to_string (list_status resp))
  else
    json <- lift (list_json resp);;
    match json with
    | None | Some [] =>
        sendTelegramMessage token chat_id "Folder appears empty or returned no files."
    | Some files =>
        if js_gt (Num (totalBytes files)) maxBytes then
          folder_link_fallback token chat_id files
        else
          tmpDir <- mkdtempSync (path_join (w_tmpdir w) "pixeldrain-");;
          try_finally
            (handleFolder_try token chat_id folderId tmpDir files maxBytes)
            (try_ignore (rmdirSync_recursive tmpDir))
    end.

(** *** The main function (lines 187-223) *)

Definition msg_start : string := "🚀 Received Pixeldrain link, starting process...".
Definition err_no_link : Error := new_Error "No pixeldrain link found in PIXEL_LINK.".

Definition max_bytes (env : Env) : JsNum :=
  if str_truthy (MAX_UPLOAD_BYTES env)
  then Number (default "" (MAX_UPLOAD_BYTES env))
  else Num DEFAULT_MAX_BYTES.

(** The [try] block of lines 189-211. *)
Definition main_try (env : Env) : M unit :=
  let link := default "" (PIXEL_LINK env) in
  let token := default "" (TELEGRAM_BOT_TOKEN env) in
  let chat_id := default "" (TELEGRAM_CHAT_ID env) in
  let maxBytes := max_bytes env in
  if negb (str_truthy (PIXEL_LINK env)) then
    throw (new_Error "PIXEL_LINK environment variable missing")
  else if negb (str_truthy (TELEGRAM_BOT_TOKEN env)) then
    throw (new_Error "TELEGRAM_BOT_TOKEN environment variable missing")
  else if negb (str_truthy (TELEGRAM_CHAT_ID env)) then
    throw (new_Error "TELEGRAM_CHAT_ID environment variable missing")
  else
    sendTelegramMessage token chat_id msg_start;;
    match PIXEL_FILE_RE link, PIXEL_FOLDER_RE link with
    | Some fileId, _ => handleFile token chat_id fileId maxBytes
    | None, Some folderId => handleFolder token chat_id folderId maxBytes
    | None, None => throw err_no_link
    end.

Definition msg_error (err : Error) : string :=
  "❌ Error in upload script: " +:+ escapeMarkdownV2 (err_text err).

(** The [catch] block of lines 213-220, before [process.exit(1)]. *)
Definition main_catch (env : Env) (err : Error) : M unit :=
  try_ignore
    (if str_truthy (TELEGRAM_BOT_TOKEN env) && str_truthy (TELEGRAM_CHAT_ID env)
     then sendTelegramMessage (default "" (TELEGRAM_BOT_TOKEN env))
            (default "" (TELEGRAM_CHAT_ID env)) (msg_error err)
     else ret tt).

(** A run of the script: the exit code of the process and the final state. *)
Definition main (env : Env) (s : State) : Z * State :=
  match main_try env s with
  | (Ok _, s') => (0, s')
  | (Throw err, s') => (1, snd (main_catch env err s'))
  end.

(** ** Notions used to state the properties *)

(** The notification transport never throws in this world. *)
Definition sends_resolve : Prop :=
  ∀ h token chat_id text, ∃ ok, w_sendMessage w h token chat_id text = Ok ok.

Definition res_ok {A} (r : Res A) : bool :=
  match r with Ok _ => true | Throw _ => false end.

Definition spawn_ok (r : Spawn) : bool :=
  match r with SpawnExit st => exited_ok st | SpawnError _ => false end.

(** The call behind the event [e], made after the events [h], did not fail:
    no exception of the transport, exit status 0 of the process. *)
Definition attempt_ok (h : list Event) (e : Event) : bool :=
  match e with
  | EvSendMessage token chat_id text => res_ok (w_sendMessage w h token chat_id text)
  | EvFetch url => res_ok (w_fetch w h url)
  | EvWget url outPath => spawn_ok (w_wget w h url outPath).1
  | EvZip zipPath cwd => spawn_ok (w_zip w h zipPath cwd).1
  | EvCurl args => spawn_ok (w_curl w h args)
  | EvHead _ | EvMkdtemp _ => true
  end.

Fixpoint attempts_ok (h : list Event) (evs : list Event) : bool :=
  match evs with
  | [] => true
  | e :: rest => attempt_ok h e && attempts_ok (h ++ [e]) rest
  end.

Definition is_some {A} (o : option A) : bool :=
  match o with Some _ => true | None => false end.

(** The three required values are present and not empty. *)
Definition config_present (env : Env) : bool :=
  str_truthy (PIXEL_LINK env) && str_truthy (TELEGRAM_BOT_TOKEN env)
  && str_truthy (TELEGRAM_CHAT_ID env).

Definition link_recognized (env : Env) : bool :=
  let link := default "" (PIXEL_LINK env) in
  is_some (PIXEL_FILE_RE link) || is_some (PIXEL_FOLDER_RE link).

(** The events of the error notification of [main_catch]. *)
Definition error_notification (env : Env) (err : Error) : list Event :=
  if str_truthy (TELEGRAM_BOT_TOKEN env) && str_truthy (TELEGRAM_CHAT_ID env)
  then [EvSendMessage (default "" (TELEGRAM_BOT_TOKEN env))
          (default "" (TELEGRAM_CHAT_ID env)) (msg_error err)]
  else [].

(** The link of [env] is a folder link and the listing request, made after the
    start notification, is answered by [resp]. *)
Definition folder_answer (env : Env) (s : State) (folderId : string) (resp : ListResp) : Prop :=
  let link := default "" (PIXEL_LINK env) in
  PIXEL_FILE_RE link = None ∧ PIXEL_FOLDER_RE link = Some folderId
  ∧ w_fetch w (st_trace (log (EvSendMessage (default "" (TELEGRAM_BOT_TOKEN env))
                                 (default "" (TELEGRAM_CHAT_ID env)) msg_start) s))
      (folderApiUrl folderId) = Ok resp.

(** FolderFetchFailed: a non-success status.  EmptyFolder: no listed file. *)
Definition folder_fetch_failed (resp : ListResp) : Prop :=
  status_ok (list_status resp) = false.

Definition empty_folder (resp : ListResp) : Prop :=
  status_ok (list_status resp) = true
  ∧ (list_json resp = Ok None ∨ list_json resp = Ok (Some [])).

(** The sum of the members' reported sizes, a missing size counted as 0. *)
Definition reported_total (files : list FileEntry) : Z :=
  foldr Z.add 0 (map (λ f, default 0 (f_size f)) files).

(** The chunks that lines 140-148 send, from the current [chunk] and [curLen]:
    the loop of [chunk_loop] without the sending. *)
Fixpoint chunks_from (lines chunk : list string) (curLen : Z) : list (list string) :=
  match lines with
  | [] => match chunk with [] => [] | _ => [chunk] end
  | line :: rest =>
      if 3000 <? curLen + str_len line then
        chunk :: chunks_from rest [line] (str_len line)
      else
        chunks_from rest (chunk ++ [line]) (curLen + str_len line)
  end.

Definition chunks (lines : list string) : list (list string) :=
  chunks_from lines [] 0.

(** The added lengths of the lines of a chunk (what [curLen] counts). *)
Definition sum_len (l : list string) : Z :=
  foldr (λ x acc, str_len x + acc) 0 l.

Definition send_events (token chat_id : string) (texts : list string) : list Event :=
  map (EvSendMessage token chat_id) texts.

(** The messages [send_in_chunks] sends for [lines], read off its trace. *)
Definition chunk_messages (token chat_id : string) (lines : list string) (s : State)
  : list string :=
  sent_texts (drop (length (st_trace s))
                (st_trace (send_in_chunks token chat_id lines [] 0 s).2)).


(** No network call is made before the failure: the only call of the run that
    reaches the network is the error notification. *)
Definition no_call_before_failure (env : Env) (err : Error) (tr : list Event) : Prop :=
  filter (λ e, is_network_call e = true) tr = error_notification env err.

(** Nothing of the staging area [tmpDir] is left in the file system. *)
Definition staging_removed (tmpDir : string) (fs : gmap string Node) : Prop :=
  ∀ p, under tmpDir p = true → fs !! p = None.

(** A computation whose successful runs made only calls that did not fail. *)
Definition clean {A} (m : M A) : Prop :=
  ∀ s a s', m s = (Ok a, s') →
    ∃ evs, st_trace s' = st_trace s ++ evs ∧ attempts_ok (st_trace s) evs = true.

(** A computation that makes no call. *)
Definition silent {A} (m : M A) : Prop :=
  ∀ s, st_trace (m s).2 = st_trace s.

(** The exit code as the specification words it for the two folder failures:
    a listing that cannot be read or has no member ends the process with
    code 1. *)
Definition folder_failure_exits_1 (env : Env) (s : State) : Prop :=
  ∀ folderId resp,
    folder_answer env s folderId resp →
    folder_fetch_failed resp ∨ empty_folder resp →
    (main env s).1 = 1.

(** The classification as the specification words it: with a link that
    matches neither pattern the run fails and its only network call is the
    error notification. *)
Definition unrecognized_without_calls (env : Env) (s : State) : Prop :=
  config_present env = true → link_recognized env = false →
  (main env s).1 = 1
  ∧ no_call_before_failure env err_no_link
      (drop (length (st_trace s)) (st_trace (main env s).2)).

(** The downloads of the members of a folder, in the order of the listing. *)
Definition wget_events (tmpDir : string) (files : list FileEntry) : list Event :=
  map (λ f, EvWget (fileApiUrl (f_id f)) (path_join tmpDir (safeName (f_name f)))) files.

(** Every download exits with status 0. *)
Definition downloads_succeed : Prop :=
  ∀ h url outPath, ∃ written, w_wget w h url outPath = (SpawnExit (Some 0), written).


(** ** Further notions, for the properties of the rest of the script *)

(** Every character of [s] satisfies [p]. *)
Fixpoint all_chars (p : ascii → bool) (s : string) : bool :=
  match s with
  | "" => true
  | String c r => p c && all_chars p r
  end.

(** Every character of the class of [escapeMarkdownV2] stands behind a
    backslash of its own: the text has no markup left. *)
Fixpoint well_escaped (s : string) : bool :=
  match s with
  | "" => true
  | String c r =>
      if Ascii.eqb c "\"
      then match r with
           | "" => false
           | String _ r' => well_escaped r'
           end
      else negb (md_special c) && well_escaped r
  end.

(** A link in the plain form of the two patterns. *)
Definition canonical_link (secure www : bool) (kind id : string) : string :=
  (if secure then "https" else "http") +:+ "://" +:+ (if www then "www." else "")
  +:+ "pixeldrain.com/" +:+ kind +:+ "/" +:+ id.

(** The events a computation adds to the trace when it runs from [s]. *)
Definition new_events {A} (m : M A) (s : State) : list Event :=
  drop (length (st_trace s)) (st_trace (m s).2).

(** The run of a computation from [s] adds to the trace only events that
    satisfy [P]. *)
Definition emits_at {A} (P : Event → bool) (m : M A) (s : State) : Prop :=
  ∃ evs, st_trace (m s).2 = st_trace s ++ evs ∧ forallb P evs = true.

(** A computation whose events, in every run, all satisfy [P]. *)
Definition emits {A} (P : Event → bool) (m : M A) : Prop :=
  ∀ s, emits_at P m s.

Definition not_upload (e : Event) : bool := negb (is_upload e).

(** A computation that writes to the file system only at paths in [P]. *)
Definition writes_only {A} (P : string → Prop) (m : M A) : Prop :=
  ∀ s p, ¬ P p → st_fs (m s).2 !! p = st_fs s !! p.


(** Every running total of the sizes, in the order of the listing, is a
    double: the additions of line 133 are exact on this listing. *)
Fixpoint exact_from (acc : Z) (files : list FileEntry) : bool :=
  match files with
  | [] => true
  | f :: rest =>
      let t := acc + default 0 (f_size f) in
      (double_round t =? t) && exact_from t rest
  end.

Definition exact_totals (files : list FileEntry) : bool := exact_from 0 files.

(** The budget of a folder as the specification words it: the total is the
    sum of the sizes reported, and a listing whose sum is over the budget is
    answered with links, without a download. *)
Definition over_total_falls_back (token chat_id folderId : string) (maxBytes : JsNum)
    (s : State) (files : list FileEntry) : Prop :=
  totalBytes files = reported_total files
  ∧ (js_gt (Num (reported_total files)) maxBytes = true →
     Forall (λ e, is_download e = false)
       (new_events (handleFolder token chat_id folderId maxBytes) s)).
(** * Properties *)

(** ** Strings and lists of lines *)

Lemma str_app_cons (c : ascii) (a b : string) : String c a +:+ b = String c (a +:+ b).
Proof. reflexivity. Qed.

Lemma str_app_assoc (a b c : string) : (a +:+ b) +:+ c = a +:+ (b +:+ c).
Proof.
  induction a as [|x a IH]; [reflexivity|].
  rewrite !str_app_cons. by rewrite IH.
Qed.

Lemma str_app_nil_r (a : string) : a +:+ "" = a.
Proof.
  induction a as [|x a IH]; [reflexivity|].
  rewrite str_app_cons. by rewrite IH.
Qed.

Lemma str_len_app (a b : string) : str_len (a +:+ b) = str_len a + str_len b.
Proof.
  unfold str_len. induction a as [|x a IH]; [reflexivity|].
  rewrite str_app_cons. cbn [String.length]. lia.
Qed.

Lemma str_len_nonneg (a : string) : 0 ≤ str_len a.
Proof. unfold str_len. lia. Qed.

Lemma contains_refl (s : string) : contains s s.
Proof. exists "", "". by rewrite str_app_nil_r. Qed.

Lemma contains_app_r (x a b : string) : contains x b → contains x (a +:+ b).
Proof.
  intros (pre & post & ->). exists (a +:+ pre), post.
  by rewrite str_app_assoc.
Qed.

Lemma contains_app_l (x a b : string) : contains x a → contains x (a +:+ b).
Proof.
  intros (pre & post & ->). exists pre, (post +:+ b).
  by rewrite !str_app_assoc.
Qed.

Lemma contains_head (a b c d : string) : contains (a +:+ b +:+ c) (a +:+ b +:+ c +:+ d).
Proof. exists "", d. cbn [append]. by rewrite !str_app_assoc. Qed.

(** Find the wanted text among the parts of a concatenation. *)
Ltac find_contains :=
  first [ apply contains_refl
        | apply contains_app_l, contains_refl
        | apply contains_app_r; find_contains ].

Lemma contains_trans (x y z : string) : contains x y → contains y z → contains x z.
Proof.
  intros Hxy (pre & post & ->).
  apply contains_app_r, contains_app_l, Hxy.
Qed.

Lemma contains_join (sep x : string) (l : list string) :
  x ∈ l → contains x (join sep l).
Proof.
  induction l as [|y l IH]; intros Hin; [by apply elem_of_nil in Hin|].
  apply elem_of_cons in Hin as [->|Hin].
  - destruct l; [apply contains_refl|].
    cbn [join]. apply contains_app_l, contains_refl.
  - destruct l as [|z l]; [by apply elem_of_nil in Hin|].
    cbn [join]. apply contains_app_r, contains_app_r, IH, Hin.
Qed.


Lemma sum_len_nonneg (a : list string) : 0 ≤ sum_len a.
Proof.
  induction a as [|x a IH]; [done|].
  cbn [sum_len foldr]. fold (sum_len a). pose proof (str_len_nonneg x). lia.
Qed.


(** ** The chunks *)

(** Order is kept and no line is split: the chunks, put end to end, are the
    lines. *)
Lemma chunks_from_concat (lines chunk : list string) (curLen : Z) :
  concat (chunks_from lines chunk curLen) = chunk ++ lines.
Proof.
  revert chunk curLen. induction lines as [|line rest IH]; intros chunk curLen.
  - cbn [chunks_from]. destruct chunk; cbn; by rewrite ?app_nil_r.
  - cbn [chunks_from]. case_match.
    + cbn [concat]. by rewrite IH.
    + rewrite IH. by rewrite <- app_assoc.
Qed.




(** Lines within 3000 characters in all make one chunk. *)
Lemma chunks_from_one (lines chunk : list string) (curLen : Z) :
  0 ≤ curLen → curLen + sum_len lines ≤ 3000 → chunk ++ lines ≠ [] →
  chunks_from lines chunk curLen = [chunk ++ lines].
Proof.
  revert chunk curLen. induction lines as [|line rest IH]; intros chunk curLen H0 Hle Hne.
  - cbn [chunks_from]. rewrite app_nil_r in *. by destruct chunk.
  - cbn [chunks_from]. cbn [sum_len foldr] in Hle. fold (sum_len rest) in Hle.
    pose proof (sum_len_nonneg rest). pose proof (str_len_nonneg line).
    case_match eqn:Hlt; [apply Z.ltb_lt in Hlt; lia|].
    rewrite IH; [by rewrite <- app_assoc|lia|lia|by destruct chunk].
Qed.



(** Every line is in one of the chunks. *)
Lemma chunks_cover (lines : list string) (x : string) :
  x ∈ lines → ∃ c, c ∈ chunks lines ∧ x ∈ c.
Proof.
  intros Hin. unfold chunks.
  pose proof (chunks_from_concat lines [] 0) as Hc. cbn [app] in Hc.
  rewrite <- Hc in Hin. apply list_elem_of_In, in_concat in Hin as (c & Hcin & Hx).
  exists c. by rewrite !list_elem_of_In.
Qed.

(** ** The total size *)

Lemma double_round_safe (z : Z) : 0 ≤ z ≤ 2 ^ 53 → double_round z = z.
Proof.
  intros Hz. destruct (Z.eq_dec z (2 ^ 53)) as [->|Hne]; [reflexivity|].
  unfold double_round. rewrite Z.abs_eq by lia.
  destruct (Z.ltb_spec z (2 ^ 53)); [done|lia].
Qed.

Lemma totalBytes_from (files : list FileEntry) (acc : Z) :
  exact_from acc files = true →
  fold_left (λ s f, js_add s (default 0 (size_truthy f))) files acc
  = acc + reported_total files.
Proof.
  revert acc. induction files as [|f files IH]; intros acc Hex.
  - cbn. lia.
  - cbn [exact_from] in Hex. apply andb_true_iff in Hex as [Hr Hex].
    apply Z.eqb_eq in Hr.
    assert (default 0 (size_truthy f) = default 0 (f_size f)) as Hsize.
    { unfold size_truthy. destruct (f_size f) as [z|]; [|done].
      destruct (Z.eqb_spec z 0) as [->|]; done. }
    cbn [fold_left]. unfold js_add. rewrite Hsize, Hr, IH by done.
    unfold reported_total. cbn [map foldr]. lia.
Qed.

(** On a listing whose running totals are doubles, the total of line 133 is
    the sum of the sizes reported. *)
Lemma totalBytes_reported (files : list FileEntry) :
  exact_totals files = true → totalBytes files = reported_total files.
Proof. intros Hex. unfold totalBytes. by rewrite totalBytes_from. Qed.

Lemma reported_total_nonneg (files : list FileEntry) :
  Forall (λ f, 0 ≤ default 0 (f_size f)) files → 0 ≤ reported_total files.
Proof.
  induction 1 as [|f files Hf _ IH]; [done|].
  unfold reported_total in *. cbn [map foldr]. lia.
Qed.

Lemma exact_from_safe (files : list FileEntry) (acc : Z) :
  0 ≤ acc → Forall (λ f, 0 ≤ default 0 (f_size f)) files →
  acc + reported_total files ≤ 2 ^ 53 →
  exact_from acc files = true.
Proof.
  revert acc. induction files as [|f files IH]; intros acc Hacc Hall Hsum; [done|].
  apply Forall_cons_1 in Hall as [Hf Hall].
  pose proof (reported_total_nonneg files Hall) as Hnn.
  unfold reported_total in Hsum, Hnn. cbn [map foldr] in Hsum.
  cbn [exact_from]. apply andb_true_iff. split.
  - apply Z.eqb_eq, double_round_safe. lia.
  - apply IH; [lia|done|]. unfold reported_total. lia.
Qed.

(** Sizes that are not negative and add up to at most [2^53]: every running
    total is a double. *)
Lemma exact_totals_safe (files : list FileEntry) :
  Forall (λ f, 0 ≤ default 0 (f_size f)) files → reported_total files ≤ 2 ^ 53 →
  exact_totals files = true.
Proof. intros Hall Hsum. apply exact_from_safe; [done|done|lia]. Qed.

(** ** The escaping *)

Lemma md_unescape_escape (s : string) : md_unescape (escapeMarkdownV2 s) = s.
Proof.
  induction s as [|c s IH]; [reflexivity|].
  cbn [escapeMarkdownV2]. destruct (md_special c) eqn:Hsp.
  - cbn [md_unescape]. rewrite Ascii.eqb_refl. by rewrite IH.
  - cbn [md_unescape]. destruct (Ascii.eqb_spec c "\") as [->|Hne].
    + by vm_compute in Hsp.
    + by rewrite IH.
Qed.

(** ** Running the notifier *)

Lemma state_eta (s : State) : mkState (st_fs s) (st_trace s) = s.
Proof. by destruct s. Qed.

Lemma log_app (e : Event) (s : State) (evs : list Event) :
  st_trace (log e s) ++ evs = st_trace s ++ e :: evs.
Proof. cbn. by rewrite <- app_assoc. Qed.

(** Put the states of a goal in the form [mkState fs (trace ++ events)]. *)
Ltac norm_state :=
  unfold log, set_fs; cbn [st_fs st_trace fst snd];
  rewrite <- ?app_assoc; cbn [app].

Lemma send_run (token chat_id text : string) (s : State) :
  ∃ r, sendTelegramMessage token chat_id text s
       = (r, log (EvSendMessage token chat_id text) s)
       ∧ res_ok r = attempt_ok (st_trace s) (EvSendMessage token chat_id text)
       ∧ (sends_resolve → r = Ok tt).
Proof.
  unfold sendTelegramMessage. cbn [attempt_ok].
  destruct (w_sendMessage w (st_trace s) token chat_id text) as [b|e] eqn:Hw.
  - exists (Ok tt). done.
  - exists (Throw e). split_and!; [done|done|].
    intros Hs. destruct (Hs (st_trace s) token chat_id text) as [ok Hok]. congruence.
Qed.

Lemma send_resolved (token chat_id text : string) (s : State) :
  sends_resolve →
  sendTelegramMessage token chat_id text s = (Ok tt, log (EvSendMessage token chat_id text) s).
Proof.
  intros Hs. destruct (send_run token chat_id text s) as (r & -> & _ & Hr).
  by rewrite Hr.
Qed.

Lemma sent_texts_app (a b : list Event) : sent_texts (a ++ b) = sent_texts a ++ sent_texts b.
Proof. unfold sent_texts. apply omap_app. Qed.

Lemma sent_texts_send_events (token chat_id : string) (texts : list string) :
  sent_texts (send_events token chat_id texts) = texts.
Proof.
  induction texts as [|x texts IH]; [done|].
  cbn. f_equal. apply IH.
Qed.

Lemma send_events_only_sends (token chat_id : string) (texts : list string) :
  Forall (λ e, is_send e = true) (send_events token chat_id texts).
Proof. induction texts; constructor; done. Qed.

(** In every world the messages of [send_in_chunks] are sends of the chunks,
    in order, up to the first send that throws; the file system is not
    touched. *)
Lemma send_in_chunks_sends (token chat_id : string) (lines chunk : list string)
    (curLen : Z) (s : State) :
  ∃ r texts,
    send_in_chunks token chat_id lines chunk curLen s
    = (r, mkState (st_fs s) (st_trace s ++ send_events token chat_id texts))
    ∧ texts `prefix_of` map (join sep2) (chunks_from lines chunk curLen)
    ∧ (sends_resolve →
       r = Ok tt ∧ texts = map (join sep2) (chunks_from lines chunk curLen)).
Proof.
  revert chunk curLen s. induction lines as [|line rest IH]; intros chunk curLen s.
  - unfold send_in_chunks, bind. cbn [chunk_loop chunks_from]. unfold ret at 1.
    destruct chunk as [|c chunk].
    + exists (Ok tt), []. cbn. rewrite app_nil_r, state_eta. done.
    + destruct (send_run token chat_id (join sep2 (c :: chunk)) s) as (r & -> & _ & Hr).
      exists r, [join sep2 (c :: chunk)]. split_and!; [done|done|].
      intros Hs. by rewrite (Hr Hs).
  - unfold send_in_chunks. cbn [chunk_loop chunks_from].
    destruct (3000 <? curLen + str_len line).
    + unfold bind at 1 2.
      destruct (send_run token chat_id (join sep2 chunk) s) as (r & -> & _ & Hr).
      destruct r as [[]|e].
      * destruct (IH [line] (str_len line) (log (EvSendMessage token chat_id (join sep2 chunk)) s))
          as (r' & texts & Hrun & Hpre & Hall).
        unfold send_in_chunks, bind in Hrun. rewrite Hrun.
        exists r', (join sep2 chunk :: texts). rewrite log_app. cbn [map].
        split_and!; [done|by apply prefix_cons|].
        intros Hs. by destruct (Hall Hs) as [-> ->].
      * exists (Throw e), [join sep2 chunk]. cbn [map].
        split_and!; [done|apply prefix_cons, prefix_nil|].
        intros Hs. by specialize (Hr Hs).
    + apply IH.
Qed.

Lemma folder_link_fallback_sends (token chat_id : string) (files : list FileEntry) (s : State) :
  let lines := map member_line files in
  ∃ r texts,
    folder_link_fallback token chat_id files s
    = (r, mkState (st_fs s) (st_trace s ++ send_events token chat_id texts))
    ∧ texts `prefix_of` (msg_folder_too_large files lines :: map (join sep2) (chunks lines))
    ∧ (sends_resolve →
       r = Ok tt
       ∧ texts = msg_folder_too_large files lines :: map (join sep2) (chunks lines)).
Proof.
  intros lines. unfold folder_link_fallback. fold lines. unfold bind.
  destruct (send_run token chat_id (msg_folder_too_large files lines) s) as (r & -> & _ & Hr).
  destruct r as [[]|e].
  - destruct (send_in_chunks_sends token chat_id lines [] 0
                (log (EvSendMessage token chat_id (msg_folder_too_large files lines)) s))
      as (r' & texts & -> & Hpre & Hall).
    exists r', (msg_folder_too_large files lines :: texts). rewrite log_app.
    split_and!; [done|by apply prefix_cons|].
    intros Hs. by destruct (Hall Hs) as [-> ->].
  - exists (Throw e), [msg_folder_too_large files lines].
    split_and!; [done|apply prefix_cons, prefix_nil|].
    intros Hs. by specialize (Hr Hs).
Qed.

(** With a listing over the budget, [handleFolder] is the listing request and
    then the link fallback. *)
Lemma handleFolder_over_budget (token chat_id folderId : string) (maxBytes : JsNum)
    (s : State) (resp : ListResp) (files : list FileEntry) :
  w_fetch w (st_trace s) (folderApiUrl folderId) = Ok resp →
  status_ok (list_status resp) = true →
  list_json resp = Ok (Some files) → files ≠ [] →
  js_gt (Num (totalBytes files)) maxBytes = true →
  handleFolder token chat_id folderId maxBytes s
  = folder_link_fallback token chat_id files (log (EvFetch (folderApiUrl folderId)) s).
Proof.
  intros Hfetch Hok Hjson Hne Hgt.
  unfold handleFolder, bind at 1, fetchList. rewrite Hfetch, Hok. cbn [negb].
  unfold bind at 1, lift. rewrite Hjson.
  destruct files as [|f files]; [done|]. by rewrite Hgt.
Qed.

(** With a listing within the budget, [handleFolder] is the listing request
    and then the staging directory with the [try] and the [finally]. *)
Lemma handleFolder_within_budget (token chat_id folderId : string) (maxBytes : JsNum)
    (s : State) (resp : ListResp) (files : list FileEntry) :
  w_fetch w (st_trace s) (folderApiUrl folderId) = Ok resp →
  status_ok (list_status resp) = true →
  list_json resp = Ok (Some files) → files ≠ [] →
  js_gt (Num (totalBytes files)) maxBytes = false →
  handleFolder token chat_id folderId maxBytes s
  = (tmpDir <- mkdtempSync (path_join (w_tmpdir w) "pixeldrain-");;
     try_finally
       (handleFolder_try token chat_id folderId tmpDir files maxBytes)
       (try_ignore (rmdirSync_recursive tmpDir)))
      (log (EvFetch (folderApiUrl folderId)) s).
Proof.
  intros Hfetch Hok Hjson Hne Hfit.
  unfold handleFolder, bind at 1, fetchList. rewrite Hfetch, Hok. cbn [negb].
  unfold bind at 1, lift. rewrite Hjson.
  destruct files as [|f files]; [done|]. by rewrite Hfit.
Qed.

Lemma member_line_contains (f : FileEntry) :
  contains (escapeMarkdownV2 (f_name f)) (member_line f)
  ∧ contains (escapeMarkdownV2 (fileApiUrl (f_id f))) (member_line f).
Proof.
  unfold member_line. split.
  - apply contains_app_r, contains_app_l, contains_refl.
  - do 7 apply contains_app_r. apply contains_app_l, contains_refl.
Qed.

(** ** Paths *)

Lemma split_slash_nonempty (s : string) : split_slash s ≠ [].
Proof.
  induction s as [|c r IH]; [done|].
  cbn [split_slash]. destruct (Ascii.eqb c "/"); [done|].
  by destruct (split_slash r).
Qed.

Lemma split_slash_app (a b : string) :
  split_slash (a +:+ "/" +:+ b) = split_slash a ++ split_slash b.
Proof.
  induction a as [|c r IH]; [reflexivity|].
  rewrite str_app_cons. cbn [split_slash]. rewrite IH.
  destruct (Ascii.eqb c "/"); [reflexivity|].
  pose proof (split_slash_nonempty r) as Hne.
  by destruct (split_slash r).
Qed.

Lemma split_slash_segment (n : string) : has_char "/" n = false → split_slash n = [n].
Proof.
  induction n as [|c r IH]; [done|].
  cbn [has_char split_slash]. intros [Hc Hr]%orb_false_iff.
  rewrite Ascii.eqb_sym, Hc, IH by done. reflexivity.
Qed.

Lemma last_char_app (a b : string) : b ≠ "" → last_char (a +:+ b) = last_char b.
Proof.
  intros Hb. induction a as [|c r IH]; [reflexivity|].
  rewrite str_app_cons. cbn [last_char]. rewrite IH.
  destruct (r +:+ b) eqn:Heq; [|done].
  by destruct r, b.
Qed.

Lemma last_char_no_slash (n : string) :
  n ≠ "" → has_char "/" n = false → trailing_slash n = false.
Proof.
  unfold trailing_slash. induction n as [|c r IH]; [done|]. intros _.
  cbn [has_char]. intros [Hc Hr]%orb_false_iff.
  destruct r as [|d r]; [cbn; by rewrite Ascii.eqb_sym|].
  change (last_char (String c (String d r))) with (last_char (String d r)).
  by apply IH.
Qed.

Lemma join_snoc (sep x : string) (l : list string) :
  l ≠ [] → join sep (l ++ [x]) = join sep l +:+ sep +:+ x.
Proof.
  induction l as [|y l IH]; [done|]. intros _.
  destruct l as [|z l]; [reflexivity|].
  change (join sep ((y :: z :: l) ++ [x])) with (y +:+ sep +:+ join sep ((z :: l) ++ [x])).
  rewrite IH by done.
  change (join sep (y :: z :: l)) with (y +:+ sep +:+ join sep (z :: l)).
  by rewrite !str_app_assoc.
Qed.

Lemma segment_spec (n : string) :
  segment n = true →
  n ≠ "" ∧ is_empty n || String.eqb n "." = false ∧ String.eqb n ".." = false
  ∧ has_char "/" n = false.
Proof.
  unfold segment. rewrite !andb_true_iff, !negb_true_iff.
  intros [[[He Hd] Hdd] Hs]. split_and!; [by destruct n|by rewrite He, Hd|done|done].
Qed.

(** What [normal_dir] says of [posix_normalize]: segments are kept, and the
    directory is they, joined, behind the separator of the root if it is
    absolute. *)
Lemma normal_dir_kept (dir : string) :
  normal_dir dir = true →
  let kept := rev (fold_left (norm_step (negb (String.prefix "/" dir)))
                     (split_slash dir) []) in
  dir ≠ "" ∧ kept ≠ []
  ∧ dir = (if String.prefix "/" dir then "/" else "") +:+ join "/" kept.
Proof.
  unfold normal_dir. rewrite !andb_true_iff, !negb_true_iff.
  intros [[[He Hn] Ht] Hdot]. set (kept := rev _). apply String.eqb_eq in Hn.
  unfold posix_normalize in Hn. rewrite He, Ht in Hn. fold kept in Hn.
  assert (dir ≠ "") as Hne by (by destruct dir).
  destruct (is_empty (join "/" kept)) eqn:Hp.
  - exfalso. destruct (String.prefix "/" dir); subst dir; done.
  - split_and!; [done| |].
    + intros Hk. by rewrite Hk in Hp.
    + rewrite <- Hn at 1. by rewrite str_app_nil_r.
Qed.

Lemma posix_normalize_join (dir name : string) :
  normal_dir dir = true → segment name = true →
  posix_normalize (dir +:+ "/" +:+ name) = dir +:+ "/" +:+ name.
Proof.
  intros Hd Hs.
  destruct (normal_dir_kept dir Hd) as (Hne & Hkept & Hdir).
  destruct (segment_spec name Hs) as (Hn & Hskip & Hdd & Hslash).
  unfold posix_normalize.
  assert (is_empty (dir +:+ "/" +:+ name) = false) as -> by (by destruct dir).
  assert (String.prefix "/" (dir +:+ "/" +:+ name) = String.prefix "/" dir) as ->.
  { destruct dir as [|c r]; [done|]. rewrite str_app_cons. cbn [String.prefix].
    destruct (Ascii.ascii_dec "/" c); [|done]. by destruct r. }
  assert (trailing_slash (dir +:+ "/" +:+ name) = false) as ->.
  { unfold trailing_slash. rewrite <- str_app_assoc, last_char_app by done.
    by apply last_char_no_slash. }
  rewrite split_slash_app, (split_slash_segment name), fold_left_app by done.
  cbn [fold_left].
  assert (∀ st, norm_step (negb (String.prefix "/" dir)) st name = name :: st) as ->.
  { intros st. unfold norm_step. by rewrite Hskip, Hdd. }
  cbn [rev]. rewrite join_snoc by done.
  set (kept := rev _) in *.
  assert (is_empty (join "/" kept +:+ "/" +:+ name) = false) as ->
    by (by destruct (join "/" kept)).
  rewrite str_app_nil_r, <- str_app_assoc. by rewrite <- Hdir.
Qed.

(** On a directory in normal form and a segment, [path_join] is Node's
    [path.join]. *)
Lemma posix_join_segment (dir name : string) :
  normal_dir dir = true → segment name = true →
  posix_join dir name = path_join dir name.
Proof.
  intros Hd Hs. unfold posix_join, path_join.
  destruct (normal_dir_kept dir Hd) as (Hne & _).
  destruct (segment_spec name Hs) as (Hn & _).
  destruct dir; [done|]. destruct name; [done|].
  by apply posix_normalize_join.
Qed.

(** The result is a directory in normal form again: so is the staging
    directory, made of [os.tmpdir()] and a segment. *)
Lemma path_join_normal (dir name : string) :
  normal_dir dir = true → segment name = true →
  normal_dir (path_join dir name) = true.
Proof.
  intros Hd Hs. unfold normal_dir, path_join.
  rewrite posix_normalize_join by done.
  destruct (segment_spec name Hs) as (Hn & _ & _ & Hslash).
  rewrite String.eqb_refl.
  assert (trailing_slash (dir +:+ "/" +:+ name) = false) as ->.
  { unfold trailing_slash. rewrite <- str_app_assoc, last_char_app by done.
    by apply last_char_no_slash. }
  assert (is_empty (dir +:+ "/" +:+ name) = false) as -> by (by destruct dir).
  cbn [negb andb]. apply negb_true_iff, String.eqb_neq.
  intros Heq. apply (f_equal str_len) in Heq. rewrite !str_len_app in Heq.
  pose proof (str_len_nonneg dir). change (str_len "/") with 1 in Heq.
  change (str_len ".") with 1 in Heq.
  assert (0 < str_len name); [|lia].
  destruct name; [done|]. unfold str_len. cbn. lia.
Qed.

(** ** The staging area *)

Lemma prefix_app (a b : string) : String.prefix a (a +:+ b) = true.
Proof.
  induction a as [|c a IH]; [by destruct b|].
  rewrite str_app_cons. cbn [String.prefix].
  destruct (ascii_dec c c); [apply IH|done].
Qed.

Lemma under_refl (dir : string) : under dir dir = true.
Proof. unfold under. by rewrite String.eqb_refl. Qed.

Lemma under_join (dir name : string) : under dir (path_join dir name) = true.
Proof.
  unfold under, path_join. rewrite <- str_app_assoc, prefix_app.
  apply orb_true_r.
Qed.

Lemma path_join_ne (dir name : string) : path_join dir name ≠ dir.
Proof.
  intros Heq. apply (f_equal str_len) in Heq.
  unfold path_join in Heq. rewrite !str_len_app in Heq.
  pose proof (str_len_nonneg name). change (str_len "/") with 1 in Heq. lia.
Qed.

(** The [finally] block of [handleFile] never throws, whether or not the file
    is there, and leaves nothing of the staging directory. *)
Lemma handleFile_finally_run (outPath tmpDir : string) (s : State) (n : Node) :
  st_fs s !! tmpDir = Some n → is_dir n = true → outPath ≠ tmpDir →
  ∃ fs', handleFile_finally outPath tmpDir s = (Ok tt, set_fs fs' s)
         ∧ staging_removed tmpDir fs'.
Proof.
  intros Hdir Hn Hne.
  assert (∃ fs1, try_ignore (unlinkSync outPath) s = (Ok tt, set_fs fs1 s)
                 ∧ fs1 !! tmpDir = Some n) as (fs1 & Hunlink & Hdir1).
  { unfold try_ignore, unlinkSync.
    destruct (st_fs s !! outPath) as [f|]; [destruct (is_dir f)|].
    - exists (st_fs s). by destruct s.
    - exists (delete outPath (st_fs s)). by rewrite lookup_delete_ne.
    - exists (st_fs s). by destruct s. }
  unfold handleFile_finally, bind. rewrite Hunlink.
  unfold try_ignore, rmdirSync_recursive. cbn [st_fs set_fs]. rewrite Hdir1, Hn.
  eexists. split; [reflexivity|].
  intros p Hp. apply map_lookup_filter_None. right. intros x _. cbn. congruence.
Qed.

Lemma finally_never_throws (outPath tmpDir : string) (s : State) :
  (handleFile_finally outPath tmpDir s).1 = Ok tt
  ∧ st_trace (handleFile_finally outPath tmpDir s).2 = st_trace s.
Proof.
  unfold handleFile_finally, bind, try_ignore, unlinkSync, rmdirSync_recursive.
  repeat case_match; simplify_eq; done.
Qed.

(** The [try] block of [handleFile] writes to the output path only. *)
Lemma handleFile_try_frame (token chat_id url filename outPath : string)
    (maxBytes : JsNum) (s : State) (p : string) :
  p ≠ outPath →
  st_fs (handleFile_try token chat_id url filename outPath maxBytes s).2 !! p = st_fs s !! p.
Proof.
  intros Hp.
  unfold handleFile_try, bind, sendTelegramMessage, downloadWithWget, runCmd_result,
    statSync, uploadDocumentCurl, throw, ret.
  repeat case_match; simplify_eq; cbn; by rewrite ?lookup_insert_ne.
Qed.

(** X3.  In every world, once the staging directory of a single file is
    made, nothing of it is left when [handleFile_transfer] ends, whichever way
    it ends: after the upload, after the fallback of an oversize download, or
    on an exception of a notification, the download or the upload. *)
Theorem handleFile_transfer_cleans (token chat_id url filename : string)
    (maxBytes : JsNum) (s : State) (sfx : string) :
  w_mkdtemp w (st_trace s) (path_join (w_tmpdir w) "pixeldrain-") = Ok sfx →
  staging_removed (path_join (w_tmpdir w) "pixeldrain-" +:+ sfx)
    (st_fs (handleFile_transfer token chat_id url filename maxBytes s).2).
Proof.
  intros Hmk. unfold handleFile_transfer, bind at 1, mkdtempSync. rewrite Hmk.
  set (tmpDir := path_join (w_tmpdir w) "pixeldrain-" +:+ sfx).
  set (outPath := path_join tmpDir (safe_file_name filename)).
  set (s1 := log _ _). unfold try_finally.
  pose proof (handleFile_try_frame token chat_id url filename outPath maxBytes s1 tmpDir) as Hfr.
  destruct (handleFile_try token chat_id url filename outPath maxBytes s1) as [r s2].
  cbn [snd] in Hfr.
  destruct (handleFile_finally_run outPath tmpDir s2 (mkNode true 0)) as (fs' & -> & Hrm).
  - rewrite Hfr; [|intros Heq; by apply (path_join_ne tmpDir (safe_file_name filename))].
    subst s1. cbn. apply lookup_insert_eq.
  - done.
  - apply path_join_ne.
  - done.
Qed.

(** ** The probe *)

Lemma probeFile_log (fileId : string) (s : State) :
  (probeFile fileId s).2 = log (EvHead (fileApiUrl fileId)) s.
Proof.
  unfold probeFile, bind, headUrl, lift, ret.
  repeat case_match; simplify_eq; done.
Qed.

(** What the probe reads as the size from an answer with a success status. *)
Lemma probeFile_size (fileId : string) (s s1 : State) (h : HeadResp)
    (filename : string) (size : option JsNum) :
  w_head w (st_trace s) (fileApiUrl fileId) = Some h →
  status_ok (head_status h) = true →
  probeFile fileId s = (Ok (filename, size), s1) →
  size = if str_truthy (content_length h)
         then Some (Number (default "" (content_length h))) else None.
Proof.
  intros Hh Hok. unfold probeFile, bind at 1, headUrl. rewrite Hh, Hok.
  unfold bind, lift, ret. repeat case_match; intros; simplify_eq; done.
Qed.

Lemma handleFile_gate (token chat_id fileId : string) (maxBytes : JsNum)
    (s s1 : State) (filename : string) (size : option JsNum) :
  probeFile fileId s = (Ok (filename, size), s1) →
  handleFile token chat_id fileId maxBytes s
  = if over_budget size maxBytes
    then sendTelegramMessage token chat_id
           (msg_too_large filename size (fileApiUrl fileId))
           (log (EvHead (fileApiUrl fileId)) s)
    else handleFile_transfer token chat_id (fileApiUrl fileId) filename maxBytes
           (log (EvHead (fileApiUrl fileId)) s).
Proof.
  intros Hp. pose proof (probeFile_log fileId s) as Hlog. rewrite Hp in Hlog.
  cbn [snd] in Hlog. subst s1.
  unfold handleFile, bind. rewrite Hp. by destruct (over_budget size maxBytes).
Qed.

(** The transfer, up to the download, when the staging directory is made and
    the progress message goes out. *)
Lemma handleFile_transfer_downloads (token chat_id url filename : string)
    (maxBytes : JsNum) (s : State) (sfx : string) :
  (∀ h, w_mkdtemp w h (path_join (w_tmpdir w) "pixeldrain-") = Ok sfx) →
  sends_resolve →
  let tmpDir := path_join (w_tmpdir w) "pixeldrain-" +:+ sfx in
  let outPath := path_join tmpDir (safe_file_name filename) in
  ∃ rest,
    st_trace (handleFile_transfer token chat_id url filename maxBytes s).2
    = st_trace s ++ [EvMkdtemp tmpDir;
                     EvSendMessage token chat_id (msg_downloading filename);
                     EvWget url outPath] ++ rest.
Proof.
  intros Hmk Hs tmpDir outPath.
  unfold handleFile_transfer, bind at 1, mkdtempSync. rewrite Hmk.
  fold tmpDir. fold outPath. unfold try_finally.
  set (s1 := log (EvMkdtemp tmpDir) _).
  assert (∃ rest, st_trace (handleFile_try token chat_id url filename outPath maxBytes s1).2
                  = st_trace s ++ [EvMkdtemp tmpDir;
                       EvSendMessage token chat_id (msg_downloading filename);
                       EvWget url outPath] ++ rest) as [rest Hrest].
  { unfold handleFile_try, bind at 1. rewrite send_resolved by done.
    unfold bind at 1, downloadWithWget.
    destruct (w_wget w _ url outPath) as [sp written].
    set (s2 := log (EvWget url outPath) _).
    assert (st_trace s2 = st_trace s ++ [EvMkdtemp tmpDir;
              EvSendMessage token chat_id (msg_downloading filename);
              EvWget url outPath]) as Hs2.
    { subst s2 s1. cbn. by rewrite <- !app_assoc. }
    clearbody s2. unfold runCmd_result, throw, ret.
    destruct sp as [e|st]; [exists []; cbn [snd]; by rewrite app_nil_r|].
    destruct (exited_ok st); [|exists []; cbn [snd]; by rewrite app_nil_r].
    unfold bind at 1, statSync.
    destruct (st_fs s2 !! outPath) as [nd|]; [|exists []; cbn [snd]; by rewrite app_nil_r].
    destruct (js_gt (Num (node_size nd)) maxBytes).
    - rewrite send_resolved by done. eexists [_]. cbn [snd log st_trace]. rewrite Hs2, <- !app_assoc. reflexivity.
    - unfold bind at 1. rewrite send_resolved by done.
      unfold bind, uploadDocumentCurl.
      destruct (w_curl w _ _) as [e|st']; [eexists [_; _]; cbn; by rewrite Hs2, <- !app_assoc|].
      destruct (exited_ok st'); [|eexists [_; _]; cbn; by rewrite Hs2, <- !app_assoc].
      rewrite send_resolved by done.
      eexists [_; _; _]. cbn. by rewrite Hs2, <- !app_assoc. }
  destruct (handleFile_try token chat_id url filename outPath maxBytes s1) as [r s2].
  pose proof (finally_never_throws outPath tmpDir s2) as [Hfin Htr].
  destruct (handleFile_finally outPath tmpDir s2) as [rf s3]. cbn [fst snd] in *.
  subst rf. exists rest. cbn [snd]. by rewrite Htr.
Qed.

(** The transfer when the download succeeds and leaves more than the budget:
    the fallback message, no upload, nothing left of the staging area. *)
Lemma handleFile_transfer_oversize (token chat_id url filename : string)
    (m n : Z) (s : State) (sfx : string) :
  (∀ h, w_mkdtemp w h (path_join (w_tmpdir w) "pixeldrain-") = Ok sfx) →
  sends_resolve →
  let tmpDir := path_join (w_tmpdir w) "pixeldrain-" +:+ sfx in
  let outPath := path_join tmpDir (safe_file_name filename) in
  (∀ h, w_wget w h url outPath = (SpawnExit (Some 0), Some n)) →
  m < n →
  ∃ fs',
    handleFile_transfer token chat_id url filename (Num m) s
    = (Ok tt,
       mkState fs'
         (st_trace s ++ [EvMkdtemp tmpDir;
                         EvSendMessage token chat_id (msg_downloading filename);
                         EvWget url outPath;
                         EvSendMessage token chat_id (msg_after_download url)]))
    ∧ staging_removed tmpDir fs'.
Proof.
  intros Hmk Hs tmpDir outPath Hwget Hlt.
  unfold handleFile_transfer, bind at 1, mkdtempSync. rewrite Hmk.
  fold tmpDir. fold outPath. unfold try_finally.
  set (s1 := log (EvMkdtemp tmpDir) _).
  set (s2 := mkState (<[outPath := mkNode false n]> (st_fs s1))
               (st_trace s ++ [EvMkdtemp tmpDir;
                         EvSendMessage token chat_id (msg_downloading filename);
                         EvWget url outPath;
                         EvSendMessage token chat_id (msg_after_download url)])).
  assert (handleFile_try token chat_id url filename outPath (Num m) s1 = (Ok tt, s2)) as ->.
  { unfold handleFile_try, bind at 1. rewrite send_resolved by done.
    unfold bind at 1, downloadWithWget. rewrite Hwget.
    unfold runCmd_result. cbn [exited_ok]. rewrite Z.eqb_refl. unfold ret at 1.
    unfold bind at 1, statSync. cbn [st_fs log set_fs]. rewrite lookup_insert_eq.
    cbn [node_size js_gt]. apply Z.ltb_lt in Hlt. rewrite Hlt.
    rewrite send_resolved by done. subst s2 s1. unfold log, set_fs. cbn.
    by rewrite <- !app_assoc. }
  destruct (handleFile_finally_run outPath tmpDir s2 (mkNode true 0)) as (fs' & -> & Hrm).
  - subst s2 s1. cbn. rewrite lookup_insert_ne by apply path_join_ne.
    apply lookup_insert_eq.
  - done.
  - apply path_join_ne.
  - exists fs'. done.
Qed.

(** ** Successful runs made no failed call *)

Lemma attempts_ok_app (h a b : list Event) :
  attempts_ok h (a ++ b) = attempts_ok h a && attempts_ok (h ++ a) b.
Proof.
  revert h. induction a as [|e a IH]; intros h.
  - cbn. by rewrite app_nil_r.
  - cbn [app attempts_ok]. rewrite IH, <- app_assoc. cbn [app].
    by rewrite andb_assoc.
Qed.

Lemma clean_ret {A} (a : A) : clean (ret a).
Proof. intros s a' s' [= <- <-]. exists []. by rewrite app_nil_r. Qed.

Lemma clean_throw {A} (e : Error) : clean (@throw A e).
Proof. intros s a s' [=]. Qed.

Lemma clean_lift {A} (r : Res A) : clean (lift r).
Proof. intros s a s' [= -> <-]. exists []. by rewrite app_nil_r. Qed.

Lemma clean_bind {A B} (m : M A) (k : A → M B) :
  clean m → (∀ a, clean (k a)) → clean (bind m k).
Proof.
  intros Hm Hk s b s'. unfold bind.
  destruct (m s) as [[a|e] s1] eqn:Hrun; [|done]. intros Hrun'.
  destruct (Hm _ _ _ Hrun) as (evs1 & Ht1 & Ha1).
  destruct (Hk a _ _ _ Hrun') as (evs2 & Ht2 & Ha2).
  exists (evs1 ++ evs2). rewrite Ht2, Ht1, <- app_assoc. split; [done|].
  rewrite attempts_ok_app, Ha1. by rewrite <- Ht1.
Qed.

(** One call: the event is logged and the run goes on only if it did not fail. *)
Lemma clean_call {A} (m : M A) (e : Event) :
  (∀ s a s', m s = (Ok a, s') →
     st_trace s' = st_trace s ++ [e] ∧ attempt_ok (st_trace s) e = true) →
  clean m.
Proof.
  intros H s a s' Hrun. destruct (H _ _ _ Hrun) as [Ht Ha].
  exists [e]. cbn. by rewrite Ha.
Qed.

Lemma clean_send (token chat_id text : string) :
  clean (sendTelegramMessage token chat_id text).
Proof.
  apply (clean_call _ (EvSendMessage token chat_id text)). intros s a s'.
  unfold sendTelegramMessage. cbn [attempt_ok].
  destruct (w_sendMessage w (st_trace s) token chat_id text); [|done].
  intros ?; by simplify_eq.
Qed.

Lemma clean_head (url : string) : clean (headUrl url).
Proof.
  apply (clean_call _ (EvHead url)). intros s a s'. unfold headUrl.
  intros ?; by simplify_eq.
Qed.

Lemma clean_fetch (api : string) : clean (fetchList api).
Proof.
  apply (clean_call _ (EvFetch api)). intros s a s'. unfold fetchList.
  cbn [attempt_ok]. destruct (w_fetch w (st_trace s) api); [|done].
  intros ?; by simplify_eq.
Qed.

Lemma clean_wget (url outPath : string) : clean (downloadWithWget url outPath).
Proof.
  apply (clean_call _ (EvWget url outPath)). intros s a s'.
  unfold downloadWithWget, runCmd_result, throw, ret. cbn [attempt_ok].
  destruct (w_wget w (st_trace s) url outPath) as [[e|st] written]; [done|].
  cbn [fst spawn_ok]. destruct (exited_ok st); [|done]. intros ?; by simplify_eq.
Qed.

Lemma clean_zip (zipPath tmpDir : string) : clean (runZip zipPath tmpDir).
Proof.
  apply (clean_call _ (EvZip zipPath tmpDir)). intros s a s'.
  unfold runZip, runCmd_result, throw, ret. cbn [attempt_ok].
  destruct (w_zip w (st_trace s) zipPath tmpDir) as [[e|st] written]; [done|].
  cbn [fst spawn_ok]. destruct (exited_ok st); [|done]. intros ?; by simplify_eq.
Qed.

Lemma clean_curl (token chat_id filePath caption : string) :
  clean (uploadDocumentCurl token chat_id filePath caption).
Proof.
  apply (clean_call _ (EvCurl (curl_args chat_id filePath caption))). intros s a s'.
  unfold uploadDocumentCurl. cbn [attempt_ok].
  destruct (w_curl w (st_trace s) _) as [e|st]; [done|].
  cbn [spawn_ok]. destruct (exited_ok st); [|done]. intros ?; by simplify_eq.
Qed.

Lemma clean_mkdtemp (prefix : string) : clean (mkdtempSync prefix).
Proof.
  intros s a s'. unfold mkdtempSync.
  destruct (w_mkdtemp w (st_trace s) prefix) as [sfx|e]; [|done].
  intros [= <- <-]. by exists [EvMkdtemp (prefix +:+ sfx)].
Qed.

Lemma clean_silent {A} (m : M A) : silent m → clean m.
Proof.
  intros H s a s' Hrun. specialize (H s). rewrite Hrun in H.
  exists []. by rewrite app_nil_r.
Qed.

Lemma silent_stat (path : string) : silent (statSync path).
Proof. intros s. unfold statSync. by case_match. Qed.

Lemma silent_unlink (path : string) : silent (unlinkSync path).
Proof. intros s. unfold unlinkSync. by repeat case_match. Qed.

Lemma silent_rmdir (dir : string) : silent (rmdirSync_recursive dir).
Proof. intros s. unfold rmdirSync_recursive. by repeat case_match. Qed.

Lemma silent_try_ignore {A} (m : M A) : silent m → silent (try_ignore m).
Proof. intros H s. specialize (H s). unfold try_ignore. by destruct (m s). Qed.

Lemma silent_bind {A B} (m : M A) (k : A → M B) :
  silent m → (∀ a, silent (k a)) → silent (bind m k).
Proof.
  intros Hm Hk s. specialize (Hm s). unfold bind.
  destruct (m s) as [[a|e] s1]; [|done].
  rewrite Hk. done.
Qed.

Lemma silent_handleFile_finally (outPath tmpDir : string) :
  silent (handleFile_finally outPath tmpDir).
Proof. intros s. apply finally_never_throws. Qed.

Lemma clean_try_finally {A} (m : M A) (fin : M unit) :
  clean m → silent fin → clean (try_finally m fin).
Proof.
  intros Hm Hfin s a s'. unfold try_finally.
  destruct (m s) as [r s1] eqn:Hrun. specialize (Hfin s1).
  destruct (fin s1) as [[[]|e] s2]; [|done].
  intros [= -> <-]. cbn [snd] in Hfin. rewrite Hfin. by apply (Hm _ _ _ Hrun).
Qed.

Create HintDb clean.

#[local] Hint Resolve clean_ret clean_throw clean_lift clean_send clean_head
  clean_fetch clean_wget clean_zip clean_curl clean_mkdtemp : clean.

#[local] Hint Resolve silent_stat silent_unlink silent_rmdir silent_try_ignore
  silent_handleFile_finally : clean.

Ltac clean_step :=
  first
    [ solve [auto with clean]
    | apply clean_silent; solve [auto with clean]
    | apply clean_bind; [|intros ?]
    | apply clean_try_finally
    | case_match ].

Lemma clean_chunk_loop (token chat_id : string) (lines chunk : list string) (curLen : Z) :
  clean (chunk_loop token chat_id lines chunk curLen).
Proof.
  revert chunk curLen. induction lines as [|line rest IH]; intros chunk curLen.
  - apply clean_ret.
  - cbn [chunk_loop]. case_match; [|apply IH].
    apply clean_bind; [apply clean_send|intros _; apply IH].
Qed.

Lemma clean_download_all (tmpDir : string) (files : list FileEntry) :
  clean (download_all tmpDir files).
Proof.
  induction files as [|f files IH]; [apply clean_ret|].
  cbn [download_all]. apply clean_bind; [apply clean_wget|intros _; apply IH].
Qed.

Lemma clean_send_links (token chat_id : string) (files : list FileEntry) :
  clean (send_links token chat_id files).
Proof.
  induction files as [|f files IH]; [apply clean_ret|].
  cbn [send_links]. apply clean_bind; [apply clean_send|intros _; apply IH].
Qed.

#[local] Hint Resolve clean_chunk_loop clean_download_all clean_send_links : clean.

Lemma clean_handleFile (token chat_id fileId : string) (maxBytes : JsNum) :
  clean (handleFile token chat_id fileId maxBytes).
Proof.
  unfold handleFile, probeFile, handleFile_transfer, handleFile_try.
  repeat clean_step.
Qed.

Lemma clean_handleFolder (token chat_id folderId : string) (maxBytes : JsNum) :
  clean (handleFolder token chat_id folderId maxBytes).
Proof.
  unfold handleFolder, folder_link_fallback, send_in_chunks, handleFolder_try.
  repeat clean_step.
Qed.

#[local] Hint Resolve clean_handleFile clean_handleFolder : clean.

Lemma clean_main_try (env : Env) : clean (main_try env).
Proof.
  unfold main_try. repeat clean_step.
Qed.

(** ** The main function *)

Lemma main_try_config_missing (env : Env) (s : State) :
  config_present env = false → ∃ e, main_try env s = (Throw e, s).
Proof.
  unfold config_present, main_try, throw. intros H.
  destruct (str_truthy (PIXEL_LINK env)); [|by eexists].
  destruct (str_truthy (TELEGRAM_BOT_TOKEN env)); [|by eexists].
  destruct (str_truthy (TELEGRAM_CHAT_ID env)); [done|by eexists].
Qed.

(** The body of [main] from the start notification on, with the three values
    present. *)
Lemma main_try_present (env : Env) (s : State) :
  config_present env = true →
  let link := default "" (PIXEL_LINK env) in
  let token := default "" (TELEGRAM_BOT_TOKEN env) in
  let chat_id := default "" (TELEGRAM_CHAT_ID env) in
  main_try env s
  = bind (sendTelegramMessage token chat_id msg_start)
      (λ _, match PIXEL_FILE_RE link, PIXEL_FOLDER_RE link with
            | Some fileId, _ => handleFile token chat_id fileId (max_bytes env)
            | None, Some folderId => handleFolder token chat_id folderId (max_bytes env)
            | None, None => throw err_no_link
            end) s.
Proof.
  unfold config_present, main_try. intros H.
  destruct (str_truthy (PIXEL_LINK env)); [|done].
  destruct (str_truthy (TELEGRAM_BOT_TOKEN env)); [|done].
  destruct (str_truthy (TELEGRAM_CHAT_ID env)); done.
Qed.

Lemma main_try_unrecognized (env : Env) (s : State) :
  config_present env = true → link_recognized env = false →
  ∃ e, (main_try env s).1 = Throw e.
Proof.
  intros Hc Hl. rewrite main_try_present by done. unfold link_recognized in Hl.
  unfold bind.
  destruct (send_run (default "" (TELEGRAM_BOT_TOKEN env))
              (default "" (TELEGRAM_CHAT_ID env)) msg_start s) as (r & -> & _).
  destruct r as [[]|e]; [|by eexists].
  destruct (PIXEL_FILE_RE _); [done|]. destruct (PIXEL_FOLDER_RE _); [done|].
  by eexists.
Qed.

Lemma main_try_folder_failure (env : Env) (s : State) (folderId : string) (resp : ListResp) :
  sends_resolve → config_present env = true →
  folder_answer env s folderId resp →
  folder_fetch_failed resp ∨ empty_folder resp →
  (main_try env s).1 = Ok tt.
Proof.
  intros Hs Hc (Hfile & Hfolder & Hfetch) Hfail.
  rewrite main_try_present by done. unfold bind at 1.
  rewrite send_resolved by done. rewrite Hfile, Hfolder.
  unfold handleFolder, bind at 1, fetchList. rewrite Hfetch.
  destruct Hfail as [Hbad|[Hgood Hjson]].
  - unfold folder_fetch_failed in Hbad. rewrite Hbad. cbn [negb].
    by rewrite send_resolved.
  - rewrite Hgood. cbn [negb]. unfold bind, lift.
    destruct Hjson as [-> | ->]; by rewrite send_resolved.
Qed.

Lemma main_catch_run (env : Env) (err : Error) (s : State) :
  (main_catch env err s).2
  = mkState (st_fs s) (st_trace s ++ error_notification env err).
Proof.
  unfold main_catch, try_ignore, error_notification.
  destruct (str_truthy (TELEGRAM_BOT_TOKEN env) && str_truthy (TELEGRAM_CHAT_ID env)).
  - destruct (send_run (default "" (TELEGRAM_BOT_TOKEN env))
                (default "" (TELEGRAM_CHAT_ID env)) (msg_error err) s) as (r & -> & _).
    done.
  - unfold ret. cbn. by rewrite app_nil_r, state_eta.
Qed.

(** C1 (amended).  The exit code is 0 or 1, and it is 0 exactly when no
    exception reaches the top level.  It is 1 when one of the three required
    values is missing or empty, when the link matches neither pattern, and
    whenever a call the run made failed: a download, the archiving or the
    upload ending with an error or a status other than 0, a notification or
    the listing request throwing.  A folder listing answered with a
    non-success status, or with no member, is not such a failure: when the
    notifications go out the run reports it and ends with code 0.  On the way
    to code 1 the run makes one error notification, after everything else,
    when the token and the chat id are both present, and none otherwise; the
    code is 1 whatever becomes of that notification. *)
Theorem C1_exit_codes (env : Env) (s : State) :
  let code := (main env s).1 in
  let final := (main env s).2 in
  let body := main_try env s in
  (code = 0 ∨ code = 1)
  ∧ (code = 0 ↔ res_ok body.1 = true)
  ∧ (config_present env = false → code = 1)
  ∧ (link_recognized env = false → code = 1)
  ∧ (∀ pre e post,
       st_trace body.2 = st_trace s ++ pre ++ e :: post →
       attempt_ok (st_trace s ++ pre) e = false → code = 1)
  ∧ (∀ folderId resp,
       sends_resolve → config_present env = true →
       folder_answer env s folderId resp →
       folder_fetch_failed resp ∨ empty_folder resp → code = 0)
  ∧ (code = 1 →
     ∃ err, body.1 = Throw err
            ∧ st_fs final = st_fs body.2
            ∧ st_trace final = st_trace body.2 ++ error_notification env err).
Proof.
  cbv zeta. unfold main.
  destruct (main_try env s) as [[[]|err] s1] eqn:Hrun; cbn [fst snd].
  - split_and!; try done.
    + by left.
    + intros Hc. destruct (main_try_config_missing env s Hc) as [e He]. congruence.
    + intros Hl. destruct (config_present env) eqn:Hc.
      * destruct (main_try_unrecognized env s Hc Hl) as [e He].
        rewrite Hrun in He. done.
      * destruct (main_try_config_missing env s Hc) as [e He]. congruence.
    + intros pre e post Htr Hbad.
      destruct (clean_main_try env _ _ _ Hrun) as (evs & Hevs & Hok).
      rewrite Hevs in Htr. apply app_inv_head in Htr. subst evs.
      rewrite attempts_ok_app in Hok. cbn [attempts_ok] in Hok.
      rewrite Hbad in Hok. by rewrite andb_false_r in Hok.
  - split_and!; try done.
    + by right.
    + intros folderId resp Hs Hc Hans Hfail.
      pose proof (main_try_folder_failure env s folderId resp Hs Hc Hans Hfail) as Hok.
      rewrite Hrun in Hok. done.
    + intros _. exists err. by rewrite main_catch_run.
Qed.

(** C8 (amended).  With the three values present and a link that matches
    neither pattern, the run ends with code 1 and leaves the file system as it
    was; its calls are two notifications and nothing else: the start
    notification, sent before the link is classified, and the error
    notification.  The error reported is the one of the classification when
    the start notification went out (and the exception of the transport when
    it did not).  No probe, listing request, download or upload is made. *)
Theorem C8_unrecognized_link (env : Env) (s : State) :
  config_present env = true → link_recognized env = false →
  let token := default "" (TELEGRAM_BOT_TOKEN env) in
  let chat_id := default "" (TELEGRAM_CHAT_ID env) in
  let err := match w_sendMessage w (st_trace s) token chat_id msg_start with
             | Ok _ => err_no_link
             | Throw e => e
             end in
  main env s
  = (1, mkState (st_fs s)
          (st_trace s ++ send_events token chat_id [msg_start; msg_error err])).
Proof.
  intros Hc Hl token chat_id err. unfold main.
  rewrite main_try_present by done. fold token chat_id.
  unfold link_recognized in Hl.
  destruct (PIXEL_FILE_RE _); [done|]. destruct (PIXEL_FOLDER_RE _); [done|].
  unfold bind, sendTelegramMessage at 1. subst err.
  assert (error_notification env = λ e, [EvSendMessage token chat_id (msg_error e)]) as Hnote.
  { unfold error_notification, config_present in *.
    apply andb_prop in Hc as [Hc ->]. apply andb_prop in Hc as [_ ->]. done. }
  destruct (w_sendMessage w (st_trace s) token chat_id msg_start) as [b|e];
    unfold throw; rewrite main_catch_run, Hnote; cbn; by rewrite <- app_assoc.
Qed.

(** ** A single file *)

(** C3.  For a single file whose probe gives a known size (a number that is
    not 0: a length of 0 reads as unknown) greater than [maxBytes],
    [handleFile] makes the probe and one notification and nothing else: no
    staging directory, no download, no upload, the file system untouched.  The
    notification is the link fallback; it carries, between the marks of inline
    code, the direct URL of the file, [https://pixeldrain.com/api/file/<id>],
    in its MarkdownV2 escaped form, which reads back as the URL. *)
Theorem C3_known_oversize_file (token chat_id fileId : string) (s s1 : State)
    (filename : string) (z m : Z) :
  probeFile fileId s = (Ok (filename, Some (Num z)), s1) →
  z ≠ 0 → m < z →
  let url := fileApiUrl fileId in
  let text := msg_too_large filename (Some (Num z)) url in
  (∃ r, handleFile token chat_id fileId (Num m) s
        = (r, mkState (st_fs s)
                (st_trace s ++ [EvHead url; EvSendMessage token chat_id text])))
  ∧ url = "https://pixeldrain.com/api/file/" +:+ fileId
  ∧ contains ("``" +:+ escapeMarkdownV2 url +:+ "``") text
  ∧ md_unescape (escapeMarkdownV2 url) = url.
Proof.
  intros Hp Hz Hlt url text. split_and!.
  - rewrite (handleFile_gate _ _ _ _ _ _ _ _ Hp).
    assert (over_budget (Some (Num z)) (Num m) = true) as ->.
    { cbn. apply Z.eqb_neq in Hz. apply Z.ltb_lt in Hlt. by rewrite Hz, Hlt. }
    destruct (send_run token chat_id text (log (EvHead url) s)) as (r & Hr & _).
    exists r. fold url text. rewrite Hr. by norm_state.
  - reflexivity.
  - unfold text, msg_too_large. do 6 apply contains_app_r. apply contains_head.
  - apply md_unescape_escape.
Qed.

(** C4.  For a single file whose probe gives no size, when the staging
    directory can be made and the notifications go out, a download of the
    file is made.  For a file name that is a [segment], the download goes to
    the staging directory under that name, and if it then succeeds and leaves
    more than [maxBytes] bytes, the run sends the fallback notification and
    ends there: its events are the probe, the staging directory, the progress
    message, the download and that notification, so no upload is made; the
    notification carries, between the marks of inline code, the direct URL
    [https://pixeldrain.com/api/file/<id>] in the escaped form that reads
    back as the URL; and nothing of the staging directory, the downloaded
    file included, is left in the file system. *)
Theorem C4_unknown_size_file (token chat_id fileId : string) (maxBytes : JsNum)
    (s s1 : State) (filename sfx : string) :
  probeFile fileId s = (Ok (filename, None), s1) →
  (∀ h, w_mkdtemp w h (path_join (w_tmpdir w) "pixeldrain-") = Ok sfx) →
  sends_resolve →
  let url := fileApiUrl fileId in
  let tmpDir := path_join (w_tmpdir w) "pixeldrain-" +:+ sfx in
  let outPath := path_join tmpDir (safe_file_name filename) in
  let run := handleFile token chat_id fileId maxBytes s in
  url = "https://pixeldrain.com/api/file/" +:+ fileId
  ∧ (∃ out rest,
       st_trace run.2
       = st_trace s ++ [EvHead url; EvMkdtemp tmpDir;
                        EvSendMessage token chat_id (msg_downloading filename);
                        EvWget url out] ++ rest
       ∧ (segment (safe_file_name filename) = true → out = outPath))
  ∧ (∀ n m,
       segment (safe_file_name filename) = true →
       (∀ h, w_wget w h url outPath = (SpawnExit (Some 0), Some n)) →
       maxBytes = Num m → m < n →
       run.1 = Ok tt
       ∧ st_trace run.2
         = st_trace s ++ [EvHead url; EvMkdtemp tmpDir;
                          EvSendMessage token chat_id (msg_downloading filename);
                          EvWget url outPath;
                          EvSendMessage token chat_id (msg_after_download url)]
       ∧ contains ("``" +:+ escapeMarkdownV2 url +:+ "``") (msg_after_download url)
       ∧ md_unescape (escapeMarkdownV2 url) = url
       ∧ st_fs run.2 !! outPath = None
       ∧ staging_removed tmpDir (st_fs run.2)).
Proof.
  intros Hp Hmk Hs url tmpDir outPath run.
  assert (run = handleFile_transfer token chat_id url filename maxBytes (log (EvHead url) s))
    as Hrun.
  { unfold run. by rewrite (handleFile_gate _ _ _ _ _ _ _ _ Hp). }
  split_and!.
  - reflexivity.
  - destruct (handleFile_transfer_downloads token chat_id url filename maxBytes
                (log (EvHead url) s) sfx Hmk Hs) as [rest Hrest].
    exists outPath, rest. split; [|done]. rewrite Hrun, Hrest. by norm_state.
  - intros n m _ Hwget -> Hlt.
    destruct (handleFile_transfer_oversize token chat_id url filename m n
                (log (EvHead url) s) sfx Hmk Hs Hwget Hlt) as (fs' & Heq & Hrm).
    rewrite Hrun, Heq. cbn [fst snd st_fs st_trace]. split_and!.
    + done.
    + by norm_state.
    + unfold msg_after_download. do 2 apply contains_app_r. apply contains_refl.
    + apply md_unescape_escape.
    + apply Hrm, under_join.
    + done.
Qed.

(** C9.  For a probe answered with a success status and a Content-Length
    header that [Number] reads as 0 (the header 0) or as NaN (a header that is
    not a number), once the probe is through (the file name decoded), the
    size does not count as over the budget, whatever the budget: [handleFile]
    does not take the link-fallback branch and goes on as the transfer of
    lines 99-117, which does not depend on the size read; when the staging
    directory can be made and the progress message goes out, the download is
    made.  The only size check left is the one after the download. *)
Theorem C9_zero_or_non_numeric_length (token chat_id fileId : string) (maxBytes : JsNum)
    (s s1 : State) (h : HeadResp) (len filename : string) (size : option JsNum) :
  w_head w (st_trace s) (fileApiUrl fileId) = Some h →
  status_ok (head_status h) = true →
  content_length h = Some len →
  Number len = Num 0 ∨ Number len = NaN →
  probeFile fileId s = (Ok (filename, size), s1) →
  let url := fileApiUrl fileId in
  let run := handleFile token chat_id fileId maxBytes s in
  over_budget size maxBytes = false
  ∧ run = handleFile_transfer token chat_id url filename maxBytes (log (EvHead url) s)
  ∧ (∀ sfx,
       (∀ h, w_mkdtemp w h (path_join (w_tmpdir w) "pixeldrain-") = Ok sfx) →
       sends_resolve →
       let tmpDir := path_join (w_tmpdir w) "pixeldrain-" +:+ sfx in
       let outPath := path_join tmpDir (safe_file_name filename) in
       ∃ rest,
         st_trace run.2
         = st_trace s ++ [EvHead url; EvMkdtemp tmpDir;
                          EvSendMessage token chat_id (msg_downloading filename);
                          EvWget url outPath] ++ rest).
Proof.
  intros Hh Hok Hlen Hnum Hp url run.
  assert (over_budget size maxBytes = false) as Hgate.
  { rewrite (probeFile_size _ _ _ _ _ _ Hh Hok Hp), Hlen. cbn [from_option id].
    destruct (str_truthy (Some len)); [|done].
    destruct Hnum as [-> | ->]; done. }
  assert (run = handleFile_transfer token chat_id url filename maxBytes (log (EvHead url) s))
    as Hrun.
  { unfold run. by rewrite (handleFile_gate _ _ _ _ _ _ _ _ Hp), Hgate. }
  split_and!; [done|done|].
  intros sfx Hmk Hs tmpDir outPath.
  destruct (handleFile_transfer_downloads token chat_id url filename maxBytes
              (log (EvHead url) s) sfx Hmk Hs) as [rest Hrest].
  exists rest. rewrite Hrun, Hrest. by norm_state.
Qed.

(** ** A folder over the budget *)

(** The line of a member opens with its escaped name and closes with its
    direct URL, escaped, between the marks of inline code. *)
Lemma member_line_parts (f : FileEntry) :
  contains ("- " +:+ escapeMarkdownV2 (f_name f) +:+ " (") (member_line f)
  ∧ contains ("``" +:+ escapeMarkdownV2 ("https://pixeldrain.com/api/file/" +:+ f_id f)
              +:+ "``") (member_line f).
Proof.
  split.
  - apply contains_head.
  - unfold member_line. do 6 apply contains_app_r. apply contains_refl.
Qed.

(** C2 (amended).  On a listing whose running totals are doubles (the
    additions of line 133 are exact there), the total is the sum of the sizes
    its members report, a member without a size counting for 0.  When that
    sum is greater than [maxBytes], [handleFolder] makes the listing request
    and then only sends messages: no staging directory, no download, no
    archive, no upload, the file system untouched.  The messages are the
    first message of the link fallback and the chunks of member lines, up to
    the first send that throws; when no send throws they are all sent, and
    for every member one chunk message holds its name and its direct URL
    [https://pixeldrain.com/api/file/<id>], both in the MarkdownV2 escaped
    form that reads back as the name and the URL. *)
Theorem C2_folder_over_budget (token chat_id folderId : string) (maxBytes : JsNum)
    (s : State) (resp : ListResp) (files : list FileEntry) :
  w_fetch w (st_trace s) (folderApiUrl folderId) = Ok resp →
  status_ok (list_status resp) = true →
  list_json resp = Ok (Some files) → files ≠ [] →
  exact_totals files = true →
  js_gt (Num (reported_total files)) maxBytes = true →
  let lines := map member_line files in
  let all_texts := msg_folder_too_large files lines :: map (join sep2) (chunks lines) in
  totalBytes files = reported_total files
  ∧ ∃ r texts,
      handleFolder token chat_id folderId maxBytes s
      = (r, mkState (st_fs s)
              (st_trace s ++ EvFetch (folderApiUrl folderId)
                 :: send_events token chat_id texts))
      ∧ Forall (λ e, is_download e = false)
          (EvFetch (folderApiUrl folderId) :: send_events token chat_id texts)
      ∧ texts `prefix_of` all_texts
      ∧ (sends_resolve →
         r = Ok tt ∧ texts = all_texts
         ∧ ∀ f, f ∈ files →
             let url := "https://pixeldrain.com/api/file/" +:+ f_id f in
             fileApiUrl (f_id f) = url
             ∧ md_unescape (escapeMarkdownV2 (f_name f)) = f_name f
             ∧ md_unescape (escapeMarkdownV2 url) = url
             ∧ ∃ text, text ∈ map (join sep2) (chunks lines)
                       ∧ contains ("- " +:+ escapeMarkdownV2 (f_name f) +:+ " (") text
                       ∧ contains ("``" +:+ escapeMarkdownV2 url +:+ "``") text).
Proof.
  intros Hfetch Hok Hjson Hne Hex Hgt lines all_texts.
  split; [by apply totalBytes_reported|].
  rewrite <- totalBytes_reported in Hgt by done.
  rewrite (handleFolder_over_budget _ _ _ _ _ _ _ Hfetch Hok Hjson Hne Hgt).
  destruct (folder_link_fallback_sends token chat_id files
              (log (EvFetch (folderApiUrl folderId)) s)) as (r & texts & Hrun & Hpre & Hall).
  exists r, texts. rewrite Hrun. split_and!.
  - by norm_state.
  - constructor; [done|].
    eapply Forall_impl; [apply send_events_only_sends|]. by intros [].
  - done.
  - intros Hs. destruct (Hall Hs) as [-> ->]. split_and!; [done|done|].
    intros f Hf url.
    split_and!; [done|apply md_unescape_escape|apply md_unescape_escape|].
    destruct (chunks_cover lines (member_line f)) as (c & Hc & Hin).
    { apply list_elem_of_fmap. eauto. }
    exists (join sep2 c). split; [apply list_elem_of_fmap; eauto|].
    pose proof (contains_join sep2 _ _ Hin) as Hline.
    destruct (member_line_parts f) as [Hname Hurl].
    split; eapply contains_trans; eauto.
Qed.

(** C10.  In the link fallback of a folder over the budget, when no send
    throws, the messages sent are the first message and then the chunk
    messages.  The member part of the first message is the lines of the first
    20 members and of no other; the chunks, end to end, are the lines of all
    members.  The line of a member holds its link: the direct URL
    [https://pixeldrain.com/api/file/<id>] in the MarkdownV2 escaped form
    that reads back as the URL, between the marks of inline code.  So the
    link of every member is in a chunk message, and the link of each of the
    first 20 members is in the first message as well: it goes out twice. *)
Theorem C10_first_twenty_twice (token chat_id folderId : string) (maxBytes : JsNum)
    (s : State) (resp : ListResp) (files : list FileEntry) :
  w_fetch w (st_trace s) (folderApiUrl folderId) = Ok resp →
  status_ok (list_status resp) = true →
  list_json resp = Ok (Some files) → files ≠ [] →
  js_gt (Num (totalBytes files)) maxBytes = true →
  sends_resolve →
  let lines := map member_line files in
  let first := msg_folder_too_large files lines in
  let texts := first :: map (join sep2) (chunks lines) in
  handleFolder token chat_id folderId maxBytes s
  = (Ok tt, mkState (st_fs s)
              (st_trace s ++ EvFetch (folderApiUrl folderId)
                 :: send_events token chat_id texts))
  ∧ (∃ intro, first = intro +:+ join sep2 (map member_line (take 20 files))
                      +:+ sep2 +:+ "(Only first 20 shown)")
  ∧ concat (chunks lines) = lines
  ∧ ∀ i f, files !! i = Some f →
      let url := "https://pixeldrain.com/api/file/" +:+ f_id f in
      let link := "``" +:+ escapeMarkdownV2 url +:+ "``" in
      (fileApiUrl (f_id f) = url
       ∧ md_unescape (escapeMarkdownV2 url) = url
       ∧ contains link (member_line f))
      ∧ (∃ j c, chunks lines !! j = Some c
                ∧ texts !! S j = Some (join sep2 c)
                ∧ member_line f ∈ c
                ∧ contains (member_line f) (join sep2 c)
                ∧ contains link (join sep2 c))
      ∧ ((i < 20)%nat →
         texts !! 0%nat = Some first
         ∧ contains (member_line f) first ∧ contains link first).
Proof.
  intros Hfetch Hok Hjson Hne Hgt Hs lines first texts.
  rewrite (handleFolder_over_budget _ _ _ _ _ _ _ Hfetch Hok Hjson Hne Hgt).
  destruct (folder_link_fallback_sends token chat_id files
              (log (EvFetch (folderApiUrl folderId)) s)) as (r & ts & Hrun & _ & Hall).
  destruct (Hall Hs) as [-> ->]. rewrite Hrun. split_and!.
  - by norm_state.
  - unfold first, msg_folder_too_large, lines. rewrite <- fmap_take.
    eexists. rewrite <- !str_app_assoc. reflexivity.
  - apply (chunks_from_concat lines [] 0).
  - intros i f Hi url link.
    destruct (member_line_parts f) as [_ Hlink].
    split_and!.
    + done.
    + apply md_unescape_escape.
    + done.
    + destruct (chunks_cover lines (member_line f)) as (c & Hc & Hin).
      { apply list_elem_of_fmap. exists f. split; [done|].
        by apply list_elem_of_lookup_2 in Hi. }
      apply list_elem_of_lookup in Hc as [j Hj].
      pose proof (contains_join sep2 _ _ Hin) as Hline.
      exists j, c. split_and!; [done| |done|done|by eapply contains_trans].
      change ((join sep2 <$> chunks lines) !! j = Some (join sep2 c)).
      by rewrite list_lookup_fmap, Hj.
    + intros Hlt.
      assert (contains (member_line f) first) as Hfirst.
      { unfold first, msg_folder_too_large.
        do 6 apply contains_app_r. apply contains_app_l, contains_join.
        apply list_elem_of_lookup. exists i.
        rewrite lookup_take_lt by done. unfold lines.
        change (map member_line files) with (member_line <$> files).
        by rewrite list_lookup_fmap, Hi. }
      split_and!; [done|done|by eapply contains_trans].
Qed.

(** ** The chunked messages *)

Lemma chunk_messages_resolved (token chat_id : string) (lines : list string) (s : State) :
  sends_resolve →
  chunk_messages token chat_id lines s = map (join sep2) (chunks lines).
Proof.
  intros Hs. unfold chunk_messages.
  destruct (send_in_chunks_sends token chat_id lines [] 0 s) as (r & texts & -> & _ & Hall).
  destruct (Hall Hs) as [_ ->]. cbn [snd st_trace].
  by rewrite drop_app_length, sent_texts_send_events.
Qed.






(** The lines the code builds for the members of a folder are never shorter
    than 16 characters. *)
Lemma member_line_len (f : FileEntry) : 16 ≤ str_len (member_line f).
Proof.
  unfold member_line. rewrite !str_len_app.
  pose proof (str_len_nonneg (escapeMarkdownV2 (f_name f))).
  pose proof (str_len_nonneg (from_option num_to_string "unknown" (size_truthy f))).
  pose proof (str_len_nonneg (escapeMarkdownV2 (fileApiUrl (f_id f)))).
  change (str_len "- ") with 2. change (str_len " (") with 2.
  change (str_len " bytes)") with 7. change (str_len nl) with 1.
  change (str_len "``") with 2. lia.
Qed.

(** ** A folder within the budget *)

Lemma download_all_run (tmpDir : string) (files : list FileEntry) (s : State) :
  downloads_succeed →
  ∃ fs', download_all tmpDir files s
         = (Ok tt, mkState fs' (st_trace s ++ wget_events tmpDir files))
         ∧ ∀ p, (∀ name, p ≠ path_join tmpDir name) → fs' !! p = st_fs s !! p.
Proof.
  intros Hdl. revert s. induction files as [|f files IH]; intros s.
  - exists (st_fs s). cbn. by rewrite app_nil_r, state_eta.
  - cbn [download_all]. unfold bind, downloadWithWget.
    destruct (Hdl (st_trace s) (fileApiUrl (f_id f))
                (path_join tmpDir (safeName (f_name f)))) as [written ->].
    unfold runCmd_result. cbn [exited_ok]. rewrite Z.eqb_refl. unfold ret.
    set (s1 := log _ _).
    destruct (IH s1) as (fs' & -> & Hframe).
    exists fs'. split; [subst s1; by norm_state|].
    intros p Hp. rewrite Hframe by done. subst s1. cbn [st_fs log set_fs].
    destruct written; [|done]. by rewrite lookup_insert_ne.
Qed.

Lemma send_links_run (token chat_id : string) (files : list FileEntry) (s : State) :
  sends_resolve →
  send_links token chat_id files s
  = (Ok tt, mkState (st_fs s)
              (st_trace s ++ send_events token chat_id (map member_link files))).
Proof.
  intros Hs. revert s. induction files as [|f files IH]; intros s.
  - cbn. by rewrite app_nil_r, state_eta.
  - cbn [send_links]. unfold bind. rewrite send_resolved by done.
    rewrite IH. by norm_state.
Qed.

(** C5.  A folder whose listed total is within the budget and whose archive,
    once made, is over it (every step before succeeding): the archive is not
    uploaded, the run tells the size of the archive and then sends one link
    message per member, in the order of the listing, and the staging
    directory is removed.  The archive file itself is not removed: it is
    still in the file system, with its size, when [handleFolder] returns. *)
Theorem C5_archive_over_budget (token chat_id folderId : string) (m n : Z)
    (s : State) (resp : ListResp) (files : list FileEntry) (sfx : string) :
  w_fetch w (st_trace s) (folderApiUrl folderId) = Ok resp →
  status_ok (list_status resp) = true →
  list_json resp = Ok (Some files) → files ≠ [] →
  totalBytes files ≤ m →
  (∀ h, w_mkdtemp w h (path_join (w_tmpdir w) "pixeldrain-") = Ok sfx) →
  sends_resolve → downloads_succeed →
  let tmpDir := path_join (w_tmpdir w) "pixeldrain-" +:+ sfx in
  let zipPath := zip_path folderId in
  (∀ h, w_zip w h zipPath tmpDir = (SpawnExit (Some 0), Some n)) →
  m < n →
  under tmpDir zipPath = false →
  let run := handleFolder token chat_id folderId (Num m) s in
  run.1 = Ok tt
  ∧ st_trace run.2
    = st_trace s
      ++ [EvFetch (folderApiUrl folderId); EvMkdtemp tmpDir;
          EvSendMessage token chat_id
            ("⬇️ Downloading " +:+ num_to_string (Z.of_nat (length files))
             +:+ " file(s) and preparing zip...")]
      ++ wget_events tmpDir files
      ++ [EvZip zipPath tmpDir; EvSendMessage token chat_id (msg_zip_too_large n)]
      ++ send_events token chat_id (map member_link files)
  ∧ Forall (λ e, is_upload e = false) (drop (length (st_trace s)) (st_trace run.2))
  ∧ staging_removed tmpDir (st_fs run.2)
  ∧ st_fs run.2 !! zipPath = Some (mkNode false n).
Proof.
  intros Hfetch Hok Hjson Hne Hle Hmk Hs Hdl tmpDir zipPath Hzip Hlt Hout run.
  assert (zipPath ≠ tmpDir) as Hzd.
  { intros Heq. rewrite Heq, under_refl in Hout. done. }
  assert (∀ name, zipPath ≠ path_join tmpDir name) as Hzn.
  { intros name Heq. rewrite Heq, under_join in Hout. done. }
  assert (∃ fs', run
    = (Ok tt, mkState fs'
        (st_trace s
         ++ [EvFetch (folderApiUrl folderId); EvMkdtemp tmpDir;
             EvSendMessage token chat_id
               ("⬇️ Downloading " +:+ num_to_string (Z.of_nat (length files))
                +:+ " file(s) and preparing zip...")]
         ++ wget_events tmpDir files
         ++ [EvZip zipPath tmpDir; EvSendMessage token chat_id (msg_zip_too_large n)]
         ++ send_events token chat_id (map member_link files)))
    ∧ staging_removed tmpDir fs'
    ∧ fs' !! zipPath = Some (mkNode false n)) as (fs' & Hrun & Hrm & Hkept).
  { unfold run, handleFolder, bind at 1, fetchList. rewrite Hfetch, Hok. cbn [negb].
    unfold bind at 1, lift. rewrite Hjson.
    destruct files as [|f0 files0] eqn:Hfiles; [done|]. rewrite <- Hfiles in *.
    assert (js_gt (Num (totalBytes files)) (Num m) = false) as ->.
    { cbn. by apply Z.ltb_ge. }
    unfold bind at 1, mkdtempSync. rewrite Hmk. fold tmpDir.
    set (s1 := log (EvMkdtemp tmpDir) _). unfold try_finally.
    unfold handleFolder_try, bind at 1. rewrite send_resolved by done.
    unfold bind at 1. set (s2 := log _ s1).
    destruct (download_all_run tmpDir files s2 Hdl) as (fs3 & -> & Hframe).
    fold zipPath. unfold bind at 1, runZip. cbn [st_trace st_fs]. rewrite Hzip.
    unfold runCmd_result. cbn [exited_ok]. rewrite Z.eqb_refl. unfold ret at 1.
    unfold bind at 1, statSync. cbn [st_fs log set_fs]. rewrite lookup_insert_eq.
    cbn [node_size js_gt]. apply Z.ltb_lt in Hlt. rewrite Hlt.
    unfold bind at 1. rewrite send_resolved by done.
    rewrite send_links_run by done.
    unfold try_ignore, rmdirSync_recursive. cbn [st_fs log set_fs st_trace].
    rewrite lookup_insert_ne by done. rewrite Hframe by (intros name Heq; by apply (path_join_ne tmpDir name)).
    subst s2 s1. cbn [st_fs log set_fs]. rewrite lookup_insert_eq. cbn [is_dir].
    eexists. split_and!.
    - f_equal. f_equal. by norm_state.
    - intros p Hp. apply map_lookup_filter_None. right. intros x _. cbn. congruence.
    - apply map_lookup_filter_Some_2; [apply lookup_insert_eq|done]. }
  rewrite Hrun. cbn [fst snd st_trace st_fs]. split_and!; [done|done| |done|done].
  rewrite drop_app_length. repeat apply Forall_app_2; try by repeat constructor.
  - unfold wget_events. apply Forall_forall. intros e He.
    apply list_elem_of_fmap in He as (f & -> & _). done.
  - eapply Forall_impl; [apply send_events_only_sends|]. by intros [].
Qed.

(** X2.  A folder whose listed total is within the budget and whose archive
    is within it too, with member names that are segments, every step up to
    the upload succeeding: all members are downloaded to the staging
    directory in the order of the listing, one archive is made, the upload
    message is sent and curl is run once on the archive.  What curl answers
    decides the rest.  If it exits with status 0 the success message is sent,
    the archive is removed and the run ends normally.  Otherwise the run ends
    with the exception of the upload, no success message is sent and the
    archive stays in the file system.  Either way nothing of the staging
    directory is left. *)
Theorem folder_within_budget_run (token chat_id folderId : string) (m n : Z)
    (s : State) (resp : ListResp) (files : list FileEntry) (sfx : string) :
  w_fetch w (st_trace s) (folderApiUrl folderId) = Ok resp →
  status_ok (list_status resp) = true →
  list_json resp = Ok (Some files) → files ≠ [] →
  totalBytes files ≤ m →
  Forall (λ f, segment (safeName (f_name f)) = true) files →
  (∀ h, w_mkdtemp w h (path_join (w_tmpdir w) "pixeldrain-") = Ok sfx) →
  sends_resolve → downloads_succeed →
  let tmpDir := path_join (w_tmpdir w) "pixeldrain-" +:+ sfx in
  let zipPath := zip_path folderId in
  (∀ h, w_zip w h zipPath tmpDir = (SpawnExit (Some 0), Some n)) →
  n ≤ m →
  under tmpDir zipPath = false →
  let before :=
    st_trace s
    ++ [EvFetch (folderApiUrl folderId); EvMkdtemp tmpDir;
        EvSendMessage token chat_id
          ("⬇️ Downloading " +:+ num_to_string (Z.of_nat (length files))
           +:+ " file(s) and preparing zip...")]
    ++ wget_events tmpDir files
    ++ [EvZip zipPath tmpDir;
        EvSendMessage token chat_id
          ("⬆️ Uploading zip (" +:+ num_to_string n +:+ " bytes) to Telegram...")] in
  let args := curl_args chat_id zipPath ("Pixeldrain folder " +:+ folderId) in
  let answer := w_curl w before args in
  let run := handleFolder token chat_id folderId (Num m) s in
  run.1 = match answer with
          | SpawnError e => Throw e
          | SpawnExit st =>
              if exited_ok st then Ok tt
              else Throw (new_Error ("curl exited with " +:+ status_text st))
          end
  ∧ st_trace run.2
    = before ++ EvCurl args
        :: (if spawn_ok answer
            then [EvSendMessage token chat_id "✅ Folder uploaded as zip."] else [])
  ∧ staging_removed tmpDir (st_fs run.2)
  ∧ st_fs run.2 !! zipPath = (if spawn_ok answer then None else Some (mkNode false n)).
Proof.
  intros Hfetch Hok Hjson Hne Hle _ Hmk Hs Hdl tmpDir zipPath Hzip Hnm Hout
    before args answer run.
  assert (zipPath ≠ tmpDir) as Hzd.
  { intros Heq. rewrite Heq, under_refl in Hout. done. }
  assert (∃ fs', run
    = (match answer with
       | SpawnError e => Throw e
       | SpawnExit st =>
           if exited_ok st then Ok tt
           else Throw (new_Error ("curl exited with " +:+ status_text st))
       end,
       mkState fs'
         (before ++ EvCurl args
            :: (if spawn_ok answer
                then [EvSendMessage token chat_id "✅ Folder uploaded as zip."] else [])))
    ∧ staging_removed tmpDir fs'
    ∧ fs' !! zipPath = (if spawn_ok answer then None else Some (mkNode false n)))
    as (fs' & Hrun & Hrm & Hz); [|by rewrite Hrun].
  assert (js_gt (Num (totalBytes files)) (Num m) = false) as Hfit.
  { cbn. by apply Z.ltb_ge. }
  unfold run. rewrite (handleFolder_within_budget _ _ _ _ _ _ _ Hfetch Hok Hjson Hne Hfit).
  unfold bind at 1, mkdtempSync. rewrite Hmk. fold tmpDir.
  set (s1 := log (EvMkdtemp tmpDir) _). unfold try_finally.
  unfold handleFolder_try, bind at 1. rewrite send_resolved by done.
  unfold bind at 1. set (s2 := log _ s1).
  destruct (download_all_run tmpDir files s2 Hdl) as (fs3 & -> & Hframe).
  fold zipPath. unfold bind at 1, runZip. cbn [st_trace st_fs]. rewrite Hzip.
  unfold runCmd_result. cbn [exited_ok]. rewrite Z.eqb_refl. unfold ret at 1.
  unfold bind at 1, statSync. cbn [st_fs log set_fs]. rewrite lookup_insert_eq.
  cbn [node_size js_gt]. apply Z.ltb_ge in Hnm. rewrite Hnm.
  unfold bind at 1. rewrite send_resolved by done.
  assert (fs3 !! tmpDir = Some (mkNode true 0)) as Hdir.
  { rewrite Hframe by (intros name Heq; by apply (path_join_ne tmpDir name)).
    subst s2 s1. cbn [st_fs log set_fs]. apply lookup_insert_eq. }
  unfold bind at 1, uploadDocumentCurl. fold args.
  cbn [st_trace log set_fs st_fs].
  assert (((st_trace s2 ++ wget_events tmpDir files) ++ [EvZip zipPath tmpDir])
            ++ [EvSendMessage token chat_id
                  ("⬆️ Uploading zip (" +:+ num_to_string n +:+ " bytes) to Telegram...")]
          = before) as Hbefore.
  { subst s2 s1. unfold before. norm_state. reflexivity. }
  rewrite Hbefore. fold answer.
  assert (∀ (s' : State) (r : Res unit),
            st_fs s' !! tmpDir = Some (mkNode true 0) →
            ∃ fs', (let '(r0, s'') := try_ignore (rmdirSync_recursive tmpDir) s' in
                    match r0 with
                    | Ok _ => (r, s'')
                    | Throw e => (Throw e, s'')
                    end) = (r, mkState fs' (st_trace s'))
                   ∧ staging_removed tmpDir fs'
                   ∧ fs' !! zipPath = st_fs s' !! zipPath) as Hfin.
  { intros s' r Hd. unfold try_ignore, rmdirSync_recursive.
    rewrite Hd. cbn [is_dir set_fs st_trace].
    eexists. split_and!; [reflexivity| |].
    - intros p Hp. apply map_lookup_filter_None. right. intros x _. cbn. congruence.
    - destruct (st_fs s' !! zipPath) as [nd|] eqn:Hz.
      + by apply map_lookup_filter_Some_2.
      + apply map_lookup_filter_None. by left. }
  destruct answer as [e|st]; [|destruct (exited_ok st) eqn:Hst].
  - match goal with
    | |- ∃ _, (let (_, _) := try_ignore _ ?s' in _) = (?r, _) ∧ _ =>
        destruct (Hfin s' r) as (fs' & Heq & Hrm & Hz)
    end.
    { cbn [st_fs log set_fs]. by rewrite lookup_insert_ne. }
    exists fs'. rewrite Heq. cbn [spawn_ok]. split_and!; [|done|].
    + unfold log. cbn [st_trace set_fs]. by rewrite Hbefore.
    + rewrite Hz. cbn [st_fs log set_fs]. apply lookup_insert_eq.
  - unfold bind at 1. rewrite send_resolved by done.
    unfold try_ignore at 1, unlinkSync. cbn [st_fs log set_fs st_trace].
    rewrite lookup_insert_eq. cbn [is_dir].
    match goal with
    | |- ∃ _, (let (_, _) := try_ignore _ ?s' in _) = (?r, _) ∧ _ =>
        destruct (Hfin s' r) as (fs' & Heq & Hrm & Hz)
    end.
    { cbn [st_fs log set_fs]. rewrite lookup_delete_ne by done. by rewrite lookup_insert_ne. }
    exists fs'. rewrite Heq. cbn [spawn_ok]. rewrite Hst. split_and!; [|done|].
    + unfold log. cbn [st_trace set_fs]. rewrite Hbefore. by rewrite <- app_assoc.
    + rewrite Hz. cbn [st_fs log set_fs]. apply lookup_delete_eq.
  - match goal with
    | |- ∃ _, (let (_, _) := try_ignore _ ?s' in _) = (?r, _) ∧ _ =>
        destruct (Hfin s' r) as (fs' & Heq & Hrm & Hz)
    end.
    { cbn [st_fs log set_fs]. by rewrite lookup_insert_ne. }
    exists fs'. rewrite Heq. cbn [spawn_ok]. rewrite Hst. split_and!; [|done|].
    + unfold log. cbn [st_trace set_fs]. by rewrite Hbefore.
    + rewrite Hz. cbn [st_fs log set_fs]. apply lookup_insert_eq.
Qed.

(** * The rest of the script *)

(** ** escapeMarkdownV2 (lines 18-20) *)

Lemma escape_app (a b : string) :
  escapeMarkdownV2 (a +:+ b) = escapeMarkdownV2 a +:+ escapeMarkdownV2 b.
Proof.
  induction a as [|c a IH]; [reflexivity|].
  rewrite str_app_cons. cbn [escapeMarkdownV2]. rewrite IH.
  by destruct (md_special c).
Qed.

Lemma escape_len (s : string) :
  str_len s ≤ str_len (escapeMarkdownV2 s) ≤ 2 * str_len s.
Proof.
  unfold str_len. induction s as [|c s IH]; [cbn; lia|].
  cbn [escapeMarkdownV2]. destruct (md_special c); cbn [String.length]; lia.
Qed.

Lemma escape_well_escaped (s : string) : well_escaped (escapeMarkdownV2 s) = true.
Proof.
  induction s as [|c s IH]; [reflexivity|].
  cbn [escapeMarkdownV2]. destruct (md_special c) eqn:Hsp.
  - cbn [well_escaped]. by rewrite Ascii.eqb_refl.
  - cbn [well_escaped]. destruct (Ascii.eqb_spec c "\") as [->|_].
    + by vm_compute in Hsp.
    + by rewrite Hsp, IH.
Qed.

(** X5.  Whatever text goes through [escapeMarkdownV2] comes out with every
    character of the MarkdownV2 class behind a backslash of its own, so that
    none acts as markup, and reads back as the text it was; the output is at
    most twice as long as the input, and escaping a concatenation is
    concatenating the escaped parts (a remote name cannot close or open markup
    across the boundary of the template it is put in). *)
Theorem escapeMarkdownV2_literal (a b : string) :
  well_escaped (escapeMarkdownV2 a) = true
  ∧ md_unescape (escapeMarkdownV2 a) = a
  ∧ str_len a ≤ str_len (escapeMarkdownV2 a) ≤ 2 * str_len a
  ∧ escapeMarkdownV2 (a +:+ b) = escapeMarkdownV2 a +:+ escapeMarkdownV2 b
  ∧ (all_chars (λ c, negb (md_special c)) a = true → escapeMarkdownV2 a = a).
Proof.
  refine (conj (escape_well_escaped a) (conj (md_unescape_escape a)
            (conj (escape_len a) (conj (escape_app a b) _)))).
  induction a as [|c a IH]; [done|].
  cbn [all_chars escapeMarkdownV2]. intros [Hc Ha]%andb_prop.
  apply negb_true_iff in Hc. rewrite Hc. by rewrite IH.
Qed.

(** ** The link patterns (lines 9-10) *)

Lemma lit_ci_split (lit s r : string) :
  lit_ci lit s = Some r →
  ∃ m, s = m +:+ r ∧ String.length m = String.length lit.
Proof.
  revert s. induction lit as [|a lit IH]; intros s.
  - intros [= ->]. by exists "".
  - cbn [lit_ci]. destruct s as [|b s]; [done|].
    destruct (Ascii.eqb (lower a) (lower b)); [|done].
    intros (m & -> & Hlen)%IH. exists (String b m). cbn. by rewrite Hlen.
Qed.

Lemma opt_lit_ci_split (lit s : string) :
  ∃ m, s = m +:+ opt_lit_ci lit s.
Proof.
  unfold opt_lit_ci. destruct (lit_ci lit s) as [r|] eqn:H.
  - apply lit_ci_split in H as (m & -> & _). by exists m.
  - by exists "".
Qed.

Lemma span_split (p : ascii → bool) (s : string) :
  s = (span p s).1 +:+ (span p s).2
  ∧ all_chars p (span p s).1 = true
  ∧ (span p (span p s).2).1 = "".
Proof.
  induction s as [|c s (IH1 & IH2 & IH3)]; [done|].
  cbn [span]. destruct (p c) eqn:Hc.
  - destruct (span p s) as [a b]. cbn [fst snd] in *.
    split_and!; [by rewrite str_app_cons, <- IH1|cbn [all_chars]; by rewrite ?Hc|done].
  - cbn [fst snd span]. by rewrite Hc.
Qed.

Lemma span_app (p : ascii → bool) (a rest : string) :
  all_chars p a = true → (span p rest).1 = "" →
  (span p (a +:+ rest)).1 = a.
Proof.
  intros Ha Hrest. induction a as [|c a IH]; [done|].
  cbn [all_chars] in Ha. apply andb_prop in Ha as [Hc Ha].
  rewrite str_app_cons. cbn [span]. rewrite Hc.
  specialize (IH Ha). destruct (span p (a +:+ rest)) as [x y].
  cbn [fst] in *. by rewrite IH.
Qed.

Lemma re_search_found {A} (at_pos : string → option A) (s : string) (c : A) :
  re_search at_pos s = Some c → ∃ pre t, s = pre +:+ t ∧ at_pos t = Some c.
Proof.
  induction s as [|x s IH].
  - cbn [re_search]. destruct (at_pos "") eqn:H; [|done].
    intros [= ->]. by exists "", "".
  - cbn [re_search]. destruct (at_pos (String x s)) eqn:H.
    + intros [= ->]. by exists "", (String x s).
    + intros (pre & t & -> & Ht)%IH. by exists (String x pre), t.
Qed.

Lemma all_chars_no_slash (id : string) :
  all_chars idchar id = true → has_char "/" id = false.
Proof.
  induction id as [|c id IH]; [done|].
  cbn [all_chars has_char]. intros [Hc Hid]%andb_prop. rewrite IH by done.
  destruct (Ascii.eqb_spec "/" c) as [<-|_]; [by vm_compute in Hc|done].
Qed.

Lemma pixel_re_at_sound (kind s id : string) :
  pixel_re_at kind s = Some id →
  id ≠ "" ∧ all_chars idchar id = true ∧ contains id s.
Proof.
  unfold pixel_re_at.
  destruct (lit_ci "http" s) as [s1|] eqn:H1; [|done]. cbn [mbind option_bind].
  destruct (lit_ci "://" (opt_lit_ci "s" s1)) as [s2|] eqn:H2; [|done].
  cbn [mbind option_bind].
  destruct (lit_ci _ (opt_lit_ci "www." s2)) as [s3|] eqn:H3; [|done].
  cbn [mbind option_bind].
  destruct (span_split idchar s3) as (Hs3 & Hall & _).
  destruct (is_empty (span idchar s3).1) eqn:He; [done|]. intros [= <-].
  split_and!; [by destruct (span idchar s3).1|done|].
  assert (contains (span idchar s3).1 s3) as Hin3.
  { rewrite Hs3 at 2. apply contains_app_l, contains_refl. }
  apply lit_ci_split in H1 as (m1 & -> & _).
  destruct (opt_lit_ci_split "s" s1) as (m2 & Hm2).
  apply lit_ci_split in H2 as (m3 & Hm3 & _).
  destruct (opt_lit_ci_split "www." s2) as (m4 & Hm4).
  apply lit_ci_split in H3 as (m5 & Hm5 & _).
  apply contains_app_r. rewrite Hm2. apply contains_app_r. rewrite Hm3.
  apply contains_app_r. rewrite Hm4. apply contains_app_r. rewrite Hm5.
  by apply contains_app_r.
Qed.

(** X6.  Whatever the link, an identifier captured by the file pattern or by
    the folder pattern is not empty, is made of letters, digits, underscores
    and hyphens only (so it holds no path separator), and stands in the
    link. *)
Theorem captured_id_sound (link id : string) :
  PIXEL_FILE_RE link = Some id ∨ PIXEL_FOLDER_RE link = Some id →
  id ≠ "" ∧ all_chars idchar id = true ∧ has_char "/" id = false ∧ contains id link.
Proof.
  unfold PIXEL_FILE_RE, PIXEL_FOLDER_RE.
  intros [H|H]; apply re_search_found in H as (pre & t & -> & Ht);
    apply pixel_re_at_sound in Ht as (Hne & Hall & Hin);
    (split_and!; [done|done|by apply all_chars_no_slash|by apply contains_app_r]).
Qed.

Lemma lit_ci_keeps (p : ascii → bool) (lit s r : string) :
  lit_ci lit s = Some r → all_chars p s = true → all_chars p r = true.
Proof.
  revert s. induction lit as [|a lit IH]; intros s; [by intros [= ->]|].
  cbn [lit_ci]. destruct s as [|b s]; [done|].
  destruct (Ascii.eqb (lower a) (lower b)); [|done].
  cbn [all_chars]. intros H [_ Hs]%andb_prop. by eapply IH.
Qed.

(** Inside an identifier no link starts: the separator after the scheme is
    not a character of identifiers. *)
Lemma pixel_re_at_in_id (kind s : string) :
  all_chars idchar s = true → pixel_re_at kind s = None.
Proof.
  intros Hs. unfold pixel_re_at.
  destruct (lit_ci "http" s) as [s1|] eqn:H1; [|done]. cbn [mbind option_bind].
  assert (all_chars idchar s1 = true) as Hs1 by (by eapply lit_ci_keeps).
  assert (all_chars idchar (opt_lit_ci "s" s1) = true) as Hs2.
  { unfold opt_lit_ci. destruct (lit_ci "s" s1) eqn:H; [by eapply lit_ci_keeps|done]. }
  destruct (opt_lit_ci "s" s1) as [|c r]; [done|].
  cbn [all_chars] in Hs2. apply andb_prop in Hs2 as [Hc _].
  cbn [lit_ci]. destruct (Ascii.eqb (lower ":") (lower c)) eqn:Heq; [|done].
  exfalso. revert Hc Heq. clear.
  destruct c as [[] [] [] [] [] [] [] []]; vm_compute; congruence.
Qed.

Lemma re_search_in_id (kind s : string) :
  all_chars idchar s = true → re_search (pixel_re_at kind) s = None.
Proof.
  induction s as [|c s IH]; intros Hs.
  - reflexivity.
  - cbn [re_search]. rewrite pixel_re_at_in_id by done.
    apply IH. cbn [all_chars] in Hs. by apply andb_prop in Hs as [_ ?].
Qed.

Lemma re_search_here {A} (at_pos : string → option A) (s : string) (c : A) :
  at_pos s = Some c → re_search at_pos s = Some c.
Proof. intros H. destruct s; cbn [re_search]; by rewrite H. Qed.

Lemma re_search_cons {A} (at_pos : string → option A) (c : ascii) (s : string) :
  at_pos (String c s) = None → re_search at_pos (String c s) = re_search at_pos s.
Proof. intros H. cbn [re_search]. by rewrite H. Qed.

(** A position that does not start with the letter h starts no link. *)
Lemma pixel_re_at_not_h (kind : string) (c : ascii) (s : string) :
  Ascii.eqb (lower "h") (lower c) = false → pixel_re_at kind (String c s) = None.
Proof. intros H. unfold pixel_re_at. cbn [lit_ci]. by rewrite H. Qed.

Ltac skip_position :=
  rewrite re_search_cons by (apply pixel_re_at_not_h; reflexivity).

(** X7.  A link in the plain form, with either scheme, with or without the
    www prefix, an identifier that is not empty and made of identifier
    characters, followed by text that does not go on with one: the file
    pattern reads the identifier of a [/u/] link and the folder pattern that
    of a [/l/] link, whole; and a bare [/u/] link does not match the folder
    pattern, nor a bare [/l/] link the file pattern, so the two kinds do not
    overlap. *)
Theorem canonical_link_classified (secure www : bool) (id rest : string) :
  id ≠ "" → all_chars idchar id = true → (span idchar rest).1 = "" →
  PIXEL_FILE_RE (canonical_link secure www "u" id +:+ rest) = Some id
  ∧ PIXEL_FOLDER_RE (canonical_link secure www "l" id +:+ rest) = Some id
  ∧ PIXEL_FOLDER_RE (canonical_link secure www "u" id) = None
  ∧ PIXEL_FILE_RE (canonical_link secure www "l" id) = None.
Proof.
  intros Hne Hid Hrest.
  assert (is_empty id = false) as He by (by destruct id).
  pose proof (span_app idchar id rest Hid Hrest) as Hsp.
  unfold PIXEL_FILE_RE, PIXEL_FOLDER_RE, canonical_link.
  split_and!.
  - rewrite !str_app_assoc. set (t := id +:+ rest) in *. clearbody t.
    apply re_search_here.
    transitivity (let i := (span idchar t).1 in if is_empty i then None else Some i);
      [by destruct secure, www|].
    cbv zeta. by rewrite Hsp, He.
  - rewrite !str_app_assoc. set (t := id +:+ rest) in *. clearbody t.
    apply re_search_here.
    transitivity (let i := (span idchar t).1 in if is_empty i then None else Some i);
      [by destruct secure, www|].
    cbv zeta. by rewrite Hsp, He.
  - destruct secure, www; lazy beta iota zeta delta [String.append];
      (rewrite re_search_cons by reflexivity);
      repeat skip_position; by apply re_search_in_id.
  - destruct secure, www; lazy beta iota zeta delta [String.append];
      (rewrite re_search_cons by reflexivity);
      repeat skip_position; by apply re_search_in_id.
Qed.

(** ** The file name of the probe (lines 85-88) *)

Lemma all_chars_not (x : ascii) (s : string) :
  all_chars (λ c, negb (Ascii.eqb c x)) s = true → has_char x s = false.
Proof.
  induction s as [|c s IH]; [done|].
  cbn [all_chars has_char]. intros [Hc Hs]%andb_prop. rewrite IH by done.
  apply negb_true_iff in Hc. rewrite Ascii.eqb_sym. by rewrite Hc.
Qed.

Lemma has_char_not (x : ascii) (s : string) :
  has_char x s = false → all_chars (λ c, negb (Ascii.eqb c x)) s = true.
Proof.
  induction s as [|c s IH]; [done|].
  cbn [all_chars has_char]. intros [Hc Hs]%orb_false_elim. rewrite IH by done.
  rewrite Ascii.eqb_sym. by rewrite Hc.
Qed.

Lemma span_whole (p : ascii → bool) (s : string) :
  all_chars p s = true → (span p s).1 = s.
Proof.
  intros Hs. rewrite <- (str_app_nil_r s) at 1. by apply span_app.
Qed.

Lemma filename_re_at_sound (s raw : string) :
  filename_re_at s = Some raw →
  raw ≠ "" ∧ contains raw s
  ∧ (has_char ";" raw = false ∨ has_char dquote raw = false).
Proof.
  unfold filename_re_at.
  destruct (lit_ci "filename*=UTF-8''" s) as [r|] eqn:H1.
  - destruct (span_split (λ c, negb (Ascii.eqb c ";")) r) as (Hr & Hall & _).
    destruct (is_empty (span _ r).1) eqn:He; [done|]. intros [= <-].
    split_and!; [by destruct (span _ r).1| |left; by apply all_chars_not].
    apply lit_ci_split in H1 as (m & -> & _). apply contains_app_r.
    rewrite Hr at 2. apply contains_app_l, contains_refl.
  - destruct (lit_ci "filename=" s) as [r|] eqn:H2; [|done]. cbn [mbind option_bind].
    set (r' := match r with
               | "" => r
               | String c t => if Ascii.eqb c dquote then t else r
               end).
    assert (contains r' r) as Hr'.
    { subst r'. destruct r as [|c t]; [apply contains_refl|].
      destruct (Ascii.eqb c dquote); [|apply contains_refl].
      exists (String c ""), "". by rewrite str_app_nil_r. }
    destruct (span_split (λ c, negb (Ascii.eqb c dquote)) r') as (Hsp & Hall & _).
    destruct (is_empty (span _ r').1) eqn:He; [done|]. intros [= <-].
    split_and!; [by destruct (span _ r').1| |right; by apply all_chars_not].
    apply lit_ci_split in H2 as (m & -> & _). apply contains_app_r.
    eapply contains_trans; [|exact Hr'].
    rewrite Hsp at 2. apply contains_app_l, contains_refl.
Qed.

(** X8.  Whatever the Content-Disposition header, a file name read from it is
    not empty, stands in the header, and holds no semicolon (the extended
    form) or no double quote (the simple form). *)
Theorem match_filename_sound (cd raw : string) :
  match_filename cd = Some raw →
  raw ≠ "" ∧ contains raw cd
  ∧ (has_char ";" raw = false ∨ has_char dquote raw = false).
Proof.
  unfold match_filename. intros (pre & t & -> & Ht)%re_search_found.
  apply filename_re_at_sound in Ht as (Hne & Hin & Hch).
  split_and!; [done|by apply contains_app_r|done].
Qed.

(** A position that does not start with the letter f starts no file name. *)
Lemma filename_re_at_not_f (c : ascii) (s : string) :
  Ascii.eqb (lower "f") (lower c) = false → filename_re_at (String c s) = None.
Proof. intros H. unfold filename_re_at. cbn [lit_ci]. by rewrite H. Qed.

Lemma match_filename_skip (pre t : string) :
  all_chars (λ c, negb (Ascii.eqb (lower "f") (lower c))) pre = true →
  match_filename (pre +:+ t) = match_filename t.
Proof.
  unfold match_filename. induction pre as [|c pre IH]; [done|].
  cbn [all_chars]. intros [Hc Hpre]%andb_prop. apply negb_true_iff in Hc.
  rewrite str_app_cons, re_search_cons by (by apply filename_re_at_not_f).
  by apply IH.
Qed.

(** X9.  A header whose first letter f is that of the file name parameter.
    In the quoted simple form the name is what stands between the quotes.
    Without quotes, and with no double quote after it, the name runs to the
    end of the header: whatever follows it, other parameters included, is
    part of it.  In the extended form the name runs to the next semicolon or to the
    end, still percent-encoded. *)
Theorem match_filename_forms (pre name rest : string) :
  all_chars (λ c, negb (Ascii.eqb (lower "f") (lower c))) pre = true →
  name ≠ "" →
  (has_char dquote name = false →
   match_filename (pre +:+ "filename=" +:+ String dquote name +:+ String dquote rest)
   = Some name
   ∧ match_filename (pre +:+ "filename=" +:+ name) = Some name)
  ∧ (has_char ";" name = false → rest = "" ∨ (∃ r, rest = String ";" r) →
     match_filename (pre +:+ "filename*=UTF-8''" +:+ name +:+ rest) = Some name).
Proof.
  intros Hpre Hne.
  assert (is_empty name = false) as He by (by destruct name).
  split.
  - intros Hq. apply has_char_not in Hq as Hall. split.
    + rewrite match_filename_skip by done. apply re_search_here.
      transitivity
        (let cap := (span (λ c, negb (Ascii.eqb c dquote))
                       (name +:+ String dquote rest)).1 in
         if is_empty cap then None else Some cap); [reflexivity|].
      cbv zeta. rewrite span_app by (done || reflexivity).
      by rewrite He.
    + rewrite match_filename_skip by done. apply re_search_here.
      destruct name as [|c name']; [done|].
      cbn [has_char] in Hq. apply orb_false_elim in Hq as [Hc _].
      rewrite Ascii.eqb_sym in Hc.
      transitivity
        (let r' := (if Ascii.eqb c dquote then name' else String c name') in
         let cap := (span (λ c, negb (Ascii.eqb c dquote)) r').1 in
         if is_empty cap then None else Some cap); [reflexivity|].
      cbv zeta. rewrite Hc. by rewrite span_whole.
  - intros Hsc Hrest. apply has_char_not in Hsc as Hall.
    rewrite match_filename_skip by done. apply re_search_here.
    transitivity
      (let cap := (span (λ c, negb (Ascii.eqb c ";")) (name +:+ rest)).1 in
       if is_empty cap then None else Some cap); [reflexivity|].
    cbv zeta. rewrite span_app; [by rewrite He|done|].
    destruct Hrest as [->|[r ->]]; reflexivity.
Qed.

(** ** The upload (lines 58-77) *)

(** X10.  [uploadDocumentCurl] makes one call of curl; its arguments are
    options and form fields only: none is a URL, and the [sendDocument] URL
    that line 60 computes, the only text that carries the bot token, is not
    among them.  There are seven arguments without a caption and nine with
    one. *)
Theorem upload_arguments_hold_no_url (token chat_id filePath caption : string) (s : State) :
  let args := curl_args chat_id filePath caption in
  new_events (uploadDocumentCurl token chat_id filePath caption) s = [EvCurl args]
  ∧ Forall (λ a, String.prefix "http" a = false) args
  ∧ (tgApiUrl token "sendDocument" ∉ args)
  ∧ length args = (if is_empty caption then 7 else 9)%nat.
Proof.
  intros args.
  assert (Forall (λ a, String.prefix "http" a = false) args) as Hall.
  { subst args. unfold curl_args. destruct (is_empty caption);
      repeat (constructor; [reflexivity|]); constructor. }
  split_and!.
  - unfold new_events, uploadDocumentCurl. fold args.
    destruct (w_curl w (st_trace s) args) as [e|st]; [|destruct (exited_ok st)];
      cbn [snd log st_trace]; by rewrite drop_app_length.
  - done.
  - intros Hin. apply (proj1 (Forall_forall _ _) Hall) in Hin. done.
  - subst args. unfold curl_args. by destruct (is_empty caption).
Qed.

(** ** The chunks at the edges (lines 140-148) *)

(** X11.  The chunked messages at the edges, when no send throws.  Without
    lines no message is sent.  Lines that add up to at most 3000 characters go
    out as one message, the join of all of them.  When the first line alone is
    longer than 3000 characters the first message sent is the empty text, and
    the line opens the next one. *)
Theorem chunk_messages_edges (token chat_id : string) (lines : list string) (s : State) :
  sends_resolve →
  (lines = [] → chunk_messages token chat_id lines s = [])
  ∧ (lines ≠ [] → sum_len lines ≤ 3000 →
     chunk_messages token chat_id lines s = [join sep2 lines])
  ∧ (∀ line rest, lines = line :: rest → 3000 < str_len line →
     ∃ others more,
       chunk_messages token chat_id lines s = "" :: join sep2 (line :: others) :: more).
Proof.
  intros Hs. rewrite chunk_messages_resolved by done. split_and!.
  - by intros ->.
  - intros Hne Hsum. unfold chunks. rewrite chunks_from_one; [done|done|lia|done].
  - intros line rest -> Hlong. unfold chunks. cbn [chunks_from].
    assert ((3000 <? 0 + str_len line) = true) as -> by (apply Z.ltb_lt; lia).
    cbn [map]. clear Hlong.
    assert (∀ ls chunk cur, chunk ≠ [] →
              ∃ others more, chunks_from ls chunk cur = (chunk ++ others) :: more) as Hhead.
    { induction ls as [|l ls IH]; intros chunk cur Hne.
      - exists [], []. cbn [chunks_from]. rewrite app_nil_r. by destruct chunk.
      - cbn [chunks_from]. case_match.
        + exists [], (chunks_from ls [l] (str_len l)). by rewrite app_nil_r.
        + destruct (IH (chunk ++ [l]) (cur + str_len l)) as (others & more & ->);
            [by destruct chunk|].
          exists (l :: others), more. by rewrite <- app_assoc. }
    destruct (Hhead rest [line] (str_len line)) as (others & more & ->); [done|].
    by exists others, (map (join sep2) more).
Qed.

(** ** The place of the archive (lines 153, 164) *)

Lemma eqb_app_l (a b c : string) : String.eqb (a +:+ b) (a +:+ c) = String.eqb b c.
Proof.
  induction a as [|x a IH]; [done|].
  rewrite !str_app_cons. cbn [String.eqb]. by rewrite Ascii.eqb_refl.
Qed.

Lemma prefix_app_l (a b c : string) :
  String.prefix (a +:+ b) (a +:+ c) = String.prefix b c.
Proof.
  induction a as [|x a IH]; [done|].
  rewrite !str_app_cons. cbn [String.prefix]. by destruct (ascii_dec x x).
Qed.

(** X12.  The archive of a folder is not in the staging directory: with the
    six characters that [mkdtempSync] appends to its prefix, the path of the
    archive is neither the staging directory nor below it, whatever the
    folder identifier; removing the staging directory leaves the archive
    where it is. *)
Theorem archive_outside_staging (folderId sfx : string) :
  String.length sfx = 6%nat →
  under (path_join (w_tmpdir w) "pixeldrain-" +:+ sfx) (zip_path folderId) = false.
Proof.
  intros Hlen. unfold under, zip_path, path_join.
  change ("pixeldrain-folder-" +:+ folderId +:+ ".zip")
    with ("pixeldrain-" +:+ "folder-" +:+ folderId +:+ ".zip").
  rewrite !str_app_assoc.
  rewrite !eqb_app_l, !prefix_app_l.
  destruct sfx as [|c1 [|c2 [|c3 [|c4 [|c5 [|c6 [|c7 sfx]]]]]]]; try done.
  apply orb_false_intro.
  - cbn [String.append String.eqb]. rewrite !str_app_cons. cbn [String.eqb].
    repeat (destruct (Ascii.eqb _ _); [|reflexivity]). reflexivity.
  - rewrite !str_app_cons. cbn [String.prefix].
    repeat (destruct (ascii_dec _ _); [|reflexivity]). done.
Qed.

(** ** The probe of a single file (lines 80-91) *)

(** X13.  A probe that fails (the request throws, or the answer has no
    success status) does not stop the run: the file keeps the name made from
    its identifier and has no known size, and [handleFile] goes on with the
    transfer. *)
Theorem failed_probe_degrades (token chat_id fileId : string) (maxBytes : JsNum) (s : State) :
  w_head w (st_trace s) (fileApiUrl fileId) = None
  ∨ (∃ h, w_head w (st_trace s) (fileApiUrl fileId) = Some h
          ∧ status_ok (head_status h) = false) →
  probeFile fileId s
  = (Ok ("pixeldrain-" +:+ fileId, None), log (EvHead (fileApiUrl fileId)) s)
  ∧ handleFile token chat_id fileId maxBytes s
    = handleFile_transfer token chat_id (fileApiUrl fileId) ("pixeldrain-" +:+ fileId)
        maxBytes (log (EvHead (fileApiUrl fileId)) s).
Proof.
  intros Hhead.
  assert (probeFile fileId s
          = (Ok ("pixeldrain-" +:+ fileId, None), log (EvHead (fileApiUrl fileId)) s)) as Hp.
  { unfold probeFile, bind, headUrl, ret.
    destruct Hhead as [-> | (h & -> & ->)]; done. }
  split; [done|]. by rewrite (handleFile_gate _ _ _ _ _ _ _ _ Hp).
Qed.

(** X14.  When the file name read from the Content-Disposition header does
    not decode, [handleFile] ends with the exception of
    [decodeURIComponent] right after the probe: the size is not looked at, no
    staging directory is made, nothing is downloaded and no message is
    sent. *)
Theorem undecodable_name_aborts (token chat_id fileId : string) (maxBytes : JsNum)
    (s : State) (h : HeadResp) (raw : string) (e : Error) :
  w_head w (st_trace s) (fileApiUrl fileId) = Some h →
  status_ok (head_status h) = true →
  match_filename (default "" (content_disposition h)) = Some raw →
  decodeURIComponent raw = Throw e →
  handleFile token chat_id fileId maxBytes s
  = (Throw e, log (EvHead (fileApiUrl fileId)) s).
Proof.
  intros Hh Hok Hm Hd.
  unfold handleFile, bind at 1, probeFile, bind at 1, headUrl.
  rewrite Hh, Hok, Hm. unfold bind, lift. by rewrite Hd.
Qed.

(** ** The failures of the listing (lines 121-131) *)

(** X15.  The four ways a listing fails.  A request that throws, or a body
    that is no JSON, ends [handleFolder] with that exception after the
    request and nothing else.  An answer without success status is reported
    by one message naming the folder and the status; a listing that is null,
    has no array of files or has an empty one is reported by one message.  In
    each case the request and that message are the only calls: no staging
    directory is made and nothing is downloaded. *)
Theorem listing_failures (token chat_id folderId : string) (maxBytes : JsNum) (s : State) :
  let api := folderApiUrl folderId in
  let run := handleFolder token chat_id folderId maxBytes s in
  (∀ e, w_fetch w (st_trace s) api = Throw e → run = (Throw e, log (EvFetch api) s))
  ∧ (∀ resp, w_fetch w (st_trace s) api = Ok resp →
       (status_ok (list_status resp) = false →
        run = sendTelegramMessage token chat_id
                ("Failed to read folder " +:+ folderId +:+ ": HTTP "
                 +:+ num_to_string (list_status resp))
                (log (EvFetch api) s))
       ∧ (status_ok (list_status resp) = true →
          (∀ e, list_json resp = Throw e → run = (Throw e, log (EvFetch api) s))
          ∧ (list_json resp = Ok None ∨ list_json resp = Ok (Some []) →
             run = sendTelegramMessage token chat_id
                     "Folder appears empty or returned no files."
                     (log (EvFetch api) s)))).
Proof.
  intros api run.
  assert (run = match w_fetch w (st_trace s) api with
                | Ok resp =>
                    if negb (status_ok (list_status resp)) then
                      sendTelegramMessage token chat_id
                        ("Failed to read folder " +:+ folderId +:+ ": HTTP "
                         +:+ num_to_string (list_status resp)) (log (EvFetch api) s)
                    else
                      match list_json resp with
                      | Ok None | Ok (Some []) =>
                          sendTelegramMessage token chat_id
                            "Folder appears empty or returned no files." (log (EvFetch api) s)
                      | Ok (Some files) =>
                          (if js_gt (Num (totalBytes files)) maxBytes then
                             folder_link_fallback token chat_id files
                           else
                             tmpDir <- mkdtempSync (path_join (w_tmpdir w) "pixeldrain-");;
                             try_finally
                               (handleFolder_try token chat_id folderId tmpDir files maxBytes)
                               (try_ignore (rmdirSync_recursive tmpDir)))
                            (log (EvFetch api) s)
                      | Throw e => (Throw e, log (EvFetch api) s)
                      end
                | Throw e => (Throw e, log (EvFetch api) s)
                end) as ->.
  { unfold run, handleFolder, bind at 1, fetchList. fold api.
    destruct (w_fetch w (st_trace s) api) as [resp|e]; [|done].
    destruct (negb (status_ok (list_status resp))); [done|].
    unfold bind at 1, lift. by destruct (list_json resp) as [[[|f files]|]|e]. }
  split.
  - by intros e ->.
  - intros resp ->. split.
    + by intros ->.
    + intros ->. cbn [negb]. split.
      * by intros e ->.
      * by intros [-> | ->].
Qed.

(** ** The configuration (lines 189-196, 212-221) *)

(** The exception of the first missing value, in the order of the checks. *)
Lemma main_try_first_missing (env : Env) (s : State) :
  config_present env = false →
  main_try env s
  = (Throw (new_Error
              ((if negb (str_truthy (PIXEL_LINK env)) then "PIXEL_LINK"
                else if negb (str_truthy (TELEGRAM_BOT_TOKEN env)) then "TELEGRAM_BOT_TOKEN"
                else "TELEGRAM_CHAT_ID") +:+ " environment variable missing")), s).
Proof.
  unfold config_present, main_try, throw.
  destruct (str_truthy (PIXEL_LINK env)); [|done].
  destruct (str_truthy (TELEGRAM_BOT_TOKEN env)); [|done].
  destruct (str_truthy (TELEGRAM_CHAT_ID env)); done.
Qed.

(** X16.  When one of the three required values is missing or empty, the run
    ends with code 1 before any call of its own: the error names the first
    missing value, in the order link, token, chat id.  When the token or the
    chat id is the missing one the run makes no call at all and leaves the
    state as it was; when only the link is missing its one call is the
    error notification. *)
Theorem missing_configuration (env : Env) (s : State) :
  config_present env = false →
  let missing := if negb (str_truthy (PIXEL_LINK env)) then "PIXEL_LINK"
                 else if negb (str_truthy (TELEGRAM_BOT_TOKEN env)) then "TELEGRAM_BOT_TOKEN"
                 else "TELEGRAM_CHAT_ID" in
  let err := new_Error (missing +:+ " environment variable missing") in
  main env s = (1, mkState (st_fs s) (st_trace s ++ error_notification env err))
  ∧ (str_truthy (TELEGRAM_BOT_TOKEN env) && str_truthy (TELEGRAM_CHAT_ID env) = false →
     main env s = (1, s))
  ∧ (str_truthy (TELEGRAM_BOT_TOKEN env) && str_truthy (TELEGRAM_CHAT_ID env) = true →
     missing = "PIXEL_LINK"
     ∧ error_notification env err
       = [EvSendMessage (default "" (TELEGRAM_BOT_TOKEN env))
            (default "" (TELEGRAM_CHAT_ID env)) (msg_error err)]).
Proof.
  intros Hc missing err.
  assert (main env s = (1, mkState (st_fs s) (st_trace s ++ error_notification env err)))
    as Hmain.
  { unfold main. rewrite main_try_first_missing by done. fold missing err.
    by rewrite main_catch_run. }
  split_and!; [done| |].
  - intros Hno. rewrite Hmain. unfold error_notification. rewrite Hno.
    by rewrite app_nil_r, state_eta.
  - intros Hyes. unfold error_notification. rewrite Hyes. split; [|done].
    unfold missing, config_present in *. apply andb_prop in Hyes as [Ht Hch].
    rewrite Ht, Hch in Hc. by destruct (str_truthy (PIXEL_LINK env)).
Qed.

(** ** What a run adds to the trace *)

Lemma emits_at_new {A} (P : Event → bool) (m : M A) (s : State) :
  emits_at P m s → Forall (λ e, P e = true) (new_events m s).
Proof.
  intros (evs & Htr & Hall). unfold new_events. rewrite Htr, drop_app_length.
  apply Forall_forall. intros e He.
  apply (proj1 (forallb_forall P evs) Hall). by apply list_elem_of_In.
Qed.

Lemma emits_at_none {A} (P : Event → bool) (m : M A) (s : State) :
  st_trace (m s).2 = st_trace s → emits_at P m s.
Proof. intros H. exists []. by rewrite app_nil_r. Qed.

Lemma emits_at_one {A} (P : Event → bool) (m : M A) (s : State) (e : Event) :
  st_trace (m s).2 = st_trace s ++ [e] → P e = true → emits_at P m s.
Proof. intros H He. exists [e]. cbn. by rewrite He. Qed.

(** The continuation has to behave from the states the first part reaches
    only. *)
Lemma emits_at_bind {A B} (P : Event → bool) (m : M A) (k : A → M B) (s : State) :
  emits_at P m s →
  (∀ a s1, m s = (Ok a, s1) → emits_at P (k a) s1) →
  emits_at P (bind m k) s.
Proof.
  intros (evs1 & Ht1 & Ha1) Hk. unfold emits_at, bind.
  destruct (m s) as [[a|e] s1] eqn:Hrun; cbn [snd] in Ht1.
  - destruct (Hk a s1 eq_refl) as (evs2 & Ht2 & Ha2).
    exists (evs1 ++ evs2). rewrite Ht2, Ht1, <- app_assoc. split; [done|].
    rewrite forallb_app. by rewrite Ha1, Ha2.
  - by exists evs1.
Qed.

Lemma emits_at_try_finally {A} (P : Event → bool) (m : M A) (fin : M unit) (s : State) :
  emits_at P m s → silent fin → emits_at P (try_finally m fin) s.
Proof.
  intros (evs & Ht & Ha) Hfin. unfold emits_at, try_finally.
  destruct (m s) as [r s1]. specialize (Hfin s1). cbn [snd] in Ht.
  exists evs. destruct (fin s1) as [[[]|e] s2]; cbn [snd] in *; by rewrite Hfin.
Qed.

Lemma emits_at_send (P : Event → bool) (token chat_id text : string) (s : State) :
  P (EvSendMessage token chat_id text) = true →
  emits_at P (sendTelegramMessage token chat_id text) s.
Proof.
  intros HP. destruct (send_run token chat_id text s) as (r & Hr & _).
  eapply emits_at_one; [by rewrite Hr|done].
Qed.

Lemma emits_at_wget (P : Event → bool) (url outPath : string) (s : State) :
  P (EvWget url outPath) = true → emits_at P (downloadWithWget url outPath) s.
Proof.
  intros HP. eapply emits_at_one; [|exact HP].
  unfold downloadWithWget, runCmd_result, throw, ret.
  by repeat case_match.
Qed.

Lemma emits_at_zip (P : Event → bool) (zipPath tmpDir : string) (s : State) :
  P (EvZip zipPath tmpDir) = true → emits_at P (runZip zipPath tmpDir) s.
Proof.
  intros HP. eapply emits_at_one; [|exact HP].
  unfold runZip, runCmd_result, throw, ret.
  by repeat case_match.
Qed.

Lemma emits_at_mkdtemp (P : Event → bool) (prefix : string) (s : State) :
  (∀ d, P (EvMkdtemp d) = true) → emits_at P (mkdtempSync prefix) s.
Proof.
  intros HP. unfold mkdtempSync.
  destruct (w_mkdtemp w (st_trace s) prefix) as [sfx|e] eqn:Hmk.
  - eapply emits_at_one; [|apply HP]. unfold mkdtempSync. by rewrite Hmk.
  - apply emits_at_none. unfold mkdtempSync. by rewrite Hmk.
Qed.

Lemma emits_at_silent {A} (P : Event → bool) (m : M A) (s : State) :
  silent m → emits_at P m s.
Proof. intros H. by apply emits_at_none. Qed.

Lemma emits_send_links (P : Event → bool) (token chat_id : string) (files : list FileEntry) :
  (∀ text, P (EvSendMessage token chat_id text) = true) →
  emits P (send_links token chat_id files).
Proof.
  intros HP. induction files as [|f files IH]; intros s.
  - by apply emits_at_none.
  - cbn [send_links]. apply emits_at_bind; [by apply emits_at_send|].
    intros _ s1 _. apply IH.
Qed.

Lemma emits_download_all (P : Event → bool) (tmpDir : string) (files : list FileEntry) :
  (∀ url outPath, P (EvWget url outPath) = true) →
  emits P (download_all tmpDir files).
Proof.
  intros HP. induction files as [|f files IH]; intros s.
  - by apply emits_at_none.
  - cbn [download_all]. apply emits_at_bind; [by apply emits_at_wget|].
    intros _ s1 _. apply IH.
Qed.

Lemma emits_link_fallback (P : Event → bool) (token chat_id : string) (files : list FileEntry) :
  (∀ text, P (EvSendMessage token chat_id text) = true) →
  emits P (folder_link_fallback token chat_id files).
Proof.
  intros HP s.
  destruct (folder_link_fallback_sends token chat_id files s) as (r & texts & Hrun & _).
  exists (send_events token chat_id texts). rewrite Hrun. split; [done|].
  clear Hrun. induction texts as [|t texts IH]; [done|]. cbn. by rewrite HP.
Qed.

(** ** No upload of an artifact over the budget *)

(** What the download leaves is what [statSync] then reads. *)
Lemma wget_leaves (url outPath : string) (n : Z) (s s1 : State) (r : Res unit) :
  (w_wget w (st_trace s) url outPath).2 = Some n →
  downloadWithWget url outPath s = (r, s1) →
  st_fs s1 !! outPath = Some (mkNode false n).
Proof.
  unfold downloadWithWget, runCmd_result, throw, ret.
  destruct (w_wget w (st_trace s) url outPath) as [sp written]. cbn [snd].
  intros ->. repeat case_match; intros [= _ <-]; cbn; apply lookup_insert_eq.
Qed.

Lemma zip_leaves (zipPath tmpDir : string) (n : Z) (s s1 : State) (r : Res unit) :
  (w_zip w (st_trace s) zipPath tmpDir).2 = Some n →
  runZip zipPath tmpDir s = (r, s1) →
  st_fs s1 !! zipPath = Some (mkNode false n).
Proof.
  unfold runZip, runCmd_result, throw, ret.
  destruct (w_zip w (st_trace s) zipPath tmpDir) as [sp written]. cbn [snd].
  intros ->. repeat case_match; intros [= _ <-]; cbn; apply lookup_insert_eq.
Qed.

Lemma stat_reads (path : string) (nd : Node) (s s1 : State) (size : Z) :
  st_fs s !! path = Some nd →
  statSync path s = (Ok size, s1) → size = node_size nd ∧ s1 = s.
Proof. unfold statSync. intros ->. by intros [= <- <-]. Qed.

(** X17.  In every world, whatever the probe answers and whichever calls
    fail: when the download of a single file leaves more than [maxBytes]
    bytes, [handleFile] makes no upload. *)
Theorem oversize_file_never_uploaded (token chat_id fileId : string) (m n : Z) (s : State) :
  (∀ h outPath, (w_wget w h (fileApiUrl fileId) outPath).2 = Some n) →
  m < n →
  Forall (λ e, not_upload e = true)
    (new_events (handleFile token chat_id fileId (Num m)) s).
Proof.
  intros Hwget Hlt. apply emits_at_new.
  unfold handleFile. apply emits_at_bind.
  { eapply emits_at_one; [by rewrite probeFile_log|done]. }
  intros [filename size] s1 _. destruct (over_budget size (Num m)).
  { by apply emits_at_send. }
  unfold handleFile_transfer. apply emits_at_bind; [by apply emits_at_mkdtemp|].
  intros tmpDir s2 _.
  apply emits_at_try_finally; [|apply silent_handleFile_finally].
  unfold handleFile_try. apply emits_at_bind; [by apply emits_at_send|].
  intros _ s3 _. apply emits_at_bind; [by apply emits_at_wget|].
  intros [] s4 Hdl. apply wget_leaves with (n := n) in Hdl; [|apply Hwget].
  apply emits_at_bind; [apply emits_at_silent, silent_stat|].
  intros size' s5 Hstat. apply (stat_reads _ _ _ _ _ Hdl) in Hstat as [-> ->].
  cbn [node_size js_gt]. apply Z.ltb_lt in Hlt. rewrite Hlt.
  by apply emits_at_send.
Qed.

(** X18.  In every world, whatever the listing and whichever calls fail:
    when the archive of a folder comes out larger than [maxBytes],
    [handleFolder] makes no upload. *)
Theorem oversize_archive_never_uploaded (token chat_id folderId : string) (m n : Z)
    (s : State) :
  (∀ h zipPath tmpDir, (w_zip w h zipPath tmpDir).2 = Some n) →
  m < n →
  Forall (λ e, not_upload e = true)
    (new_events (handleFolder token chat_id folderId (Num m)) s).
Proof.
  intros Hzip Hlt. apply emits_at_new.
  unfold handleFolder. apply emits_at_bind.
  { eapply emits_at_one; [reflexivity|done]. }
  intros resp s1 _. destruct (negb (status_ok (list_status resp))).
  { by apply emits_at_send. }
  apply emits_at_bind; [by apply emits_at_none|].
  intros json s2 _. destruct json as [[|f files]|]; try by apply emits_at_send.
  destruct (js_gt _ _); [by apply emits_link_fallback|].
  apply emits_at_bind; [by apply emits_at_mkdtemp|].
  intros tmpDir s3 _.
  apply emits_at_try_finally; [|apply silent_try_ignore, silent_rmdir].
  unfold handleFolder_try. apply emits_at_bind; [by apply emits_at_send|].
  intros _ s4 _. apply emits_at_bind; [by apply emits_download_all|].
  intros _ s5 _. apply emits_at_bind; [by apply emits_at_zip|].
  intros [] s6 Hz. apply zip_leaves with (n := n) in Hz; [|apply Hzip].
  apply emits_at_bind; [apply emits_at_silent, silent_stat|].
  intros size' s7 Hstat. apply (stat_reads _ _ _ _ _ Hz) in Hstat as [-> ->].
  cbn [node_size js_gt]. apply Z.ltb_lt in Hlt. rewrite Hlt.
  apply emits_at_bind; [by apply emits_at_send|].
  intros _ s8 _. by apply emits_send_links.
Qed.

(** ** A single file within the budget *)

(** X1.  A single file whose probe gives no size over the budget, with a
    name that is a segment, and whose download leaves no more than [maxBytes]
    bytes, every step up to the upload succeeding: the run makes the probe,
    the staging directory, the progress message, the download, the upload
    message and one run of curl on the downloaded file, with its caption.
    What curl answers decides the rest.  If it exits with status 0 the success
    message is sent and the run ends normally.  Otherwise the run ends with
    the exception of the upload and no success message is sent.  Either way
    nothing of the staging directory, the download included, is left. *)
Theorem file_within_budget_run (token chat_id fileId : string) (maxBytes : JsNum)
    (s s1 : State) (filename sfx : string) (size : option JsNum) (n : Z) :
  probeFile fileId s = (Ok (filename, size), s1) →
  over_budget size maxBytes = false →
  segment (safe_file_name filename) = true →
  (∀ h, w_mkdtemp w h (path_join (w_tmpdir w) "pixeldrain-") = Ok sfx) →
  sends_resolve →
  let url := fileApiUrl fileId in
  let tmpDir := path_join (w_tmpdir w) "pixeldrain-" +:+ sfx in
  let outPath := path_join tmpDir (safe_file_name filename) in
  (∀ h, w_wget w h url outPath = (SpawnExit (Some 0), Some n)) →
  js_gt (Num n) maxBytes = false →
  let before :=
    st_trace s
    ++ [EvHead url; EvMkdtemp tmpDir;
        EvSendMessage token chat_id (msg_downloading filename);
        EvWget url outPath;
        EvSendMessage token chat_id (msg_uploading filename)] in
  let args := curl_args chat_id outPath ("Uploaded from Pixeldrain: " +:+ filename) in
  let answer := w_curl w before args in
  let run := handleFile token chat_id fileId maxBytes s in
  run.1 = match answer with
          | SpawnError e => Throw e
          | SpawnExit st =>
              if exited_ok st then Ok tt
              else Throw (new_Error ("curl exited with " +:+ status_text st))
          end
  ∧ st_trace run.2
    = before ++ EvCurl args
        :: (if spawn_ok answer
            then [EvSendMessage token chat_id (msg_uploaded filename)] else [])
  ∧ staging_removed tmpDir (st_fs run.2)
  ∧ st_fs run.2 !! outPath = None.
Proof.
  intros Hp Hgate _ Hmk Hs url tmpDir outPath Hwget Hfit before args answer run.
  assert (∃ fs', run
    = (match answer with
       | SpawnError e => Throw e
       | SpawnExit st =>
           if exited_ok st then Ok tt
           else Throw (new_Error ("curl exited with " +:+ status_text st))
       end,
       mkState fs'
         (before ++ EvCurl args
            :: (if spawn_ok answer
                then [EvSendMessage token chat_id (msg_uploaded filename)] else [])))
    ∧ staging_removed tmpDir fs') as (fs' & Hrun & Hrm).
  2:{ rewrite Hrun. cbn [fst snd st_fs st_trace]. split_and!; [done|done|done|].
      apply Hrm, under_join. }
  unfold run. rewrite (handleFile_gate _ _ _ _ _ _ _ _ Hp), Hgate. fold url.
  unfold handleFile_transfer, bind at 1, mkdtempSync. rewrite Hmk.
  fold tmpDir. fold outPath. unfold try_finally.
  set (s2 := log (EvMkdtemp tmpDir) _).
  unfold handleFile_try, bind at 1. rewrite send_resolved by done.
  unfold bind at 1, downloadWithWget. rewrite Hwget.
  unfold runCmd_result. cbn [exited_ok]. rewrite Z.eqb_refl. unfold ret at 1.
  unfold bind at 1, statSync. cbn [st_fs log set_fs]. rewrite lookup_insert_eq.
  cbn [node_size]. rewrite Hfit.
  unfold bind at 1. rewrite send_resolved by done.
  unfold bind at 1, uploadDocumentCurl. fold args.
  set (s5 := log (EvSendMessage token chat_id (msg_uploading filename)) _).
  assert (st_trace s5 = before) as Hbefore.
  { subst s5 s2. unfold before. norm_state. reflexivity. }
  assert (st_fs s5 !! tmpDir = Some (mkNode true 0)) as Hdir.
  { subst s5 s2. cbn [st_fs log set_fs].
    rewrite lookup_insert_ne by apply path_join_ne. apply lookup_insert_eq. }
  rewrite Hbefore. fold answer.
  assert (∀ (s' : State) (r : Res unit),
            st_fs s' = st_fs s5 →
            ∃ fs', (let '(r0, s'') := handleFile_finally outPath tmpDir s' in
                    match r0 with
                    | Ok _ => (r, s'')
                    | Throw e => (Throw e, s'')
                    end) = (r, mkState fs' (st_trace s'))
                   ∧ staging_removed tmpDir fs') as Hfin.
  { intros s' r Hfs.
    destruct (handleFile_finally_run outPath tmpDir s' (mkNode true 0))
      as (fs' & -> & Hrm); [by rewrite Hfs|done|apply path_join_ne|].
    by exists fs'. }
  clearbody s5.
  destruct answer as [e|st]; [|destruct (exited_ok st) eqn:Hst].
  - destruct (Hfin (log (EvCurl args) s5) (Throw e) eq_refl) as (fs' & -> & Hrm).
    exists fs'. cbn [spawn_ok st_trace log]. by rewrite Hbefore.
  - rewrite send_resolved by done.
    destruct (Hfin (log (EvSendMessage token chat_id (msg_uploaded filename))
                      (log (EvCurl args) s5)) (Ok tt) eq_refl) as (fs' & -> & Hrm).
    exists fs'. cbn [spawn_ok st_trace log]. rewrite Hst, Hbefore.
    by rewrite <- app_assoc.
  - destruct (Hfin (log (EvCurl args) s5)
                (Throw (new_Error ("curl exited with " +:+ status_text st))) eq_refl)
      as (fs' & -> & Hrm).
    exists fs'. cbn [spawn_ok st_trace log]. by rewrite Hst, Hbefore.
Qed.

(** ** The staging directory of a folder *)

Lemma writes_only_weaken {A} (P Q : string → Prop) (m : M A) :
  (∀ p, P p → Q p) → writes_only P m → writes_only Q m.
Proof. intros HPQ Hm s p Hp. apply Hm. naive_solver. Qed.

Lemma writes_only_same {A} (P : string → Prop) (m : M A) :
  (∀ s, st_fs (m s).2 = st_fs s) → writes_only P m.
Proof. intros H s p _. by rewrite H. Qed.

Lemma writes_only_bind {A B} (P : string → Prop) (m : M A) (k : A → M B) :
  writes_only P m → (∀ a, writes_only P (k a)) → writes_only P (bind m k).
Proof.
  intros Hm Hk s p Hp. specialize (Hm s p Hp). unfold bind.
  destruct (m s) as [[a|e] s1]; [|done]. cbn [snd] in Hm.
  rewrite <- Hm. by apply Hk.
Qed.

Lemma writes_only_try_ignore {A} (P : string → Prop) (m : M A) :
  writes_only P m → writes_only P (try_ignore m).
Proof.
  intros Hm s p Hp. specialize (Hm s p Hp). unfold try_ignore.
  by destruct (m s).
Qed.

Lemma writes_only_send (P : string → Prop) (token chat_id text : string) :
  writes_only P (sendTelegramMessage token chat_id text).
Proof.
  apply writes_only_same. intros s.
  by destruct (send_run token chat_id text s) as (r & -> & _).
Qed.

Lemma writes_only_wget (P : string → Prop) (url outPath : string) :
  P outPath → writes_only P (downloadWithWget url outPath).
Proof.
  intros HP s p Hp. unfold downloadWithWget, runCmd_result, throw, ret.
  assert (p ≠ outPath) by congruence.
  repeat case_match; cbn; by rewrite ?lookup_insert_ne.
Qed.

Lemma writes_only_zip (P : string → Prop) (zipPath tmpDir : string) :
  P zipPath → writes_only P (runZip zipPath tmpDir).
Proof.
  intros HP s p Hp. unfold runZip, runCmd_result, throw, ret.
  assert (p ≠ zipPath) by congruence.
  repeat case_match; cbn; by rewrite ?lookup_insert_ne.
Qed.

Lemma writes_only_unlink (P : string → Prop) (path : string) :
  P path → writes_only P (unlinkSync path).
Proof.
  intros HP s p Hp. unfold unlinkSync.
  assert (p ≠ path) by congruence.
  repeat case_match; cbn; by rewrite ?lookup_delete_ne.
Qed.

Lemma writes_only_curl (P : string → Prop) (token chat_id filePath caption : string) :
  writes_only P (uploadDocumentCurl token chat_id filePath caption).
Proof.
  apply writes_only_same. intros s. unfold uploadDocumentCurl.
  by repeat case_match.
Qed.

Lemma writes_only_stat (P : string → Prop) (path : string) :
  writes_only P (statSync path).
Proof. apply writes_only_same. intros s. unfold statSync. by case_match. Qed.

Lemma writes_only_download_all (P : string → Prop) (tmpDir : string) (files : list FileEntry) :
  (∀ f, f ∈ files → P (path_join tmpDir (safeName (f_name f)))) →
  writes_only P (download_all tmpDir files).
Proof.
  induction files as [|f files IH]; intros HP; [by apply writes_only_same|].
  cbn [download_all]. apply writes_only_bind.
  - apply writes_only_wget, HP. by left.
  - intros _. apply IH. intros g Hg. apply HP. by right.
Qed.

Lemma writes_only_send_links (P : string → Prop) (token chat_id : string)
    (files : list FileEntry) :
  writes_only P (send_links token chat_id files).
Proof.
  induction files as [|f files IH]; [by apply writes_only_same|].
  cbn [send_links]. apply writes_only_bind; [apply writes_only_send|done].
Qed.

(** The [try] block of [handleFolder] writes to the downloads in the staging
    directory and to the archive, and nowhere else. *)
Lemma handleFolder_try_writes (token chat_id folderId tmpDir : string)
    (files : list FileEntry) (maxBytes : JsNum) :
  writes_only (λ p, p = zip_path folderId ∨ ∃ name, p = path_join tmpDir name)
    (handleFolder_try token chat_id folderId tmpDir files maxBytes).
Proof.
  unfold handleFolder_try.
  repeat first
    [ apply writes_only_bind; [|intros ?]
    | apply writes_only_send
    | apply writes_only_send_links
    | apply writes_only_stat
    | apply writes_only_curl
    | apply writes_only_try_ignore
    | apply writes_only_download_all; intros; eauto
    | apply writes_only_zip; eauto
    | apply writes_only_unlink; eauto
    | case_match ].
Qed.

(** X19.  In every world, whichever calls fail or throw: once the staging
    directory of a folder is made (and the archive has its place outside it,
    as it has with the suffix of [mkdtempSync]), nothing of the staging
    directory is left when [handleFolder] ends. *)
Theorem folder_staging_removed (token chat_id folderId : string) (maxBytes : JsNum)
    (s : State) (resp : ListResp) (files : list FileEntry) (sfx : string) :
  w_fetch w (st_trace s) (folderApiUrl folderId) = Ok resp →
  status_ok (list_status resp) = true →
  list_json resp = Ok (Some files) → files ≠ [] →
  js_gt (Num (totalBytes files)) maxBytes = false →
  w_mkdtemp w (st_trace s ++ [EvFetch (folderApiUrl folderId)])
    (path_join (w_tmpdir w) "pixeldrain-") = Ok sfx →
  let tmpDir := path_join (w_tmpdir w) "pixeldrain-" +:+ sfx in
  under tmpDir (zip_path folderId) = false →
  staging_removed tmpDir (st_fs (handleFolder token chat_id folderId maxBytes s).2).
Proof.
  intros Hfetch Hok Hjson Hne Hfit Hmk tmpDir Hout.
  unfold handleFolder, bind at 1, fetchList. rewrite Hfetch, Hok. cbn [negb].
  unfold bind at 1, lift. rewrite Hjson.
  destruct files as [|f0 files0] eqn:Hfiles; [done|]. rewrite <- Hfiles in *.
  rewrite Hfit. unfold bind at 1, mkdtempSync. cbn [log st_trace]. rewrite Hmk.
  fold tmpDir. set (s1 := log (EvMkdtemp tmpDir) _). unfold try_finally.
  pose proof (handleFolder_try_writes token chat_id folderId tmpDir files maxBytes
                s1 tmpDir) as Hfr.
  destruct (handleFolder_try token chat_id folderId tmpDir files maxBytes s1) as [r s2].
  cbn [snd] in Hfr.
  assert (st_fs s2 !! tmpDir = Some (mkNode true 0)) as Hdir.
  { rewrite Hfr; [subst s1; cbn; apply lookup_insert_eq|].
    intros [Heq|[name Heq]].
    - rewrite <- Heq, under_refl in Hout. done.
    - by apply (path_join_ne tmpDir name). }
  unfold try_ignore, rmdirSync_recursive. rewrite Hdir. cbn [is_dir snd st_fs set_fs].
  intros p Hp. apply map_lookup_filter_None. right. intros x _. cbn. congruence.
Qed.

(** ** A download that fails *)

Lemma download_all_stops (tmpDir : string) (done : list FileEntry) (f : FileEntry)
    (rest : list FileEntry) (s : State) :
  (∀ h g, g ∈ done →
     spawn_ok (w_wget w h (fileApiUrl (f_id g)) (path_join tmpDir (safeName (f_name g)))).1
     = true) →
  (∀ h, spawn_ok (w_wget w h (fileApiUrl (f_id f))
                    (path_join tmpDir (safeName (f_name f)))).1 = false) →
  ∃ e fs',
    download_all tmpDir (done ++ f :: rest) s
    = (Throw e, mkState fs' (st_trace s ++ wget_events tmpDir (done ++ [f]))).
Proof.
  intros Hdone Hf. revert s. induction done as [|g done IH]; intros s.
  - cbn [app download_all]. unfold bind, downloadWithWget.
    specialize (Hf (st_trace s)).
    destruct (w_wget w (st_trace s) _ _) as [sp written]. cbn [fst] in Hf.
    unfold runCmd_result, throw. destruct sp as [e|st]; cbn [spawn_ok] in Hf.
    + by eexists _, _.
    + rewrite Hf. by eexists _, _.
  - cbn [app download_all]. unfold bind at 1, downloadWithWget.
    pose proof (Hdone (st_trace s) g ltac:(by left)) as Hg.
    destruct (w_wget w (st_trace s) _ _) as [sp written]. cbn [fst] in Hg.
    unfold runCmd_result. destruct sp as [e|st]; cbn [spawn_ok] in Hg; [done|].
    rewrite Hg. unfold ret.
    edestruct (IH ltac:(intros h g' Hg'; apply Hdone; by right)) as (e & fs' & ->).
    exists e, fs'. f_equal. f_equal. cbn [log st_trace set_fs wget_events map app].
    by rewrite <- app_assoc.
Qed.

(** X20.  The first download of a folder that fails ends the run of
    [handleFolder] with an exception: the members listed after it are not
    downloaded, no archive is made and nothing is uploaded; the staging
    directory is removed with the downloads made so far. *)
Theorem folder_download_failure (token chat_id folderId : string) (maxBytes : JsNum)
    (s : State) (resp : ListResp) (done : list FileEntry) (f : FileEntry)
    (rest : list FileEntry) (sfx : string) :
  let files := done ++ f :: rest in
  let tmpDir := path_join (w_tmpdir w) "pixeldrain-" +:+ sfx in
  w_fetch w (st_trace s) (folderApiUrl folderId) = Ok resp →
  status_ok (list_status resp) = true →
  list_json resp = Ok (Some files) →
  js_gt (Num (totalBytes files)) maxBytes = false →
  (∀ h, w_mkdtemp w h (path_join (w_tmpdir w) "pixeldrain-") = Ok sfx) →
  sends_resolve →
  (∀ h g, g ∈ done →
     spawn_ok (w_wget w h (fileApiUrl (f_id g)) (path_join tmpDir (safeName (f_name g)))).1
     = true) →
  (∀ h, spawn_ok (w_wget w h (fileApiUrl (f_id f))
                    (path_join tmpDir (safeName (f_name f)))).1 = false) →
  under tmpDir (zip_path folderId) = false →
  let run := handleFolder token chat_id folderId maxBytes s in
  (∃ e, run.1 = Throw e)
  ∧ st_trace run.2
    = st_trace s
      ++ [EvFetch (folderApiUrl folderId); EvMkdtemp tmpDir;
          EvSendMessage token chat_id
            ("⬇️ Downloading " +:+ num_to_string (Z.of_nat (length files))
             +:+ " file(s) and preparing zip...")]
      ++ wget_events tmpDir (done ++ [f])
  ∧ staging_removed tmpDir (st_fs run.2).
Proof.
  intros files tmpDir Hfetch Hok Hjson Hfit Hmk Hs Hdone Hf Hout run.
  assert (files ≠ []) as Hne by (subst files; by destruct done).
  assert (files = done ++ f :: rest) as Hfdef by done.
  clearbody files.
  assert (∃ e fs', run
    = (Throw e, mkState fs'
         (st_trace s
          ++ [EvFetch (folderApiUrl folderId); EvMkdtemp tmpDir;
              EvSendMessage token chat_id
                ("⬇️ Downloading " +:+ num_to_string (Z.of_nat (length files))
                 +:+ " file(s) and preparing zip...")]
          ++ wget_events tmpDir (done ++ [f])))) as (e & fs' & Hrun).
  { unfold run, handleFolder, bind at 1, fetchList. rewrite Hfetch, Hok. cbn [negb].
    unfold bind at 1, lift. rewrite Hjson.
    destruct files as [|f0 files0]; [done|].
    rewrite Hfit, !Hfdef. unfold bind at 1, mkdtempSync. rewrite Hmk. fold tmpDir.
    unfold try_finally, handleFolder_try, bind at 1. rewrite send_resolved by done.
    unfold bind at 1.
    set (s0 := log (EvSendMessage _ _ _) _).
    destruct (download_all_stops tmpDir done f rest s0 Hdone Hf) as (e & fs' & Hdl).
    rewrite Hdl.
    unfold try_ignore. 
    destruct (rmdirSync_recursive tmpDir _) as [r s3] eqn:Hrm.
    assert (st_trace s3 = st_trace s0 ++ wget_events tmpDir (done ++ [f])) as Htr.
    { unfold rmdirSync_recursive in Hrm. repeat case_match; by simplify_eq. }
    exists e, (st_fs s3). destruct s3 as [fs3 tr3]. cbn in Htr. subst tr3.
    destruct r; subst s0; unfold log, set_fs; cbn; rewrite <- ?app_assoc; cbn; reflexivity. }
  split_and!.
  - rewrite Hrun. by exists e.
  - by rewrite Hrun.
  - by apply (folder_staging_removed _ _ _ _ _ resp files sfx).
Qed.

(** ** Local names *)

Lemma map_chars_length (g : ascii → ascii) (s : string) :
  String.length (map_chars g s) = String.length s.
Proof. induction s as [|c r IH]; [done|]. cbn. by rewrite IH. Qed.

Lemma map_chars_avoids (g : ascii → ascii) (c : ascii) (s : string) :
  (∀ d, g d ≠ c) → has_char c (map_chars g s) = false.
Proof.
  intros Hg. induction s as [|d r IH]; [done|].
  cbn [map_chars has_char]. rewrite IH, orb_false_r.
  apply Ascii.eqb_neq. intros Heq. by apply (Hg d).
Qed.

Lemma map_chars_id (g : ascii → ascii) (p : ascii → bool) (s : string) :
  (∀ d, p d = true → g d = d) → all_chars p s = true → map_chars g s = s.
Proof.
  intros Hg. induction s as [|d r IH]; [done|].
  cbn [map_chars all_chars]. intros [Hd Hr]%andb_true_iff.
  by rewrite Hg, IH.
Qed.

(** X4.  The local names of the downloads.  The name of a single file has
    no slash, and that of a folder member neither a slash nor a backslash;
    the name keeps its length, and a name without these characters is kept
    as it is. *)
Theorem local_names_flat (name : string) :
  has_char "/" (safe_file_name name) = false
  ∧ has_char "/" (safeName name) = false
  ∧ has_char "\" (safeName name) = false
  ∧ String.length (safe_file_name name) = String.length name
  ∧ String.length (safeName name) = String.length name
  ∧ (all_chars (λ c, negb (Ascii.eqb c "/")) name = true → safe_file_name name = name)
  ∧ (all_chars (λ c, negb (Ascii.eqb c "/" || Ascii.eqb c "\")) name = true →
     safeName name = name).
Proof.
  unfold safe_file_name, safeName. split_and!.
  - apply map_chars_avoids. intros d. by destruct (Ascii.eqb_spec d "/").
  - apply map_chars_avoids. intros d.
    destruct (Ascii.eqb_spec d "/"); [done|]. by destruct (Ascii.eqb d "\").
  - apply map_chars_avoids. intros d.
    destruct (Ascii.eqb_spec d "/"); [done|]. by destruct (Ascii.eqb_spec d "\").
  - apply map_chars_length.
  - apply map_chars_length.
  - apply map_chars_id. intros d Hd. by destruct (Ascii.eqb d "/").
  - apply map_chars_id. intros d Hd. by destruct (Ascii.eqb d "/" || Ascii.eqb d "\").
Qed.

(** X21.  Two members of a folder whose names differ in separators only (or
    not at all) are downloaded to the same path: the two runs of wget are
    given the same output file, so the second, [wget -c -O], is run on the
    file the first has left; and whatever the downloads do, the two of them
    change no other path.  The staging directory gets one file for the two
    members. *)
Theorem colliding_members_share_file (tmpDir : string) (f g : FileEntry) (s : State) :
  safeName (f_name f) = safeName (f_name g) →
  segment (safeName (f_name f)) = true →
  let out := path_join tmpDir (safeName (f_name f)) in
  let first := EvWget (fileApiUrl (f_id f)) out in
  let second := EvWget (fileApiUrl (f_id g)) out in
  let events := new_events (download_all tmpDir [f; g]) s in
  (∀ p, p ≠ out → st_fs (download_all tmpDir [f; g] s).2 !! p = st_fs s !! p)
  ∧ (events = [first] ∨ events = [first; second])
  ∧ (spawn_ok (w_wget w (st_trace s) (fileApiUrl (f_id f)) out).1 = true →
     events = [first; second]).
Proof.
  intros Hsame _ out first second events.
  assert (events
          = if spawn_ok (w_wget w (st_trace s) (fileApiUrl (f_id f)) out).1
            then [first; second] else [first]) as Hev.
  { unfold events, new_events. cbn [download_all].
    fold out. rewrite <- Hsame. fold out.
    unfold bind at 1, downloadWithWget at 1.
    destruct (w_wget w (st_trace s) (fileApiUrl (f_id f)) out) as [sp written].
    cbn [fst]. unfold runCmd_result at 1.
    destruct sp as [e|st]; cbn [spawn_ok].
    - unfold throw. cbn [snd log st_trace]. by rewrite drop_app_length.
    - destruct (exited_ok st).
      + unfold ret at 1. unfold bind at 1, downloadWithWget.
        destruct (w_wget w _ (fileApiUrl (f_id g)) out) as [sp' written'].
        unfold runCmd_result, throw, ret.
        destruct sp' as [e'|st']; [|destruct (exited_ok st')];
          cbn [snd log st_trace set_fs]; by rewrite <- app_assoc, drop_app_length.
      + unfold throw. cbn [snd log st_trace]. by rewrite drop_app_length. }
  split_and!.
  - intros p Hp.
    apply (writes_only_download_all (λ q, q = out) tmpDir [f; g]); [|done].
    intros h Hin. unfold out.
    apply list_elem_of_In in Hin. cbn in Hin. destruct Hin as [<-|[<-|[]]]; [done|].
    by rewrite Hsame.
  - rewrite Hev. destruct (spawn_ok _); eauto.
  - intros Hok. by rewrite Hev, Hok.
Qed.

End Pipeline.

(** ** Messages that Telegram rejects *)

Lemma bind_ext {A B} (m m' : M A) (k k' : A → M B) (s : State) :
  m s = m' s → (∀ a s1, k a s1 = k' a s1) → bind m k s = bind m' k' s.
Proof. intros Hm Hk. unfold bind. rewrite Hm. destruct (m' s) as [[a|e] s1]; [apply Hk|done]. Qed.

Lemma try_ignore_ext {A} (m m' : M A) (s : State) :
  m s = m' s → try_ignore m s = try_ignore m' s.
Proof. intros Hm. unfold try_ignore. by rewrite Hm. Qed.

Lemma try_finally_ext {A} (m m' : M A) (fin fin' : M unit) (s : State) :
  m s = m' s → (∀ s1, fin s1 = fin' s1) → try_finally m fin s = try_finally m' fin' s.
Proof.
  intros Hm Hf. unfold try_finally. rewrite Hm. destruct (m' s) as [r s1]. by rewrite Hf.
Qed.

Section Accepting.

Variable Number : string → JsNum.
Variable decodeURIComponent : string → Res string.
Variable w : World.

Lemma send_accepting (token chat_id text : string) (s : State) :
  sendTelegramMessage (accepting w) token chat_id text s
  = sendTelegramMessage w token chat_id text s.
Proof.
  unfold sendTelegramMessage, accepting. cbn [w_sendMessage].
  by destruct (w_sendMessage w (st_trace s) token chat_id text).
Qed.

Ltac same_run :=
  repeat first
    [ apply send_accepting
    | apply bind_ext; [|intros ? ?]
    | apply try_finally_ext; [|intros ?]
    | apply try_ignore_ext
    | progress case_match
    | reflexivity ].

Lemma chunk_loop_accepting (token chat_id : string) (lines chunk : list string)
    (curLen : Z) (s : State) :
  chunk_loop (accepting w) token chat_id lines chunk curLen s
  = chunk_loop w token chat_id lines chunk curLen s.
Proof.
  revert chunk curLen s. induction lines as [|line rest IH]; intros chunk curLen s; [done|].
  cbn [chunk_loop]. case_match; [|apply IH].
  apply bind_ext; [apply send_accepting|]. intros _ s1. apply IH.
Qed.

Lemma send_links_accepting (token chat_id : string) (files : list FileEntry) (s : State) :
  send_links (accepting w) token chat_id files s = send_links w token chat_id files s.
Proof.
  revert s. induction files as [|f rest IH]; intros s; [done|].
  cbn [send_links]. apply bind_ext; [apply send_accepting|]. intros _ s1. apply IH.
Qed.

Lemma download_all_accepting (tmpDir : string) (files : list FileEntry) (s : State) :
  download_all (accepting w) tmpDir files s = download_all w tmpDir files s.
Proof.
  revert s. induction files as [|f rest IH]; intros s; [done|].
  cbn [download_all]. apply bind_ext; [reflexivity|]. intros _ s1. apply IH.
Qed.

Lemma handleFile_accepting (token chat_id fileId : string) (maxBytes : JsNum) (s : State) :
  handleFile Number decodeURIComponent (accepting w) token chat_id fileId maxBytes s
  = handleFile Number decodeURIComponent w token chat_id fileId maxBytes s.
Proof.
  unfold handleFile. apply bind_ext; [reflexivity|]. intros [filename size] s1.
  case_match; [apply send_accepting|].
  unfold handleFile_transfer. apply bind_ext; [reflexivity|]. intros tmpDir s2.
  apply try_finally_ext; [|reflexivity].
  unfold handleFile_try. same_run.
Qed.

Lemma handleFolder_accepting (token chat_id folderId : string) (maxBytes : JsNum)
    (s : State) :
  handleFolder (accepting w) token chat_id folderId maxBytes s
  = handleFolder w token chat_id folderId maxBytes s.
Proof.
  unfold handleFolder. apply bind_ext; [reflexivity|]. intros resp s1.
  case_match; [apply send_accepting|].
  apply bind_ext; [reflexivity|]. intros json s2.
  destruct json as [[|f files]|]; try apply send_accepting.
  case_match.
  - unfold folder_link_fallback. apply bind_ext; [apply send_accepting|]. intros _ s3.
    unfold send_in_chunks. apply bind_ext; [apply chunk_loop_accepting|]. intros chunk s4.
    destruct chunk; [reflexivity|apply send_accepting].
  - apply bind_ext; [reflexivity|]. intros tmpDir s3.
    apply try_finally_ext; [|reflexivity].
    unfold handleFolder_try.
    apply bind_ext; [apply send_accepting|]. intros _ s4.
    apply bind_ext; [apply download_all_accepting|]. intros _ s5.
    apply bind_ext; [reflexivity|]. intros _ s6.
    apply bind_ext; [reflexivity|]. intros size s7.
    case_match.
    + apply bind_ext; [apply send_accepting|]. intros _ s8. apply send_links_accepting.
    + same_run.
Qed.

Lemma main_accepting (env : Env) (s : State) :
  main Number decodeURIComponent (accepting w) env s
  = main Number decodeURIComponent w env s.
Proof.
  unfold main.
  assert (main_try Number decodeURIComponent (accepting w) env s
          = main_try Number decodeURIComponent w env s) as ->.
  { unfold main_try. repeat (case_match; [reflexivity|]).
    apply bind_ext; [apply send_accepting|]. intros _ s1.
    repeat case_match; [apply handleFile_accepting|apply handleFolder_accepting|reflexivity]. }
  destruct (main_try Number decodeURIComponent w env s) as [[[]|err] s1]; [done|].
  f_equal. f_equal. unfold main_catch. apply try_ignore_ext.
  case_match; [apply send_accepting|reflexivity].
Qed.

End Accepting.

(** X22.  The script never looks at the [ok] of an answer of Telegram to
    [sendMessage].  Two worlds that differ only there, one accepting the
    messages that the other rejects, give the same run: the same calls in the
    same order, the same files and the same exit code.  A rejected message
    (markup the API refuses, the empty text of a first chunk) goes
    unnoticed. *)
Theorem rejected_messages_unnoticed (Number : string → JsNum)
    (decodeURIComponent : string → Res string) (w1 w2 : World) (env : Env) (s : State) :
  accepting w1 = accepting w2 →
  main Number decodeURIComponent w1 env s = main Number decodeURIComponent w2 env s.
Proof.
  intros Hsame.
  rewrite <- (main_accepting Number decodeURIComponent w1),
          <- (main_accepting Number decodeURIComponent w2).
  by rewrite Hsame.
Qed.

(** * The properties at concrete inputs *)

Import Examples.

(** The example of the specification: a file of 500 bytes under a budget
    of 1000 is downloaded and uploaded, the staging area is removed and the
    process exits with code 0. *)
Example run_small_file :
  main Number_decimal decode_plain
    (with_head (mkHead 200 None (Some "500")) calm) (env file_link (Some "1000")) start
  = (0, mkState ∅
          [EvSendMessage "TOKEN" "42" msg_start;
           EvHead (fileApiUrl "abc123");
           EvMkdtemp "/tmp/pixeldrain-a1b2c3";
           EvSendMessage "TOKEN" "42" (msg_downloading "pixeldrain-abc123");
           EvWget (fileApiUrl "abc123") "/tmp/pixeldrain-a1b2c3/pixeldrain-abc123";
           EvSendMessage "TOKEN" "42" (msg_uploading "pixeldrain-abc123");
           EvCurl (curl_args "42" "/tmp/pixeldrain-a1b2c3/pixeldrain-abc123"
                     "Uploaded from Pixeldrain: pixeldrain-abc123");
           EvSendMessage "TOKEN" "42" (msg_uploaded "pixeldrain-abc123")]).
Proof. vm_compute. reflexivity. Qed.

(** A folder within the budget, on the success path: the archive is removed
    after the upload. *)
Example run_small_folder :
  let run := main Number_decimal decode_plain listing (env folder_link None) start in
  run.1 = 0 ∧ map_to_list (st_fs run.2) = [].
Proof. cbv zeta. split; vm_compute; reflexivity. Qed.

(** A failed upload of a single file: exit code 1, the staging area removed. *)
Example run_file_upload_fails :
  let run := main Number_decimal decode_plain
               (with_curl (SpawnExit (Some 22)) calm) (env file_link None) start in
  run.1 = 1 ∧ map_to_list (st_fs run.2) = []
  ∧ last (st_trace run.2)
    = Some (EvSendMessage "TOKEN" "42" (msg_error (new_Error "curl exited with 22"))).
Proof. cbv zeta. split_and!; vm_compute; reflexivity. Qed.

(** A file name with a malformed escape: the probe throws and no download is
    made. *)
Example run_malformed_name :
  main Number_decimal decode_malformed
    (with_head (mkHead 200 (Some "attachment; filename=100%.txt") (Some "500")) calm)
    (env file_link None) start
  = (1, mkState ∅
          [EvSendMessage "TOKEN" "42" msg_start;
           EvHead (fileApiUrl "abc123");
           EvSendMessage "TOKEN" "42" (msg_error (mkError "URIError" "URI malformed"))]).
Proof. vm_compute. reflexivity. Qed.

(** A download that fails: exit code 1, and the partial file is removed with
    the staging directory. *)
Example run_download_fails :
  let run := main Number_decimal decode_plain
               (with_wget (SpawnExit (Some 8), Some 100) calm) (env file_link None) start in
  run.1 = 1 ∧ map_to_list (st_fs run.2) = []
  ∧ last (st_trace run.2)
    = Some (EvSendMessage "TOKEN" "42"
              (msg_error (new_Error
                 ("wget -c -O /tmp/pixeldrain-a1b2c3/pixeldrain-abc123 "
                  +:+ fileApiUrl "abc123" +:+ " exited 8")))).
Proof. cbv zeta. split_and!; vm_compute; reflexivity. Qed.

(** The transport of the notifications is down: the run ends at the start
    notification, with code 1, after one more attempt to notify. *)
Example run_telegram_down :
  main Number_decimal decode_plain (with_telegram_down calm) (env file_link None) start
  = (1, mkState ∅
          [EvSendMessage "TOKEN" "42" msg_start;
           EvSendMessage "TOKEN" "42" (msg_error (mkError "TypeError" "fetch failed"))]).
Proof. vm_compute. reflexivity. Qed.

Lemma handleFile_transfer_cleans_witness :
  staging_removed "/tmp/pixeldrain-a1b2c3"
    (st_fs (handleFile_transfer (with_wget (SpawnExit (Some 8), Some 100) calm)
              "TOKEN" "42" (fileApiUrl "abc123") "pixeldrain-abc123" (Num 1000) start).2).
Proof.
  apply (handleFile_transfer_cleans (with_wget (SpawnExit (Some 8), Some 100) calm)
           "TOKEN" "42" (fileApiUrl "abc123") "pixeldrain-abc123" (Num 1000) start "a1b2c3").
  reflexivity.
Defined.

Lemma folder_within_budget_run_witness :
  let run := handleFolder (curl_without_url listing) "TOKEN" "42" "xyz789" (Num 1000) start in
  run.1 = Throw (new_Error "curl exited with 2")
  ∧ st_fs run.2 !! zip_path listing "xyz789" = Some (mkNode false 400).
Proof.
  destruct (folder_within_budget_run (curl_without_url listing) "TOKEN" "42" "xyz789"
              1000 400 start (mkList 200 (Ok (Some two_files))) two_files "a1b2c3")
    as (Hr & _ & _ & Hzip);
    [reflexivity|reflexivity|reflexivity|done|vm_compute; discriminate
    |repeat constructor|reflexivity| | |reflexivity|lia|reflexivity|].
  { intros h token chat_id text. by exists true. }
  { intros h url outPath. by exists (Some 500). }
  cbv zeta. split; [exact Hr|exact Hzip].
Defined.

(** ** C1 *)

(** C1, as stated, fails: a folder listing answered with status 404 is
    reported and the process exits with code 0, not 1. *)
Lemma C1_counterexample_folder_404_exits_0 :
  ¬ folder_failure_exits_1 Number_decimal decode_plain not_found
      (env folder_link None) start.
Proof.
  intros H.
  specialize (H "xyz789" (mkList 404 (Ok None))).
  assert ((main Number_decimal decode_plain not_found (env folder_link None) start).1 = 0)
    as Hcode by (vm_compute; reflexivity).
  rewrite Hcode in H. enough (0 = 1) by done. apply H.
  - split_and!; vm_compute; reflexivity.
  - left. reflexivity.
Qed.

(** The same with a listing that has no member. *)
Example empty_folder_exits_0 :
  main Number_decimal decode_plain empty_listing (env folder_link None) start
  = (0, mkState ∅
          [EvSendMessage "TOKEN" "42" msg_start;
           EvFetch (folderApiUrl "xyz789");
           EvSendMessage "TOKEN" "42" "Folder appears empty or returned no files."]).
Proof. vm_compute. reflexivity. Qed.

(** C1 at concrete runs: a failed upload, a missing token, a folder answered
    with 404. *)
Lemma C1_witness :
  (main Number_decimal decode_plain (with_curl (SpawnExit (Some 22)) calm)
     (env file_link None) start).1 = 1
  ∧ (main Number_decimal decode_plain calm
       (mkEnv (Some file_link) None (Some "42") None) start).1 = 1
  ∧ (main Number_decimal decode_plain not_found (env folder_link None) start).1 = 0.
Proof.
  split_and!.
  - destruct (C1_exit_codes Number_decimal decode_plain (with_curl (SpawnExit (Some 22)) calm)
                (env file_link None) start) as (_ & _ & _ & _ & Hfail & _).
    apply (Hfail [EvSendMessage "TOKEN" "42" msg_start;
                  EvHead (fileApiUrl "abc123");
                  EvMkdtemp "/tmp/pixeldrain-a1b2c3";
                  EvSendMessage "TOKEN" "42" (msg_downloading "pixeldrain-abc123");
                  EvWget (fileApiUrl "abc123") "/tmp/pixeldrain-a1b2c3/pixeldrain-abc123";
                  EvSendMessage "TOKEN" "42" (msg_uploading "pixeldrain-abc123")]
             (EvCurl (curl_args "42" "/tmp/pixeldrain-a1b2c3/pixeldrain-abc123"
                        "Uploaded from Pixeldrain: pixeldrain-abc123")) []);
      vm_compute; reflexivity.
  - destruct (C1_exit_codes Number_decimal decode_plain calm
                (mkEnv (Some file_link) None (Some "42") None) start)
      as (_ & _ & Hcfg & _).
    apply Hcfg. reflexivity.
  - destruct (C1_exit_codes Number_decimal decode_plain not_found
                (env folder_link None) start) as (_ & _ & _ & _ & _ & Hfolder & _).
    apply (Hfolder "xyz789" (mkList 404 (Ok None))).
    + intros h token chat_id text. by exists true.
    + reflexivity.
    + split_and!; vm_compute; reflexivity.
    + left. reflexivity.
Defined.

(** ** C2 and C10 *)

Lemma C2_witness :
  totalBytes two_files = 300
  ∧ sent_texts (st_trace (handleFolder listing "TOKEN" "42" "xyz789" (Num 100) start).2)
    = [msg_folder_too_large two_files (map member_line two_files);
       join sep2 (map member_line two_files)].
Proof.
  destruct (C2_folder_over_budget listing "TOKEN" "42" "xyz789" (Num 100) start
              (mkList 200 (Ok (Some two_files))) two_files)
    as (Htotal & r & texts & Hrun & _ & _ & Hall);
    [reflexivity|reflexivity|reflexivity|done|reflexivity|reflexivity|].
  destruct Hall as (_ & -> & _).
  { intros h token chat_id text. by exists true. }
  split; [by rewrite Htotal|].
  rewrite Hrun. vm_compute. reflexivity.
Defined.

(** C2, as stated, fails: the additions of line 133 are those of doubles.
    With members of [2^53] bytes and of 1 byte the total comes out as [2^53],
    one less than the sum of the sizes, and under a budget of [2^53] bytes the
    folder, whose sizes add up to more, is not answered with links: its
    members are downloaded. *)
Lemma C2_counterexample_rounded_total :
  ¬ over_total_falls_back huge_listing "TOKEN" "42" "xyz789"
      (Num 9007199254740992) start huge_pair
  ∧ totalBytes huge_pair = 9007199254740992
  ∧ reported_total huge_pair = 9007199254740993
  ∧ existsb is_download
      (new_events (handleFolder huge_listing "TOKEN" "42" "xyz789" (Num 9007199254740992))
         start) = true.
Proof.
  split_and!; [|vm_compute; reflexivity..].
  intros [Hsum _]. vm_compute in Hsum. discriminate Hsum.
Qed.

Lemma C10_witness :
  handleFolder listing "TOKEN" "42" "xyz789" (Num 100) start
  = (Ok tt,
     mkState ∅
       (EvFetch (folderApiUrl "xyz789")
        :: send_events "TOKEN" "42"
             [msg_folder_too_large two_files (map member_line two_files);
              join sep2 (map member_line two_files)])).
Proof.
  destruct (C10_first_twenty_twice listing "TOKEN" "42" "xyz789" (Num 100) start
              (mkList 200 (Ok (Some two_files))) two_files)
    as (Hrun & _);
    [reflexivity|reflexivity|reflexivity|done|reflexivity| |].
  { intros h token chat_id text. by exists true. }
  rewrite Hrun. vm_compute. reflexivity.
Defined.

(** ** C3, C4 and C9 *)

Lemma C3_witness :
  sent_texts (st_trace (handleFile Number_decimal decode_plain big_file
                          "TOKEN" "42" "abc123" (Num 1000) start).2)
  = [msg_too_large "pixeldrain-abc123" (Some (Num 5000)) (fileApiUrl "abc123")].
Proof.
  destruct (C3_known_oversize_file Number_decimal decode_plain big_file
              "TOKEN" "42" "abc123" start (log (EvHead (fileApiUrl "abc123")) start)
              "pixeldrain-abc123" 5000 1000) as ([r Hrun] & _);
    [reflexivity|lia|lia|].
  rewrite Hrun. reflexivity.
Defined.

Lemma C4_witness :
  let run := handleFile Number_decimal decode_plain calm "TOKEN" "42" "abc123" (Num 100) start in
  run.1 = Ok tt
  ∧ sent_texts (st_trace run.2)
    = [msg_downloading "pixeldrain-abc123"; msg_after_download (fileApiUrl "abc123")]
  ∧ st_fs run.2 !! "/tmp/pixeldrain-a1b2c3/pixeldrain-abc123" = None.
Proof.
  destruct (C4_unknown_size_file Number_decimal decode_plain calm
              "TOKEN" "42" "abc123" (Num 100) start
              (log (EvHead (fileApiUrl "abc123")) start) "pixeldrain-abc123" "a1b2c3")
    as (_ & _ & Hover); [reflexivity|reflexivity| |].
  { intros h token chat_id text. by exists true. }
  destruct (Hover 500 100) as (Hr & Htr & _ & _ & Hfs & _);
    [reflexivity|reflexivity|reflexivity|lia|].
  cbv zeta. split_and!; [done| |done].
  rewrite Htr. reflexivity.
Defined.

Lemma C9_witness :
  (handleFile Number_decimal decode_plain zero_length "TOKEN" "42" "abc123" (Num (-1)) start
   = handleFile_transfer zero_length "TOKEN" "42" (fileApiUrl "abc123") "pixeldrain-abc123"
       (Num (-1)) (log (EvHead (fileApiUrl "abc123")) start))
  ∧ (handleFile Number_decimal decode_plain odd_length "TOKEN" "42" "abc123" (Num 10) start
     = handleFile_transfer odd_length "TOKEN" "42" (fileApiUrl "abc123") "pixeldrain-abc123"
         (Num 10) (log (EvHead (fileApiUrl "abc123")) start)).
Proof.
  split.
  - apply (C9_zero_or_non_numeric_length Number_decimal decode_plain zero_length
             "TOKEN" "42" "abc123" (Num (-1)) start
             (log (EvHead (fileApiUrl "abc123")) start)
             (mkHead 200 None (Some "0")) "0" "pixeldrain-abc123" (Some (Num 0)));
      [reflexivity|reflexivity|reflexivity|by left|reflexivity].
  - apply (C9_zero_or_non_numeric_length Number_decimal decode_plain odd_length
             "TOKEN" "42" "abc123" (Num 10) start
             (log (EvHead (fileApiUrl "abc123")) start)
             (mkHead 200 None (Some "many")) "many" "pixeldrain-abc123" (Some NaN));
      [reflexivity|reflexivity|reflexivity|by right|reflexivity].
Defined.

(** ** C5 and C6 *)

Lemma C5_witness :
  let run := handleFolder big_archive "TOKEN" "42" "xyz789" (Num 1000) start in
  sent_texts (st_trace run.2)
  = ["⬇️ Downloading 2 file(s) and preparing zip..."; msg_zip_too_large 2000;
     member_link (mkFile "i1" "a.txt" (Some 300)); member_link (mkFile "i2" "b.txt" None)]
  ∧ st_fs run.2 !! zip_path big_archive "xyz789" = Some (mkNode false 2000).
Proof.
  destruct (C5_archive_over_budget big_archive "TOKEN" "42" "xyz789" 1000 2000 start
              (mkList 200 (Ok (Some two_files))) two_files "a1b2c3")
    as (_ & Htr & _ & _ & Hzip);
    [reflexivity|reflexivity|reflexivity|done|vm_compute; discriminate|reflexivity
    | | |reflexivity|lia|reflexivity|].
  { intros h token chat_id text. by exists true. }
  { intros h url outPath. by exists (Some 500). }
  cbv zeta. split; [|done].
  rewrite Htr. vm_compute. reflexivity.
Defined.

(** C6: the staging area of a folder is not all removed on the failure paths.
    With an archive over the budget (exit code 0 after the link messages) and
    with an upload that fails (exit code 1), the staging directory and the
    downloads are removed but the archive file is still there at the end of
    the run; only the success path removes it. *)
Theorem C6_archive_left_on_failure_paths :
  let zipPath := zip_path calm "xyz789" in
  let over := main Number_decimal decode_plain big_archive
                (env folder_link (Some "1000")) start in
  let failed := main Number_decimal decode_plain upload_fails
                  (env folder_link None) start in
  let success := main Number_decimal decode_plain listing (env folder_link None) start in
  (over.1 = 0 ∧ map_to_list (st_fs over.2) = [(zipPath, mkNode false 2000)])
  ∧ (failed.1 = 1 ∧ map_to_list (st_fs failed.2) = [(zipPath, mkNode false 400)])
  ∧ (success.1 = 0 ∧ map_to_list (st_fs success.2) = []).
Proof. cbv zeta. split_and!; vm_compute; reflexivity. Qed.

(** ** C7 *)



(** The separators are not counted by the loop: fifty lines of sixty
    characters go out as one message of 3098 characters. *)
Example chunk_of_fifty_lines :
  let lines := replicate 50 (letters 60) in
  chunk_messages calm "TOKEN" "42" lines start = [join sep2 lines]
  ∧ str_len (join sep2 lines) = 3098.
Proof. cbv zeta. split; vm_compute; reflexivity. Qed.

(** ** C8 *)

(** C8, as stated, fails: with a link to another site the start notification
    is sent, a network call, before the link is classified. *)
Lemma C8_counterexample_start_notification :
  ¬ unrecognized_without_calls Number_decimal decode_plain calm (env stray_link None) start.
Proof.
  intros H. destruct H as [_ Hcalls]; [reflexivity|reflexivity|].
  vm_compute in Hcalls. discriminate Hcalls.
Qed.

Lemma C8_witness :
  main Number_decimal decode_plain calm (env stray_link None) start
  = (1, mkState ∅
          [EvSendMessage "TOKEN" "42" msg_start;
           EvSendMessage "TOKEN" "42" (msg_error err_no_link)]).
Proof.
  rewrite (C8_unrecognized_link Number_decimal decode_plain calm (env stray_link None) start);
    reflexivity.
Defined.

(** ** Instances of the further properties *)

Lemma file_within_budget_run_witness :
  (handleFile Number_decimal decode_plain (curl_without_url calm)
     "TOKEN" "42" "abc123" (Num 1000) start).1
  = Throw (new_Error "curl exited with 2").
Proof.
  destruct (file_within_budget_run Number_decimal decode_plain (curl_without_url calm)
              "TOKEN" "42" "abc123" (Num 1000) start
              (log (EvHead (fileApiUrl "abc123")) start)
              "pixeldrain-abc123" "a1b2c3" None 500)
    as (Hr & _); [reflexivity|reflexivity|reflexivity| | | |reflexivity|exact Hr].
  - intros h. reflexivity.
  - intros h token chat_id text. by exists true.
  - intros h. reflexivity.
Defined.

Lemma captured_id_sound_witness :
  "abc123" ≠ "" ∧ all_chars idchar "abc123" = true
  ∧ has_char "/" "abc123" = false ∧ contains "abc123" file_link.
Proof.
  apply (captured_id_sound file_link "abc123"). left. vm_compute. reflexivity.
Defined.

Lemma canonical_link_classified_witness :
  PIXEL_FILE_RE (canonical_link true false "u" "abc123" +:+ "?download") = Some "abc123"
  ∧ PIXEL_FOLDER_RE (canonical_link true false "l" "abc123" +:+ "?download") = Some "abc123"
  ∧ PIXEL_FOLDER_RE (canonical_link true false "u" "abc123") = None
  ∧ PIXEL_FILE_RE (canonical_link true false "l" "abc123") = None.
Proof.
  apply (canonical_link_classified true false "abc123" "?download");
    [discriminate|reflexivity|reflexivity].
Defined.

Lemma match_filename_sound_witness :
  "report.pdf" ≠ "" ∧ contains "report.pdf" "attachment; filename=report.pdf"
  ∧ (has_char ";" "report.pdf" = false ∨ has_char dquote "report.pdf" = false).
Proof.
  apply (match_filename_sound "attachment; filename=report.pdf" "report.pdf").
  vm_compute. reflexivity.
Defined.

Lemma match_filename_forms_witness :
  match_filename ("attachment; " +:+ "filename=" +:+ "report.pdf") = Some "report.pdf".
Proof.
  destruct (match_filename_forms "attachment; " "report.pdf" "") as [Hsimple _];
    [reflexivity|discriminate|].
  destruct Hsimple as [_ Hbare]; [reflexivity|exact Hbare].
Defined.

Lemma chunk_messages_edges_witness :
  chunk_messages calm "TOKEN" "42" ["ab"; "cd"] start = [join sep2 ["ab"; "cd"]].
Proof.
  destruct (chunk_messages_edges calm "TOKEN" "42" ["ab"; "cd"] start) as (_ & Hone & _).
  - intros h token chat_id text. by exists true.
  - apply Hone; [discriminate|]. vm_compute. discriminate.
Defined.

Lemma archive_outside_staging_witness :
  under (path_join (w_tmpdir calm) "pixeldrain-" +:+ "a1b2c3") (zip_path calm "xyz789")
  = false.
Proof. apply (archive_outside_staging calm "xyz789" "a1b2c3"). reflexivity. Defined.

Lemma failed_probe_degrades_witness :
  probeFile Number_decimal decode_plain calm "abc123" start
  = (Ok ("pixeldrain-" +:+ "abc123", None), log (EvHead (fileApiUrl "abc123")) start).
Proof.
  destruct (failed_probe_degrades Number_decimal decode_plain calm
              "TOKEN" "42" "abc123" (Num 1000) start) as [Hp _];
    [left; reflexivity|exact Hp].
Defined.

Lemma undecodable_name_aborts_witness :
  handleFile Number_decimal decode_malformed
    (with_head (mkHead 200 (Some "attachment; filename=a%ZZ.bin") None) calm)
    "TOKEN" "42" "abc123" (Num 1000) start
  = (Throw (mkError "URIError" "URI malformed"), log (EvHead (fileApiUrl "abc123")) start).
Proof.
  apply (undecodable_name_aborts Number_decimal decode_malformed
           (with_head (mkHead 200 (Some "attachment; filename=a%ZZ.bin") None) calm)
           "TOKEN" "42" "abc123" (Num 1000) start
           (mkHead 200 (Some "attachment; filename=a%ZZ.bin") None) "a%ZZ.bin");
    [reflexivity|reflexivity|vm_compute; reflexivity|reflexivity].
Defined.

Lemma missing_configuration_witness :
  main Number_decimal decode_plain calm
    (mkEnv (Some file_link) None (Some "42") None) start = (1, start).
Proof.
  destruct (missing_configuration Number_decimal decode_plain calm
              (mkEnv (Some file_link) None (Some "42") None) start) as (_ & Hquiet & _);
    [reflexivity|].
  apply Hquiet. reflexivity.
Defined.

Lemma oversize_file_never_uploaded_witness :
  Forall (λ e, not_upload e = true)
    (new_events (handleFile Number_decimal decode_plain calm "TOKEN" "42" "abc123" (Num 100))
       start).
Proof.
  apply (oversize_file_never_uploaded Number_decimal decode_plain calm
           "TOKEN" "42" "abc123" 100 500 start); [|lia].
  intros h outPath. reflexivity.
Defined.

Lemma oversize_archive_never_uploaded_witness :
  Forall (λ e, not_upload e = true)
    (new_events (handleFolder listing "TOKEN" "42" "xyz789" (Num 350)) start).
Proof.
  apply (oversize_archive_never_uploaded listing "TOKEN" "42" "xyz789" 350 400 start);
    [|lia].
  intros h zipPath tmpDir. reflexivity.
Defined.

Lemma folder_staging_removed_witness :
  staging_removed "/tmp/pixeldrain-a1b2c3"
    (st_fs (handleFolder upload_fails "TOKEN" "42" "xyz789" (Num 1000) start).2).
Proof.
  apply (folder_staging_removed upload_fails "TOKEN" "42" "xyz789" (Num 1000) start
           (mkList 200 (Ok (Some two_files))) two_files "a1b2c3");
    [reflexivity|reflexivity|reflexivity|discriminate|reflexivity|reflexivity
    |vm_compute; reflexivity].
Defined.

Lemma folder_download_failure_witness :
  ∃ e, (handleFolder (with_wget (SpawnExit (Some 8), None) listing)
          "TOKEN" "42" "xyz789" (Num 1000) start).1 = Throw e.
Proof.
  destruct (folder_download_failure (with_wget (SpawnExit (Some 8), None) listing)
              "TOKEN" "42" "xyz789" (Num 1000) start
              (mkList 200 (Ok (Some two_files))) []
              (mkFile "i1" "a.txt" (Some 300)) [mkFile "i2" "b.txt" None] "a1b2c3")
    as (Hthrow & _);
    [reflexivity|reflexivity|reflexivity|reflexivity| | | | |vm_compute; reflexivity
    |exact Hthrow].
  - intros h. reflexivity.
  - intros h token chat_id text. by exists true.
  - intros h g Hg. inversion Hg.
  - intros h. reflexivity.
Defined.

Lemma colliding_members_share_file_witness :
  new_events (download_all calm "/tmp/d" [mkFile "i1" "a/b" None; mkFile "i2" "a_b" None])
    start
  = [EvWget (fileApiUrl "i1") "/tmp/d/a_b"; EvWget (fileApiUrl "i2") "/tmp/d/a_b"].
Proof.
  destruct (colliding_members_share_file calm "/tmp/d"
              (mkFile "i1" "a/b" None) (mkFile "i2" "a_b" None) start) as (_ & _ & Hrun);
    [reflexivity|reflexivity|].
  apply Hrun. reflexivity.
Defined.

Lemma rejected_messages_unnoticed_witness :
  main Number_decimal decode_plain
    (mkWorld "/tmp" (λ _ _ _ _, Ok false) (w_head calm) (w_fetch listing) (w_mkdtemp calm)
       (w_wget calm) (w_zip calm) (w_curl calm))
    (env folder_link (Some "1000")) start
  = main Number_decimal decode_plain listing (env folder_link (Some "1000")) start.
Proof.
  apply (rejected_messages_unnoticed Number_decimal decode_plain
           (mkWorld "/tmp" (λ _ _ _ _, Ok false) (w_head calm) (w_fetch listing)
              (w_mkdtemp calm) (w_wget calm) (w_zip calm) (w_curl calm))
           listing (env folder_link (Some "1000")) start).
  reflexivity.
Defined.

